(** * chart-testing: the orchestration engine of [pkg/chart/chart.go]

    A shallow embedding of the [Testing] orchestrator: chart selection,
    the version gate, the lint, install and upgrade pipelines and the
    aggregation of per-chart results, followed by the properties the
    specification states about them.

    The collaborators ([Git], [Helm], [Kubectl], ...) are Go interfaces;
    here they are records of functions over an abstract world [W].
    Every call the orchestrator makes to a collaborator, and every line it
    writes to standard output, is recorded in a trace, so that statements
    such as "the upgrade is not attempted" can be expressed.  A Go run-time
    panic is an explicit outcome.  A nil slice and an empty slice are both
    the empty list.

    [NewTesting], which builds the collaborators, and [PrintResults],
    which reports a result list, take no part in the orchestration and are
    left out. *)

From Stdlib Require Import ZArith Ascii String.
From stdpp Require Import base list strings gmap.

Open Scope string_scope.

(* ===================================================================== *)
(** ** Go standard library functions used by the source *)
(* ===================================================================== *)

Definition nl : string := String (Ascii.ascii_of_nat 10) "".

(** [strings.Cut]: the text before and after the first [sep]. *)
Fixpoint strings_Cut (s : string) (sep : ascii) : option (string * string) :=
  match s with
  | "" => None
  | String c s' =>
      if Ascii.eqb c sep then Some ("", s')
      else match strings_Cut s' sep with
           | Some (before, after) => Some (String c before, after)
           | None => None
           end
  end.

(** [strings.SplitN(s, sep, n)] for a one-character separator and [n >= 0]:
    at most [n] substrings, the last one being the unsplit remainder;
    [n = 0] gives the nil slice. *)
Fixpoint strings_SplitN (s : string) (sep : ascii) (n : nat) : list string :=
  match n with
  | 0 => []
  | S n' =>
      match n' with
      | 0 => [s]
      | S _ =>
          match strings_Cut s sep with
          | None => [s]
          | Some (before, after) => before :: strings_SplitN after sep n'
          end
      end
  end.

(** [strings.Split(s, sep)]: every substring between separators. *)
Fixpoint strings_Split (s : string) (sep : ascii) : list string :=
  match s with
  | "" => [""]
  | String c s' =>
      if Ascii.eqb c sep then "" :: strings_Split s' sep
      else match strings_Split s' sep with
           | [] => [String c ""]
           | x :: xs => String c x :: xs
           end
  end.

Fixpoint strings_Join (elems : list string) (sep : string) : string :=
  match elems with
  | [] => ""
  | [x] => x
  | x :: rest => x ++ sep ++ strings_Join rest sep
  end.

(** [utf8.RuneError], the rune that stands for a byte that is no UTF-8. *)
Definition RuneError : Z := 65533%Z.

Definition byteOf (c : ascii) : Z := Z.of_N (N_of_ascii c).

(** The length of the encoding that the first byte announces ([first] in
    [unicode/utf8]): one byte below 0x80, two from 0xC2 to 0xDF, three
    from 0xE0 to 0xEF, four from 0xF0 to 0xF4; [0] for a byte that starts
    no encoding. *)
Definition runeSize (s0 : Z) : nat :=
  if Z.ltb s0 128%Z then 1
  else if Z.ltb s0 194%Z then 0
  else if Z.ltb s0 224%Z then 2
  else if Z.ltb s0 240%Z then 3
  else if Z.ltb s0 245%Z then 4
  else 0.

(** The second bytes accepted after the first byte ([acceptRanges]). *)
Definition acceptRange (s0 : Z) : Z * Z :=
  if Z.eqb s0 224%Z then (160%Z, 191%Z)
  else if Z.eqb s0 237%Z then (128%Z, 159%Z)
  else if Z.eqb s0 240%Z then (144%Z, 191%Z)
  else if Z.eqb s0 244%Z then (128%Z, 143%Z)
  else (128%Z, 191%Z).

Definition continuation (b : Z) : bool := Z.leb 128%Z b && Z.leb b 191%Z.

(** [utf8.DecodeRuneInString]: the first rune of [s] and its width in
    bytes; [(RuneError, 1)] for an encoding that is invalid or cut short. *)
Definition utf8_DecodeRuneInString (s : string) : Z * nat :=
  match s with
  | "" => (RuneError, 0)
  | String c0 s' =>
      let s0 := byteOf c0 in
      match runeSize s0 with
      | 0 => (RuneError, 1)
      | 1 => (s0, 1)
      | sz =>
          if Nat.ltb (String.length s) sz then (RuneError, 1)
          else
            match s' with
            | String c1 (String c2 (String c3 _)) =>
                let '(s1, s2, s3) := (byteOf c1, byteOf c2, byteOf c3) in
                let '(lo, hi) := acceptRange s0 in
                if Z.ltb s1 lo || Z.ltb hi s1 then (RuneError, 1)
                else if Nat.leb sz 2
                then (Z.lor (Z.shiftl (Z.land s0 31%Z) 6%Z) (Z.land s1 63%Z), 2)
                else if negb (continuation s2) then (RuneError, 1)
                else if Nat.leb sz 3
                then (Z.lor (Z.shiftl (Z.land s0 15%Z) 12%Z)
                        (Z.lor (Z.shiftl (Z.land s1 63%Z) 6%Z) (Z.land s2 63%Z)), 3)
                else if negb (continuation s3) then (RuneError, 1)
                else (Z.lor (Z.shiftl (Z.land s0 7%Z) 18%Z)
                        (Z.lor (Z.shiftl (Z.land s1 63%Z) 12%Z)
                           (Z.lor (Z.shiftl (Z.land s2 63%Z) 6%Z) (Z.land s3 63%Z))), 4)
            | String c1 (String c2 "") =>
                let '(s1, s2) := (byteOf c1, byteOf c2) in
                let '(lo, hi) := acceptRange s0 in
                if Z.ltb s1 lo || Z.ltb hi s1 then (RuneError, 1)
                else if Nat.leb sz 2
                then (Z.lor (Z.shiftl (Z.land s0 31%Z) 6%Z) (Z.land s1 63%Z), 2)
                else if negb (continuation s2) then (RuneError, 1)
                else (Z.lor (Z.shiftl (Z.land s0 15%Z) 12%Z)
                        (Z.lor (Z.shiftl (Z.land s1 63%Z) 6%Z) (Z.land s2 63%Z)), 3)
            | String c1 "" =>
                let s1 := byteOf c1 in
                let '(lo, hi) := acceptRange s0 in
                if Z.ltb s1 lo || Z.ltb hi s1 then (RuneError, 1)
                else (Z.lor (Z.shiftl (Z.land s0 31%Z) 6%Z) (Z.land s1 63%Z), 2)
            | "" => (RuneError, 1)
            end
      end
  end.

(** [unicode.IsSpace]: U+0009 to U+000D, U+0020, U+0085 and U+00A0 in
    Latin-1; beyond it U+1680, U+2000 to U+200A, U+2028, U+2029, U+202F,
    U+205F and U+3000. *)
Definition unicode_IsSpace (r : Z) : bool :=
  if Z.leb r 255%Z
  then Z.leb 9%Z r && Z.leb r 13%Z || Z.eqb r 32%Z || Z.eqb r 133%Z
       || Z.eqb r 160%Z
  else Z.eqb r 5760%Z || Z.leb 8192%Z r && Z.leb r 8202%Z
       || Z.eqb r 8232%Z || Z.eqb r 8233%Z || Z.eqb r 8239%Z
       || Z.eqb r 8287%Z || Z.eqb r 12288%Z.

(** The walk of [strings.FieldsFunc] over the runes of [s]: [pending]
    bytes of the rune that was decoded last are still to be passed,
    [inField] tells whether that rune belongs to the field [cur]. *)
Fixpoint fields_from (f : Z -> bool) (s : string) (pending : nat)
    (inField : bool) (cur : string) : list string :=
  match s with
  | "" => if String.eqb cur "" then [] else [cur]
  | String c s' =>
      match pending with
      | S n =>
          fields_from f s' n inField
            (if inField then cur ++ String c "" else cur)
      | O =>
          let '(r, size) := utf8_DecodeRuneInString s in
          if f r
          then (if String.eqb cur "" then fields_from f s' (size - 1) false ""
                else cur :: fields_from f s' (size - 1) false "")
          else fields_from f s' (size - 1) true (cur ++ String c "")
      end
  end.

(** [strings.FieldsFunc]: the maximal runs of runes that do not satisfy
    [f]. *)
Definition strings_FieldsFunc (s : string) (f : Z -> bool) : list string :=
  fields_from f s 0 false "".

(** [strings.Fields]: the fields of [s] between white space, as
    [unicode.IsSpace] has it (on a string of ASCII bytes the short cut
    that [strings.Fields] takes gives the same fields). *)
Definition strings_Fields (s : string) : list string :=
  strings_FieldsFunc s unicode_IsSpace.

Fixpoint trimLeft (s : string) (c : ascii) : string :=
  match s with
  | String a s' => if Ascii.eqb a c then trimLeft s' c else s
  | "" => ""
  end.

(** [strings.Trim(s, cutset)] for a one-character cutset. *)
Definition strings_Trim (s : string) (c : ascii) : string :=
  String.rev (trimLeft (String.rev (trimLeft s c)) c).

Definition rooted (p : string) : bool :=
  match p with
  | String c _ => Ascii.eqb c "/"%char
  | "" => false
  end.

(** One path element pushed on the (reversed) list of kept elements, as
    [path.Clean] processes it. *)
Definition clean_step (root : bool) (kept : list string) (elem : string)
  : list string :=
  if String.eqb elem "" || String.eqb elem "." then kept
  else if String.eqb elem ".." then
    match kept with
    | top :: below => if String.eqb top ".." then elem :: kept else below
    | [] => if root then [] else [elem]
    end
  else elem :: kept.

(** [path.Clean] (and [filepath.Clean] with [/] as the separator). *)
Definition path_Clean (p : string) : string :=
  let kept := fold_left (clean_step (rooted p)) (strings_Split p "/"%char) [] in
  let body := strings_Join (rev kept) "/" in
  if rooted p then "/" ++ body
  else if String.eqb body "" then "." else body.

(** [path.Join]: the elements from the first non-empty one on, joined by
    slashes and cleaned; the empty string when every element is empty. *)
Fixpoint path_Join (elems : list string) : string :=
  match elems with
  | [] => ""
  | e :: rest =>
      if String.eqb e "" then path_Join rest
      else path_Clean (strings_Join elems "/")
  end.

(** [filepath.Dir]: everything up to the last separator, cleaned. *)
Definition filepath_Dir (p : string) : string :=
  match strings_Split p "/"%char with
  | [] | [_] => path_Clean ""
  | elems => path_Clean (strings_Join (removelast elems) "/" ++ "/")
  end.

(** [path.Base]: the last element of the path. *)
Definition path_Base (p : string) : string :=
  if String.eqb p "" then "."
  else match rev (filter (fun e => e <> "") (strings_Split p "/"%char)) with
       | [] => "/"
       | e :: _ => e
       end.

(** [filepath.ToSlash] where the separator already is the slash. *)
Definition filepath_ToSlash (p : string) : string := p.

Arguments path_Clean : simpl never.
Arguments path_Join : simpl never.
Arguments path_Base : simpl never.
Arguments filepath_Dir : simpl never.
Arguments strings_Fields : simpl never.

(* ===================================================================== *)
(** ** Errors, results and the data the orchestrator handles *)
(* ===================================================================== *)

(** A non-nil Go [error]; the nil error is [None] in [option error]. *)
Inductive error : Type :=
  | errors_New (msg : string)
  | fmt_Errorf (msg : string)
  | errors_Wrap (cause : error) (msg : string).

(** [err.Error()] *)
Fixpoint error_text (e : error) : string :=
  match e with
  | errors_New msg => msg
  | fmt_Errorf msg => msg
  | errors_Wrap cause msg => msg ++ ": " ++ error_text cause
  end.

Definition is_nil (e : option error) : bool :=
  match e with None => true | Some _ => false end.

(** [util.Maintainer] and [util.ChartYaml], as far as the source reads them. *)
Record Maintainer : Type := { Name : string; Email : string }.

Record ChartYaml : Type := {
  Version : string;
  Deprecated : bool;
  Maintainers : list Maintainer
}.

(** [config.Configuration], restricted to the fields the source reads. *)
Record Configuration : Type := {
  HelmRepoExtraArgs : list string;
  ChartRepos : list string;
  Upgrade : bool;
  CheckVersionIncrementFlag : bool;
  ValidateChartSchema : bool;
  ChartYamlSchema : string;
  ValidateYaml : bool;
  LintConf : string;
  ValidateMaintainersFlag : bool;
  Namespace : string;
  BuildId : string;
  ReleaseLabel : string;
  ProcessAllCharts : bool;
  Charts : list string;
  Remote : string;
  TargetBranch : string;
  ChartDirs : list string;
  ExcludedCharts : list string
}.

(** TestResult holds test results for a specific chart. *)
Record TestResult : Type := { Chart : string; Error : option error }.

(** TestResults holds results and overall status. *)
Record TestResults : Type := {
  OverallSuccess : bool;
  TestResultList : list TestResult
}.

(* ===================================================================== *)
(** ** The trace, the state and the monad *)
(* ===================================================================== *)

Inductive Event : Type :=
  | Stdout (text : string)
  | PrintDelimiterLine (delimiter : string)
  | EvFileExistsOnBranch (file remote branch : string)
  | EvShow (file remote branch : string)
  | EvAddWorkingTree (path ref : string)
  | EvRemoveWorkingTree (path : string)
  | EvMergeBase (commit1 commit2 : string)
  | EvListChangedFilesInDirs (commit : string) (dirs : list string)
  | EvGetUrlForRemote (remote : string)
  | EvValidateRepository
  | EvInit
  | EvAddRepo (name url : string) (extraArgs : list string)
  | EvBuildDependencies (chart : string)
  | EvLintWithValues (chart valuesFile : string)
  | EvInstallWithValues (chart valuesFile namespace release : string)
  | EvUpgrade (chart release : string)
  | EvTest (release : string) (cleanup : bool)
  | EvDeleteRelease (release : string)
  | EvDeleteNamespace (namespace : string)
  | EvWaitForDeployments (namespace selector : string)
  | EvGetPods (args : list string)
  | EvDescribePod (namespace pod : string)
  | EvLogs (namespace pod container : string)
  | EvGetInitContainers (namespace pod : string)
  | EvGetContainers (namespace pod : string)
  | EvYamlLint (yamlFile configFile : string)
  | EvYamale (yamlFile schemaFile : string)
  | EvListChildDirs (parentDir : string)
  | EvLookupChartDir (chartDirs : list string) (dir : string)
  | EvReadChartYaml (dir : string)
  | EvValidate (repoDomain account : string).

Inductive Res (A : Type) : Type :=
  | Ok (a : A)
  | Panic (msg : string).
Arguments Ok {A} a.
Arguments Panic {A} msg.

Record State (W : Type) : Type := MkState {
  world : W;
  trace : list Event
}.
Arguments MkState {W} world trace.
Arguments world {W} s.
Arguments trace {W} s.

Definition M (W A : Type) : Type := State W -> Res A * State W.

Section Monad.
Context {W : Type}.

Definition ret {A} (a : A) : M W A := fun s => (Ok a, s).

Definition bind {A B} (m : M W A) (k : A -> M W B) : M W B :=
  fun s =>
    match m s with
    | (Ok a, s') => k a s'
    | (Panic msg, s') => (Panic msg, s')
    end.

Definition panic {A} (msg : string) : M W A := fun s => (Panic msg, s).

Definition emit (e : Event) : M W unit :=
  fun s => (Ok tt, MkState (world s) (trace s ++ [e])).

(** A call to a collaborator: the call is recorded, then the world
    answers and moves on. *)
Definition call {A} (e : Event) (f : W -> A * W) : M W A :=
  fun s =>
    let '(a, w') := f (world s) in
    (Ok a, MkState w' (trace s ++ [e])).

(** A read of the world that is not a collaborator call. *)
Definition ask {A} (f : W -> A * W) : M W A :=
  fun s => let '(a, w') := f (world s) in (Ok a, MkState w' (trace s)).

(** [defer cleanup; body]: the deferred call runs when the body is left,
    by a return or by a panic, and the body's outcome stands. *)
Definition defer {A} (cleanup : M W unit) (body : M W A) : M W A :=
  fun s =>
    let '(r, s1) := body s in
    let '(_, s2) := cleanup s1 in
    (r, s2).

(** [s[i]] on a slice, with Go's bounds check. *)
Definition index (l : list string) (i : nat) : M W string :=
  match l !! i with
  | Some x => ret x
  | None => panic "runtime error: index out of range"
  end.
End Monad.

Notation "x <- m ;; k" := (bind m (fun x => k))
  (at level 100, m at next level, right associativity).
Notation "m ;;; k" := (bind m (fun _ => k))
  (at level 100, right associativity).

Section Loops.
Context {W : Type}.

(** A [for _, x := range xs] loop.  The body gets the loop-carried
    variables [acc] and answers [inr acc'] to go on with the next
    element or [inl r] to leave the loop (a [return] or a [break]). *)
Fixpoint forRange {A S R} (xs : list A) (acc : S)
    (body : A -> S -> M W (R + S)) : M W (R + S) :=
  match xs with
  | [] => ret (inr acc)
  | x :: rest =>
      r <- body x acc ;;
      match r with
      | inl v => ret (inl v)
      | inr acc' => forRange rest acc' body
      end
  end.
End Loops.

Definition fmt_Print {W} (text : string) : M W unit := emit (Stdout text).
Definition fmt_Println {W} (text : string) : M W unit := emit (Stdout (text ++ nl)).
Definition util_PrintDelimiterLine {W} (delimiter : string) : M W unit :=
  emit (PrintDelimiterLine delimiter).

(* ===================================================================== *)
(** ** The collaborators *)
(* ===================================================================== *)

(** Git is the interface that wraps Git operations. *)
Record Git (W : Type) : Type := {
  Git_FileExistsOnBranch : string -> string -> string -> W -> bool * W;
  Git_Show : string -> string -> string -> W -> (string * option error) * W;
  Git_AddWorkingTree : string -> string -> W -> option error * W;
  Git_RemoveWorkingTree : string -> W -> option error * W;
  Git_MergeBase : string -> string -> W -> (string * option error) * W;
  Git_ListChangedFilesInDirs :
    string -> list string -> W -> (list string * option error) * W;
  Git_GetUrlForRemote : string -> W -> (string * option error) * W;
  Git_ValidateRepository : W -> option error * W
}.

(** Helm is the interface that wraps Helm operations. *)
Record Helm (W : Type) : Type := {
  Helm_Init : W -> option error * W;
  Helm_AddRepo : string -> string -> list string -> W -> option error * W;
  Helm_BuildDependencies : string -> W -> option error * W;
  Helm_LintWithValues : string -> string -> W -> option error * W;
  Helm_InstallWithValues :
    string -> string -> string -> string -> W -> option error * W;
  Helm_Upgrade : string -> string -> W -> option error * W;
  Helm_Test : string -> bool -> W -> option error * W;
  Helm_DeleteRelease : string -> W -> W
}.

(** Kubectl is the interface that wraps kubectl operations. *)
Record Kubectl (W : Type) : Type := {
  Kubectl_DeleteNamespace : string -> W -> W;
  Kubectl_WaitForDeployments : string -> string -> W -> option error * W;
  Kubectl_GetPodsforDeployment :
    string -> string -> W -> (list string * option error) * W;
  Kubectl_GetPods : list string -> W -> (list string * option error) * W;
  Kubectl_DescribePod : string -> string -> W -> option error * W;
  Kubectl_Logs : string -> string -> string -> W -> option error * W;
  Kubectl_GetInitContainers :
    string -> string -> W -> (list string * option error) * W;
  Kubectl_GetContainers :
    string -> string -> W -> (list string * option error) * W
}.

(** Linter is the interface that wraps linting operations. *)
Record Linter (W : Type) : Type := {
  Linter_YamlLint : string -> string -> W -> option error * W;
  Linter_Yamale : string -> string -> W -> option error * W
}.

(** DirectoryLister lists the direct child directories of [parentDir] that
    pass the test function; the test itself may consult the world. *)
Record DirectoryLister (W : Type) : Type := {
  DirectoryLister_ListChildDirs :
    string -> (string -> W -> bool * W) -> W ->
    (list string * option error) * W
}.

(** ChartUtils is the interface that wraps chart-related methods.
    [ReadChartYaml] returns a pointer, which may be nil. *)
Record ChartUtils (W : Type) : Type := {
  ChartUtils_LookupChartDir :
    list string -> string -> W -> (string * option error) * W;
  ChartUtils_ReadChartYaml :
    string -> W -> (option ChartYaml * option error) * W
}.

(** AccountValidator is the interface that wraps Git account validation. *)
Record AccountValidator (W : Type) : Type := {
  AccountValidator_Validate : string -> string -> W -> option error * W
}.

Arguments Git_FileExistsOnBranch {W} _ _ _ _ _.
Arguments Git_Show {W} _ _ _ _ _.
Arguments Git_AddWorkingTree {W} _ _ _ _.
Arguments Git_RemoveWorkingTree {W} _ _ _.
Arguments Git_MergeBase {W} _ _ _ _.
Arguments Git_ListChangedFilesInDirs {W} _ _ _ _.
Arguments Git_GetUrlForRemote {W} _ _ _.
Arguments Git_ValidateRepository {W} _ _.
Arguments Helm_Init {W} _ _.
Arguments Helm_AddRepo {W} _ _ _ _ _.
Arguments Helm_BuildDependencies {W} _ _ _.
Arguments Helm_LintWithValues {W} _ _ _ _.
Arguments Helm_InstallWithValues {W} _ _ _ _ _ _.
Arguments Helm_Upgrade {W} _ _ _ _.
Arguments Helm_Test {W} _ _ _ _.
Arguments Helm_DeleteRelease {W} _ _ _.
Arguments Kubectl_DeleteNamespace {W} _ _ _.
Arguments Kubectl_WaitForDeployments {W} _ _ _ _.
Arguments Kubectl_GetPodsforDeployment {W} _ _ _ _.
Arguments Kubectl_GetPods {W} _ _ _.
Arguments Kubectl_DescribePod {W} _ _ _ _.
Arguments Kubectl_Logs {W} _ _ _ _ _.
Arguments Kubectl_GetInitContainers {W} _ _ _ _.
Arguments Kubectl_GetContainers {W} _ _ _ _.
Arguments Linter_YamlLint {W} _ _ _ _.
Arguments Linter_Yamale {W} _ _ _ _.
Arguments DirectoryLister_ListChildDirs {W} _ _ _ _.
Arguments ChartUtils_LookupChartDir {W} _ _ _ _.
Arguments ChartUtils_ReadChartYaml {W} _ _ _.
Arguments AccountValidator_Validate {W} _ _ _ _.

Record Testing (W : Type) : Type := {
  config : Configuration;
  helm : Helm W;
  kubectl : Kubectl W;
  git : Git W;
  linter : Linter W;
  accountValidator : AccountValidator W;
  directoryLister : DirectoryLister W;
  chartUtils : ChartUtils W
}.
Arguments config {W} t.
Arguments helm {W} t.
Arguments kubectl {W} t.
Arguments git {W} t.
Arguments linter {W} t.
Arguments accountValidator {W} t.
Arguments directoryLister {W} t.
Arguments chartUtils {W} t.

(** The functions of package [util] that [chart.go] calls and whose code
    is outside this file, together with [filepath.Glob], which reads the
    file system.
    - [util_CompareVersions left right] answers a negative, zero or
      positive number as [left] is lower than, equal to or greater than
      [right] in semantic-version order, or an error;
    - [util_BreakingChangeAllowed left right] answers whether the step from
      [left] to [right] may break compatibility, possibly with an error;
    - [util_ReadChartYaml] parses the contents of a [Chart.yaml];
    - [util_CreateInstallParams chart buildId] answers a release name and
      a namespace. *)
Class Util (W : Type) : Type := {
  util_CompareVersions : string -> string -> Z * option error;
  util_BreakingChangeAllowed : string -> string -> bool * option error;
  util_ReadChartYaml : string -> option ChartYaml * option error;
  util_CreateInstallParams : string -> string -> W -> (string * string) * W;
  filepath_Glob : string -> W -> list string
}.

(** Modelled from the spec: [util.StringSliceContains], the membership
    test behind "skip it if that name is excluded" and "only add it if
    not already in the list". *)
Definition util_StringSliceContains (slice : list string) (s : string) : bool :=
  existsb (String.eqb s) slice.

(* ===================================================================== *)
(** ** The orchestrator *)
(* ===================================================================== *)

Section Orchestrator.
Context {W : Type} {U : Util W}.

Local Abbreviation M := (M W).

(** Dereferencing a pointer the way Go does. *)
Definition deref {A} (p : option A) : M A :=
  match p with
  | Some a => ret a
  | None => panic "runtime error: invalid memory address or nil pointer dereference"
  end.

Definition ctPreviousRevisionTree : string := "ct_previous_revision".

(** computePreviousRevisionPath converts any file or directory path to
    the same path in the previous revision's working tree. *)
Definition computePreviousRevisionPath (dir : string) : string :=
  path_Join [ctPreviousRevisionTree; dir].

(** FindValuesFilesForCI returns all files in the 'ci' subfolder of the
    chart directory matching the pattern '*-values.yaml'. *)
Definition FindValuesFilesForCI (t : Testing W) (chart : string)
  : M (list string) :=
  let ciDir := path_Join [chart; "ci/*-values.yaml"] in
  ask (fun w => (filepath_Glob ciDir w, w)).

Definition computeMergeBase (t : Testing W) : M (string * option error) :=
  err <- call EvValidateRepository (Git_ValidateRepository (git t)) ;;
  match err with
  | Some _ => ret ("", Some (fmt_Errorf "Must be in a git repository"))
  | None =>
      let commit1 := Remote (config t) ++ "/" ++ TargetBranch (config t) in
      call (EvMergeBase commit1 "HEAD") (Git_MergeBase (git t) commit1 "HEAD")
  end.

(** GetOldChartVersion gets the version of the old Chart.yaml file from
    the target branch. *)
Definition GetOldChartVersion (t : Testing W) (chart : string)
  : M (string * option error) :=
  let cfg := config t in
  let chartYamlFile := path_Join [chart; "Chart.yaml"] in
  found <- call (EvFileExistsOnBranch chartYamlFile (Remote cfg) (TargetBranch cfg))
             (Git_FileExistsOnBranch (git t) chartYamlFile (Remote cfg) (TargetBranch cfg)) ;;
  if negb found then
    fmt_Print ("Unable to find chart on " ++ TargetBranch cfg
               ++ ". New chart detected." ++ nl) ;;;
    ret ("", None)
  else
    r <- call (EvShow chartYamlFile (Remote cfg) (TargetBranch cfg))
           (Git_Show (git t) chartYamlFile (Remote cfg) (TargetBranch cfg)) ;;
    let '(chartYamlContents, err) := r in
    match err with
    | Some e => ret ("", Some (errors_Wrap e "Error reading old Chart.yaml"))
    | None =>
        let '(chartYaml, err) := util_ReadChartYaml chartYamlContents in
        match err with
        | Some e => ret ("", Some (errors_Wrap e "Error reading old chart version"))
        | None => y <- deref chartYaml ;; ret (Version y, None)
        end
    end.

(** GetNewChartVersion gets the new version from the currently checked
    out Chart.yaml file. *)
Definition GetNewChartVersion (t : Testing W) (chart : string)
  : M (string * option error) :=
  r <- call (EvReadChartYaml chart) (ChartUtils_ReadChartYaml (chartUtils t) chart) ;;
  let '(chartYaml, err) := r in
  match err with
  | Some e => ret ("", Some (errors_Wrap e "Error reading new chart version"))
  | None => y <- deref chartYaml ;; ret (Version y, None)
  end.

(** CheckVersionIncrement checks that the new chart version is greater
    than the old one using semantic version comparison. *)
Definition CheckVersionIncrement (t : Testing W) (chart : string)
  : M (option error) :=
  fmt_Print ("Checking chart '" ++ chart ++ "' for a version bump..." ++ nl) ;;;
  r <- GetOldChartVersion t chart ;;
  let '(oldVersion, err) := r in
  match err with
  | Some e => ret (Some e)
  | None =>
      if String.eqb oldVersion "" then ret None
      else
        fmt_Println ("Old chart version: " ++ oldVersion) ;;;
        r <- GetNewChartVersion t chart ;;
        let '(newVersion, err) := r in
        match err with
        | Some e => ret (Some e)
        | None =>
            fmt_Println ("New chart version: " ++ newVersion) ;;;
            let '(result, err) := util_CompareVersions oldVersion newVersion in
            match err with
            | Some e => ret (Some e)
            | None =>
                if (0 <=? result)%Z
                then ret (Some (errors_New "Chart version not ok. Needs a version bump!"))
                else fmt_Println "Chart version ok." ;;; ret None
            end
        end
  end.

Definition checkBreakingChangeAllowed (t : Testing W) (chart : string)
  : M (bool * option error) :=
  r <- GetOldChartVersion t chart ;;
  let '(oldVersion, err) := r in
  match err with
  | Some e => ret (false, Some e)
  | None =>
      if String.eqb oldVersion ""
      then ret (true, Some (fmt_Errorf "chart has no previous revision"))
      else
        r <- GetNewChartVersion t chart ;;
        let '(newVersion, err) := r in
        match err with
        | Some e => ret (false, Some e)
        | None => ret (util_BreakingChangeAllowed oldVersion newVersion)
        end
  end.

(** ValidateMaintainers validates maintainers in the Chart.yaml file.
    Maintainer names must be valid accounts (GitHub, Bitbucket, GitLab)
    names.  Deprecated charts must not have maintainers. *)
Definition ValidateMaintainers (t : Testing W) (chart : string)
  : M (option error) :=
  fmt_Println "Validating maintainers..." ;;;
  r <- call (EvReadChartYaml chart) (ChartUtils_ReadChartYaml (chartUtils t) chart) ;;
  let '(chartYaml, err) := r in
  match err with
  | Some e => ret (Some e)
  | None =>
      y <- deref chartYaml ;;
      if Deprecated y then
        if Nat.ltb 0 (length (Maintainers y))
        then ret (Some (errors_New "Deprecated chart must not have maintainers"))
        else ret None
      else if Nat.eqb (length (Maintainers y)) 0
      then ret (Some (errors_New "Chart doesn't have maintainers"))
      else
        r <- call (EvGetUrlForRemote (Remote (config t)))
               (Git_GetUrlForRemote (git t) (Remote (config t))) ;;
        let '(repoUrl, err) := r in
        match err with
        | Some e => ret (Some e)
        | None =>
            r <- forRange (Maintainers y) tt (fun maintainer _ =>
                   err <- call (EvValidate repoUrl (Name maintainer))
                            (AccountValidator_Validate (accountValidator t)
                               repoUrl (Name maintainer)) ;;
                   match err with
                   | Some e => ret (inl (Some e))
                   | None => ret (inr tt)
                   end) ;;
            match r with
            | inl v => ret v
            | inr _ => ret None
            end
        end
  end.

Definition printDetails (pod text delimiterChar : string)
    (printFunc : string -> M (option error)) (items : list string) : M unit :=
  r <- forRange items tt (fun item _ =>
         let item := strings_Trim item "'"%char in
         util_PrintDelimiterLine delimiterChar ;;;
         fmt_Print ("==> " ++ text ++ " " ++ pod ++ nl) ;;;
         util_PrintDelimiterLine delimiterChar ;;;
         err <- printFunc item ;;
         match err with
         | Some e =>
             fmt_Println ("Error printing details: " ++ error_text e) ;;;
             ret (inl tt)
         | None =>
             util_PrintDelimiterLine delimiterChar ;;;
             fmt_Print ("<== " ++ text ++ " " ++ pod ++ nl) ;;;
             util_PrintDelimiterLine delimiterChar ;;;
             ret (inr tt)
         end) ;;
  ret tt.

Definition PrintPodDetailsAndLogs (t : Testing W) (namespace selector : string)
  : M unit :=
  let args := ["--no-headers"; "--namespace"; namespace; "--selector"; selector;
               "--output"; "jsonpath={.items[*].metadata.name}"] in
  r <- call (EvGetPods args) (Kubectl_GetPods (kubectl t) args) ;;
  let '(pods, err) := r in
  match err with
  | Some e => fmt_Println ("Error printing logs: " ++ error_text e)
  | None =>
      util_PrintDelimiterLine "=" ;;;
      r <- forRange pods tt (fun pod _ =>
             printDetails pod "Description of pod" "~"
               (fun item => call (EvDescribePod namespace pod)
                              (Kubectl_DescribePod (kubectl t) namespace pod))
               [pod] ;;;
             r <- call (EvGetInitContainers namespace pod)
                    (Kubectl_GetInitContainers (kubectl t) namespace pod) ;;
             let '(initContainers, err) := r in
             match err with
             | Some e =>
                 fmt_Println ("Error printing logs: " ++ error_text e) ;;;
                 ret (inl tt)
             | None =>
                 printDetails pod "Logs of init container" "-"
                   (fun item => call (EvLogs namespace pod item)
                                  (Kubectl_Logs (kubectl t) namespace pod item))
                   initContainers ;;;
                 r <- call (EvGetContainers namespace pod)
                        (Kubectl_GetContainers (kubectl t) namespace pod) ;;
                 let '(containers, err) := r in
                 match err with
                 | Some e =>
                     fmt_Println ("Error printing logs: " ++ error_text e) ;;;
                     ret (inl tt)
                 | None =>
                     printDetails pod "Logs of container" "-"
                       (fun item => call (EvLogs namespace pod item)
                                      (Kubectl_Logs (kubectl t) namespace pod item))
                       containers ;;;
                     ret (inr tt)
                 end
             end) ;;
      match r with
      | inl _ => ret tt
      | inr _ => util_PrintDelimiterLine "="
      end
  end.

Definition DeleteRelease (t : Testing W) (release : string) : M unit :=
  call (EvDeleteRelease release)
    (fun w => (tt, Helm_DeleteRelease (helm t) release w)).

Definition DeleteNamespace (t : Testing W) (namespace : string) : M unit :=
  call (EvDeleteNamespace namespace)
    (fun w => (tt, Kubectl_DeleteNamespace (kubectl t) namespace w)).

(** The install identity of one test attempt and the function that
    releases what was created under it. *)
Definition generateInstallConfig (t : Testing W) (chart : string)
  : M (string * string * string * M unit) :=
  if negb (String.eqb (Namespace (config t)) "") then
    let namespace := Namespace (config t) in
    r <- ask (util_CreateInstallParams chart (BuildId (config t))) ;;
    let '(release, _) := r in
    let releaseSelector := ReleaseLabel (config t) ++ "=" ++ release in
    let cleanup :=
      PrintPodDetailsAndLogs t namespace releaseSelector ;;;
      DeleteRelease t release in
    ret (namespace, release, releaseSelector, cleanup)
  else
    r <- ask (util_CreateInstallParams chart (BuildId (config t))) ;;
    let '(release, namespace) := r in
    let releaseSelector := "" in
    let cleanup :=
      PrintPodDetailsAndLogs t namespace releaseSelector ;;;
      DeleteRelease t release ;;;
      DeleteNamespace t namespace in
    ret (namespace, release, releaseSelector, cleanup).

Definition testRelease (t : Testing W) (release namespace releaseSelector : string)
    (cleanupHelmTests : bool) : M (option error) :=
  err <- call (EvWaitForDeployments namespace releaseSelector)
           (Kubectl_WaitForDeployments (kubectl t) namespace releaseSelector) ;;
  match err with
  | Some e => ret (Some e)
  | None =>
      err <- call (EvTest release cleanupHelmTests)
               (Helm_Test (helm t) release cleanupHelmTests) ;;
      match err with
      | Some e => ret (Some e)
      | None => ret None
      end
  end.

(** Test with defaults if no values files are specified. *)
Definition orDefaults (valuesFiles : list string) : list string :=
  if Nat.eqb (length valuesFiles) 0 then (valuesFiles ++ [""])%list else valuesFiles.

(** The anonymous function of [doInstall]: one install under a fresh
    identity, released when the function is left. *)
Definition doInstall_fun (t : Testing W) (chart valuesFile : string)
  : M (option error) :=
  r <- generateInstallConfig t chart ;;
  let '(namespace, release, releaseSelector, cleanup) := r in
  defer cleanup
    (err <- call (EvInstallWithValues chart valuesFile namespace release)
              (Helm_InstallWithValues (helm t) chart valuesFile namespace release) ;;
     match err with
     | Some e => ret (Some e)
     | None => testRelease t release namespace releaseSelector false
     end).

Definition doInstall (t : Testing W) (chart : string) : M (option error) :=
  fmt_Print ("Installing chart '" ++ chart ++ "'..." ++ nl) ;;;
  valuesFiles <- FindValuesFilesForCI t chart ;;
  let valuesFiles := orDefaults valuesFiles in
  r <- forRange valuesFiles tt (fun valuesFile _ =>
         (if negb (String.eqb valuesFile "")
          then fmt_Print (nl ++ "Installing chart with values file '"
                          ++ valuesFile ++ "'..." ++ nl ++ nl)
          else ret tt) ;;;
         err <- doInstall_fun t chart valuesFile ;;
         match err with
         | Some e => ret (inl (Some e))
         | None => ret (inr tt)
         end) ;;
  match r with
  | inl v => ret v
  | inr _ => ret None
  end.

(** The anonymous function of [doUpgrade]: install the old chart, test
    it, upgrade the release, test it again. *)
Definition doUpgrade_fun (t : Testing W) (oldChart : string)
    (oldChartMustPass : bool) (valuesFile : string) : M (option error) :=
  r <- generateInstallConfig t oldChart ;;
  let '(namespace, release, releaseSelector, cleanup) := r in
  defer cleanup
    (err <- call (EvInstallWithValues oldChart valuesFile namespace release)
              (Helm_InstallWithValues (helm t) oldChart valuesFile namespace release) ;;
     match err with
     | Some e =>
         if oldChartMustPass then ret (Some e)
         else
           fmt_Println (error_text (errors_Wrap e
             ("Upgrade testing for release '" ++ release
              ++ "' skipped because of previous revision installation error"))) ;;;
           ret None
     | None =>
         err <- testRelease t release namespace releaseSelector true ;;
         match err with
         | Some e =>
             if oldChartMustPass then ret (Some e)
             else
               fmt_Println (error_text (errors_Wrap e
                 ("Upgrade testing for release '" ++ release
                  ++ "' skipped because of previous revision testing error"))) ;;;
               ret None
         | None =>
             err <- call (EvUpgrade oldChart release)
                      (Helm_Upgrade (helm t) oldChart release) ;;
             match err with
             | Some e => ret (Some e)
             | None => testRelease t release namespace releaseSelector false
             end
         end
     end).

(** The line that announces a values file. *)
Definition announceValuesFile (oldChart valuesFile : string) : M unit :=
  if negb (String.eqb valuesFile "")
  then fmt_Print (nl ++ "Installing chart '" ++ oldChart
                  ++ "' with values file '" ++ valuesFile ++ "'..." ++ nl ++ nl)
  else ret tt.

(** One turn of the loop of [doUpgrade] over the values files. *)
Definition doUpgrade_iter (t : Testing W) (oldChart : string)
    (oldChartMustPass : bool) (valuesFile : string) (_ : unit)
  : M (option error + unit) :=
  announceValuesFile oldChart valuesFile ;;;
  err <- doUpgrade_fun t oldChart oldChartMustPass valuesFile ;;
  match err with
  | Some e => ret (inl (Some e))
  | None => ret (inr tt)
  end.

(** The values files [doUpgrade] goes through: those of the old chart,
    or the defaults. *)
Definition doUpgrade_valuesFiles (t : Testing W) (oldChart newChart : string)
  : M (list string) :=
  fmt_Print ("Testing upgrades of chart '" ++ newChart
             ++ "' relative to previous revision '" ++ oldChart ++ "'..." ++ nl) ;;;
  valuesFiles <- FindValuesFilesForCI t oldChart ;;
  ret (orDefaults valuesFiles).

Definition doUpgrade (t : Testing W) (oldChart newChart : string)
    (oldChartMustPass : bool) : M (option error) :=
  valuesFiles <- doUpgrade_valuesFiles t oldChart newChart ;;
  r <- forRange valuesFiles tt (doUpgrade_iter t oldChart oldChartMustPass) ;;
  match r with
  | inl v => ret v
  | inr _ => ret None
  end.

(** UpgradeChart tests in-place upgrades of the specified chart relative
    to its previous revisions.  If the initial install or helm test of a
    previous revision of the chart fails, that release is ignored and no
    error will be returned.  If the latest revision of the chart
    introduces a potentially breaking change according to the SemVer
    specification, upgrade testing will be skipped. *)
Definition UpgradeChart (t : Testing W) (chart : string) : M TestResult :=
  let result := {| Chart := chart; Error := None |} in
  r <- checkBreakingChangeAllowed t chart ;;
  let '(breakingChangeAllowed, err) := r in
  if breakingChangeAllowed then
    match err with
    | Some e =>
        fmt_Println (error_text (errors_Wrap e
          ("Skipping upgrade test of '" ++ chart ++ "' because"))) ;;;
        ret result
    | None => ret result
    end
  else
    match err with
    | Some e =>
        fmt_Print ("Error comparing chart versions for '" ++ chart ++ "'" ++ nl) ;;;
        ret {| Chart := chart; Error := Some e |}
    | None =>
        err <- doUpgrade t (computePreviousRevisionPath chart) chart false ;;
        ret {| Chart := chart; Error := err |}
    end.

(** InstallChart installs the specified chart into a new namespace,
    waits for resources to become ready, and eventually uninstalls it
    and deletes the namespace again. *)
Definition InstallChart (t : Testing W) (chart : string)
    (valuesFiles : list string) : M TestResult :=
  let install :=
    err <- doInstall t chart ;;
    ret {| Chart := chart; Error := err |} in
  if Upgrade (config t) then
    result <- UpgradeChart t chart ;;
    match Error result with
    | Some _ => ret result
    | None =>
        err <- doUpgrade t chart chart true ;;
        match err with
        | Some e => ret {| Chart := Chart result; Error := Some e |}
        | None => install
        end
    end
  else install.

(** One optional stage of the lint pipeline: a failure ends the
    pipeline with the error as the chart's result. *)
Definition lintStage (chart : string) (check : M (option error))
    (rest : M TestResult) : M TestResult :=
  err <- check ;;
  match err with
  | Some e => ret {| Chart := chart; Error := Some e |}
  | None => rest
  end.

(** LintChart lints the specified chart. *)
Definition LintChart (t : Testing W) (chart : string)
    (valuesFiles : list string) : M TestResult :=
  let cfg := config t in
  fmt_Print ("Linting chart '" ++ chart ++ "'" ++ nl) ;;;
  (if CheckVersionIncrementFlag cfg
   then lintStage chart (CheckVersionIncrement t chart) else id)
  (let chartYaml := path_Join [chart; "Chart.yaml"] in
   let valuesYaml := path_Join [chart; "values.yaml"] in
   (if ValidateChartSchema cfg
    then lintStage chart
           (call (EvYamale chartYaml (ChartYamlSchema cfg))
              (Linter_Yamale (linter t) chartYaml (ChartYamlSchema cfg)))
    else id)
   ((if ValidateYaml cfg
     then lintStage chart
            (let yamlFiles := ([chartYaml; valuesYaml] ++ valuesFiles)%list in
             r <- forRange yamlFiles tt (fun yamlFile _ =>
                    err <- call (EvYamlLint yamlFile (LintConf cfg))
                             (Linter_YamlLint (linter t) yamlFile (LintConf cfg)) ;;
                    match err with
                    | Some e => ret (inl (Some e))
                    | None => ret (inr tt)
                    end) ;;
             match r with
             | inl v => ret v
             | inr _ => ret None
             end)
     else id)
    ((if ValidateMaintainersFlag cfg
      then lintStage chart (ValidateMaintainers t chart) else id)
     (let valuesFiles := orDefaults valuesFiles in
      r <- forRange valuesFiles tt (fun valuesFile _ =>
             (if negb (String.eqb valuesFile "")
              then fmt_Print (nl ++ "Linting chart with values file '"
                              ++ valuesFile ++ "'..." ++ nl ++ nl)
              else ret tt) ;;;
             err <- call (EvLintWithValues chart valuesFile)
                      (Helm_LintWithValues (helm t) chart valuesFile) ;;
             match err with
             | Some e => ret (inl (Some e))
             | None => ret (inr tt)
             end) ;;
      match r with
      | inl err => ret {| Chart := chart; Error := err |}
      | inr _ => ret {| Chart := chart; Error := None |}
      end)))).

(** LintAndInstallChart first lints and then installs the specified chart. *)
Definition LintAndInstallChart (t : Testing W) (chart : string)
    (valuesFiles : list string) : M TestResult :=
  result <- LintChart t chart valuesFiles ;;
  match Error result with
  | Some _ => ret result
  | None => InstallChart t chart valuesFiles
  end.

(** ComputeChangedChartDirectories takes the merge base of HEAD and the
    configured remote and target branch and computes a slice of changed
    charts from that in the configured chart directories excluding those
    configured to be excluded. *)
Definition changedChartDirs_step (t : Testing W) (file : string)
    (changedChartDirs : list string) : M (list string * option error + list string) :=
  let cfg := config t in
  let pathElements := strings_SplitN (filepath_ToSlash file) "/"%char 3 in
  if Nat.ltb (length pathElements) 2 then ret (inr changedChartDirs)
  else
    second <- index pathElements 1 ;;
    if util_StringSliceContains (ExcludedCharts cfg) second
    then ret (inr changedChartDirs)
    else
      let dir := filepath_Dir file in
      r <- call (EvLookupChartDir (ChartDirs cfg) dir)
             (ChartUtils_LookupChartDir (chartUtils t) (ChartDirs cfg) dir) ;;
      let '(chartDir, err) := r in
      match err with
      | None =>
          if negb (util_StringSliceContains changedChartDirs chartDir)
          then ret (inr (changedChartDirs ++ [chartDir])%list)
          else ret (inr changedChartDirs)
      | Some _ =>
          fmt_Print ("Directory '" ++ chartDir
                     ++ "' is no chart directory. Skipping...") ;;;
          ret (inr changedChartDirs)
      end.

Definition ComputeChangedChartDirectories (t : Testing W)
  : M (list string * option error) :=
  let cfg := config t in
  r <- computeMergeBase t ;;
  let '(mergeBase, err) := r in
  match err with
  | Some e => ret ([], Some e)
  | None =>
      r <- call (EvListChangedFilesInDirs mergeBase (ChartDirs cfg))
             (Git_ListChangedFilesInDirs (git t) mergeBase (ChartDirs cfg)) ;;
      let '(allChangedChartFiles, err) := r in
      match err with
      | Some e => ret ([], Some (errors_Wrap e "Error creating diff"))
      | None =>
          r <- forRange allChangedChartFiles [] (changedChartDirs_step t) ;;
          match r with
          | inl v => ret v
          | inr changedChartDirs => ret (changedChartDirs, None)
          end
      end
  end.

(** ReadAllChartDirectories returns a slice of all charts in the
    configured chart directories except those configured to be excluded. *)
Definition ReadAllChartDirectories (t : Testing W)
  : M (list string * option error) :=
  let cfg := config t in
  r <- forRange (ChartDirs cfg) [] (fun chartParentDir chartDirs =>
         r <- call (EvListChildDirs chartParentDir)
                (DirectoryLister_ListChildDirs (directoryLister t) chartParentDir
                   (fun dir w =>
                      let '((_, err), w') :=
                        ChartUtils_LookupChartDir (chartUtils t) (ChartDirs cfg) dir w in
                      (is_nil err
                       && negb (util_StringSliceContains (ExcludedCharts cfg)
                                  (path_Base dir)), w'))) ;;
         let '(dirs, err) := r in
         match err with
         | Some e => ret (inl ([], Some (errors_Wrap e "Error reading chart directories")))
         | None => ret (inr (chartDirs ++ dirs)%list)
         end) ;;
  match r with
  | inl v => ret v
  | inr chartDirs => ret (chartDirs, None)
  end.

(** FindChartsToBeProcessed identifies charts to be processed depending
    on the configuration (changed charts, all charts, or specific charts). *)
Definition FindChartsToBeProcessed (t : Testing W)
  : M (list string * option error) :=
  let cfg := config t in
  if ProcessAllCharts cfg then ReadAllChartDirectories t
  else if Nat.ltb 0 (length (Charts cfg)) then ret (Charts cfg, None)
  else ComputeChangedChartDirectories t.

(** The banner listing the charts to be processed. *)
Definition printCharts (charts : list string) : M unit :=
  fmt_Println "" ;;;
  util_PrintDelimiterLine "-" ;;;
  fmt_Println " Charts to be processed:" ;;;
  util_PrintDelimiterLine "-" ;;;
  r <- forRange (R := unit) charts tt (fun chart _ =>
         fmt_Print (" " ++ chart ++ nl) ;;; ret (inr tt)) ;;
  util_PrintDelimiterLine "-" ;;;
  fmt_Println "".

(** The extra arguments per repository name, from the entries
    [name=args] of [HelmRepoExtraArgs]. *)
Definition collectRepoArgs (t : Testing W)
  : M (list TestResult * option error + gmap string (list string)) :=
  forRange (HelmRepoExtraArgs (config t)) (∅ : gmap string (list string))
    (fun repo repoArgs =>
       let repoSlice := strings_SplitN repo "="%char 2 in
       name <- index repoSlice 0 ;;
       extra <- index repoSlice 1 ;;
       let repoExtraArgs := strings_Fields extra in
       ret (inr (<[name := repoExtraArgs]> repoArgs))).

(** The registration of the repositories [name=url] of [ChartRepos]. *)
Definition addRepos (t : Testing W) (repoArgs : gmap string (list string))
  : M (list TestResult * option error + unit) :=
  forRange (ChartRepos (config t)) tt
    (fun repo _ =>
       let repoSlice := strings_SplitN repo "="%char 2 in
       name <- index repoSlice 0 ;;
       url <- index repoSlice 1 ;;
       let repoExtraArgs := default [] (repoArgs !! name) in
       err <- call (EvAddRepo name url repoExtraArgs)
                (Helm_AddRepo (helm t) name url repoExtraArgs) ;;
       match err with
       | Some e =>
           ret (inl ([], Some (errors_Wrap e
                  ("Error adding repo: " ++ name ++ "=" ++ url))))
       | None => ret (inr tt)
       end).

(** The build of the dependencies of the previous revision of every
    chart: a failure is only printed. *)
Definition buildPreviousRevisions (t : Testing W) (charts : list string)
  : M unit :=
  r <- forRange (R := unit) charts tt (fun chart _ =>
         err <- call (EvBuildDependencies (computePreviousRevisionPath chart))
                  (Helm_BuildDependencies (helm t)
                     (computePreviousRevisionPath chart)) ;;
         match err with
         | Some e =>
             fmt_Println (error_text (errors_Wrap e
               ("Error building dependencies for previous revision of chart '"
                ++ chart ++ "'" ++ nl))) ;;;
             ret (inr tt)
         | None => ret (inr tt)
         end) ;;
  ret tt.

(** The per-chart loop: build the dependencies, run the action, collect
    the result. *)
Definition runCharts (t : Testing W)
    (action : string -> list string -> M TestResult)
    (charts : list string) (results : list TestResult)
  : M (list TestResult * option error) :=
  let testResults := {| OverallSuccess := true; TestResultList := results |} in
  r <- forRange charts (results, testResults)
         (fun chart '(results, testResults) =>
            valuesFiles <- FindValuesFilesForCI t chart ;;
            err <- call (EvBuildDependencies chart)
                     (Helm_BuildDependencies (helm t) chart) ;;
            match err with
            | Some e =>
                ret (inl ([], Some (errors_Wrap e
                       ("Error building dependencies for chart '" ++ chart ++ "'"))))
            | None =>
                result <- action chart valuesFiles ;;
                let testResults :=
                  match Error result with
                  | Some _ => {| OverallSuccess := false;
                                 TestResultList := TestResultList testResults |}
                  | None => testResults
                  end in
                ret (inr ((results ++ [result])%list, testResults))
            end) ;;
  match r with
  | inl v => ret v
  | inr (results, testResults) =>
      if OverallSuccess testResults then ret (results, None)
      else ret (results, Some (errors_New "Error processing charts"))
  end.

(** The first part of [processCharts], up to the registration of the
    repositories: [inl] is what an early [return] hands back, [inr] the
    charts to be processed. *)
Definition prepareRun (t : Testing W)
  : M (list TestResult * option error + list string) :=
  let results : list TestResult := [] in
  r <- FindChartsToBeProcessed t ;;
  let '(charts, err) := r in
  match err with
  | Some e =>
      ret (inl ([], Some (errors_Wrap e "Error identifying charts to process")))
  | None =>
      if Nat.eqb (length charts) 0 then ret (inl (results, None))
      else
        printCharts charts ;;;
        err <- call EvInit (Helm_Init (helm t)) ;;
        match err with
        | Some e => ret (inl ([], Some (errors_Wrap e "Error initializing Helm")))
        | None =>
            r <- collectRepoArgs t ;;
            match r with
            | inl v => ret (inl v)
            | inr repoArgs =>
                r <- addRepos t repoArgs ;;
                match r with
                | inl v => ret (inl v)
                | inr _ => ret (inr charts)
                end
            end
        end
  end.

Definition processCharts (t : Testing W)
    (action : string -> list string -> M TestResult)
  : M (list TestResult * option error) :=
  let results : list TestResult := [] in
  r <- prepareRun t ;;
  match r with
  | inl v => ret v
  | inr charts =>
      if Upgrade (config t) then
        r <- computeMergeBase t ;;
        let '(mergeBase, err) := r in
        match err with
        | Some e =>
            ret (results, Some (errors_Wrap e "Error identifying merge base"))
        | None =>
            _ <- call (EvAddWorkingTree ctPreviousRevisionTree mergeBase)
                   (Git_AddWorkingTree (git t) ctPreviousRevisionTree mergeBase) ;;
            defer
              (_ <- call (EvRemoveWorkingTree ctPreviousRevisionTree)
                      (Git_RemoveWorkingTree (git t) ctPreviousRevisionTree) ;;
               ret tt)
              (buildPreviousRevisions t charts ;;;
               runCharts t action charts results)
        end
      else runCharts t action charts results
  end.

(** LintCharts lints charts (changed, all, specific) depending on the
    configuration. *)
Definition LintCharts (t : Testing W) : M (list TestResult * option error) :=
  processCharts t (LintChart t).

(** InstallCharts install charts (changed, all, specific) depending on
    the configuration. *)
Definition InstallCharts (t : Testing W) : M (list TestResult * option error) :=
  processCharts t (InstallChart t).

(** LintAndInstallCharts first lints and then installs charts (changed,
    all, specific) depending on the configuration. *)
Definition LintAndInstallCharts (t : Testing W)
  : M (list TestResult * option error) :=
  processCharts t (LintAndInstallChart t).

End Orchestrator.

(* ===================================================================== *)
(** ** Semantic versions *)
(* ===================================================================== *)

Definition digit (c : ascii) : option N :=
  let n := N_of_ascii c in
  if (48 <=? n)%N && (n <=? 57)%N then Some (n - 48)%N else None.

Fixpoint number_from (s : string) (acc : N) : option N :=
  match s with
  | "" => Some acc
  | String c s' =>
      match digit c with
      | Some d => number_from s' (10 * acc + d)%N
      | None => None
      end
  end.

Definition number (s : string) : option N :=
  if String.eqb s "" then None else number_from s 0%N.

(** A version [MAJOR.MINOR.PATCH]. *)
Definition parseVersion (s : string) : option (N * N * N) :=
  match strings_Split s "."%char with
  | [a; b; c] =>
      match number a, number b, number c with
      | Some x, Some y, Some z => Some (x, y, z)
      | _, _, _ => None
      end
  | _ => None
  end.

Definition compareVersion (l r : N * N * N) : comparison :=
  let '(l1, l2, l3) := l in
  let '(r1, r2, r3) := r in
  match (l1 ?= r1)%N with
  | Eq => match (l2 ?= r2)%N with
          | Eq => (l3 ?= r3)%N
          | c => c
          end
  | c => c
  end.

Definition parseError : error := errors_New "Error parsing semantic version".

(** Modelled from the spec: [util.CompareVersions], "parse both versions
    as semantic versions"; the answer is -1, 0 or 1 as the left version is
    lower than, equal to or greater than the right one, and "malformed
    version strings are a hard error". *)
Definition semver_CompareVersions (left right : string) : Z * option error :=
  match parseVersion left, parseVersion right with
  | Some l, Some r =>
      (match compareVersion l r with Lt => -1 | Eq => 0 | Gt => 1 end%Z, None)
  | _, _ => (0%Z, Some parseError)
  end.

(** Modelled from the spec: [util.BreakingChangeAllowed], "a major-version
    change (or, for versions below 1.0.0, a minor-version change) is
    considered breaking and allowed to skip upgrade testing; any other
    increment is not breaking"; "malformed version strings are a hard
    error". *)
Definition semver_BreakingChangeAllowed (left right : string) : bool * option error :=
  match parseVersion left, parseVersion right with
  | Some (l1, l2, _), Some (r1, r2, _) =>
      (negb (l1 =? r1)%N || ((l1 =? 0)%N && negb (l2 =? r2)%N), None)
  | _, _ => (false, Some parseError)
  end.

(** A version comparison that hands the reason for a breaking change back
    as an error next to [allowed = true], which the signature of
    [util.BreakingChangeAllowed] permits and [UpgradeChart] prints after
    "Skipping upgrade test of ... because". *)
Definition reasoned_BreakingChangeAllowed (left right : string) : bool * option error :=
  match semver_BreakingChangeAllowed left right with
  | (true, None) =>
      (true, Some (errors_New (right ++ " does not have same major version as " ++ left)))
  | r => r
  end.

(* ===================================================================== *)
(** ** A scripted environment *)
(* ===================================================================== *)

(** Collaborators that answer from a script and keep no state of their
    own: [failing] says which calls fail, the other fields what the
    calls that return data answer. *)
Record Script : Type := {
  failing : Event -> option error;
  onBranch : string -> bool;
  shown : string -> string;
  parsed : string -> option ChartYaml;
  chartYamlOf : string -> option ChartYaml;
  mergeBaseRef : string;
  changedFiles : list string;
  chartRootOf : string -> string;
  childDirsOf : string -> list string;
  remoteUrl : string;
  podsOf : list string;
  initContainersOf : string -> list string;
  containersOf : string -> list string;
  globbed : string -> list string;
  breaking : string -> string -> bool * option error
}.

Definition scriptedGit (sc : Script) : Git unit := {|
  Git_FileExistsOnBranch file remote branch w := (onBranch sc file, w);
  Git_Show file remote branch w :=
    ((shown sc file, failing sc (EvShow file remote branch)), w);
  Git_AddWorkingTree path ref w := (failing sc (EvAddWorkingTree path ref), w);
  Git_RemoveWorkingTree path w := (failing sc (EvRemoveWorkingTree path), w);
  Git_MergeBase c1 c2 w := ((mergeBaseRef sc, failing sc (EvMergeBase c1 c2)), w);
  Git_ListChangedFilesInDirs commit dirs w :=
    ((changedFiles sc, failing sc (EvListChangedFilesInDirs commit dirs)), w);
  Git_GetUrlForRemote remote w :=
    ((remoteUrl sc, failing sc (EvGetUrlForRemote remote)), w);
  Git_ValidateRepository w := (failing sc EvValidateRepository, w)
|}.

Definition scriptedHelm (sc : Script) : Helm unit := {|
  Helm_Init w := (failing sc EvInit, w);
  Helm_AddRepo name url extraArgs w := (failing sc (EvAddRepo name url extraArgs), w);
  Helm_BuildDependencies chart w := (failing sc (EvBuildDependencies chart), w);
  Helm_LintWithValues chart valuesFile w :=
    (failing sc (EvLintWithValues chart valuesFile), w);
  Helm_InstallWithValues chart valuesFile namespace release w :=
    (failing sc (EvInstallWithValues chart valuesFile namespace release), w);
  Helm_Upgrade chart release w := (failing sc (EvUpgrade chart release), w);
  Helm_Test release cleanup w := (failing sc (EvTest release cleanup), w);
  Helm_DeleteRelease release w := w
|}.

Definition scriptedKubectl (sc : Script) : Kubectl unit := {|
  Kubectl_DeleteNamespace namespace w := w;
  Kubectl_WaitForDeployments namespace selector w :=
    (failing sc (EvWaitForDeployments namespace selector), w);
  Kubectl_GetPodsforDeployment namespace deployment w := (([], None), w);
  Kubectl_GetPods args w := ((podsOf sc, failing sc (EvGetPods args)), w);
  Kubectl_DescribePod namespace pod w := (failing sc (EvDescribePod namespace pod), w);
  Kubectl_Logs namespace pod container w :=
    (failing sc (EvLogs namespace pod container), w);
  Kubectl_GetInitContainers namespace pod w :=
    ((initContainersOf sc pod, failing sc (EvGetInitContainers namespace pod)), w);
  Kubectl_GetContainers namespace pod w :=
    ((containersOf sc pod, failing sc (EvGetContainers namespace pod)), w)
|}.

Definition scriptedLinter (sc : Script) : Linter unit := {|
  Linter_YamlLint yamlFile configFile w := (failing sc (EvYamlLint yamlFile configFile), w);
  Linter_Yamale yamlFile schemaFile w := (failing sc (EvYamale yamlFile schemaFile), w)
|}.

Definition scriptedLister (sc : Script) : DirectoryLister unit := {|
  DirectoryLister_ListChildDirs parentDir test w :=
    ((filter (fun dir => fst (test dir w) = true) (childDirsOf sc parentDir),
      failing sc (EvListChildDirs parentDir)), w)
|}.

Definition scriptedChartUtils (sc : Script) : ChartUtils unit := {|
  ChartUtils_LookupChartDir chartDirs dir w :=
    match failing sc (EvLookupChartDir chartDirs dir) with
    | Some e => (("", Some e), w)
    | None => ((chartRootOf sc dir, None), w)
    end;
  ChartUtils_ReadChartYaml dir w :=
    match failing sc (EvReadChartYaml dir) with
    | Some e => ((None, Some e), w)
    | None => ((chartYamlOf sc dir, None), w)
    end
|}.

Definition scriptedValidator (sc : Script) : AccountValidator unit := {|
  AccountValidator_Validate repoDomain account w :=
    (failing sc (EvValidate repoDomain account), w)
|}.

Definition scripted (cfg : Configuration) (sc : Script) : Testing unit := {|
  config := cfg;
  helm := scriptedHelm sc;
  kubectl := scriptedKubectl sc;
  git := scriptedGit sc;
  linter := scriptedLinter sc;
  accountValidator := scriptedValidator sc;
  directoryLister := scriptedLister sc;
  chartUtils := scriptedChartUtils sc
|}.

Definition scriptedUtil (sc : Script) : Util unit := {|
  util_CompareVersions := semver_CompareVersions;
  util_BreakingChangeAllowed := breaking sc;
  util_ReadChartYaml contents :=
    match parsed sc contents with
    | Some y => (Some y, None)
    | None => (None, Some (errors_New "yaml: unmarshal errors"))
    end;
  util_CreateInstallParams chart buildId w :=
    let release := path_Base chart in
    let namespace := if String.eqb buildId "" then release
                     else release ++ "-" ++ buildId in
    ((release ++ "-k3x9", namespace ++ "-k3x9"), w);
  filepath_Glob pattern w := globbed sc pattern
|}.

Definition start : State unit := MkState tt [].

Definition defaultConfig : Configuration := {|
  HelmRepoExtraArgs := [];
  ChartRepos := [];
  Upgrade := false;
  CheckVersionIncrementFlag := false;
  ValidateChartSchema := false;
  ChartYamlSchema := "chart_schema.yaml";
  ValidateYaml := false;
  LintConf := "lintconf.yaml";
  ValidateMaintainersFlag := false;
  Namespace := "";
  BuildId := "";
  ReleaseLabel := "app.kubernetes.io/instance";
  ProcessAllCharts := false;
  Charts := [];
  Remote := "origin";
  TargetBranch := "master";
  ChartDirs := ["charts"];
  ExcludedCharts := []
|}.

(** Nothing fails, nothing exists: the script the examples start from. *)
Definition quiet : Script := {|
  failing _ := None;
  onBranch _ := false;
  shown _ := "";
  parsed _ := None;
  chartYamlOf _ := None;
  mergeBaseRef := "4f2a9c1";
  changedFiles := [];
  chartRootOf dir := dir;
  childDirsOf _ := [];
  remoteUrl := "https://github.com/example/charts";
  podsOf := [];
  initContainersOf _ := [];
  containersOf _ := [];
  globbed _ := [];
  breaking := semver_BreakingChangeAllowed
|}.

(* ===================================================================== *)
(** ** Vocabulary of the properties *)
(* ===================================================================== *)

(** The error [processCharts] returns when some chart failed. *)
Definition aggregateError : error := errors_New "Error processing charts".

(** A per-chart result that carries an error. *)
Definition failed (r : TestResult) : Prop := Error r <> None.

(** The events chart selection may produce. *)
Definition selection_event (e : Event) : bool :=
  match e with
  | Stdout _ | EvValidateRepository | EvMergeBase _ _
  | EvListChangedFilesInDirs _ _ | EvLookupChartDir _ _
  | EvListChildDirs _ => true
  | _ => false
  end.

(** The steps that exercise the new revision: the upgrade of the release
    and the test that follows it (the test of the old revision is the one
    that cleans up after itself). *)
Definition upgrade_attempt (e : Event) : bool :=
  match e with
  | EvUpgrade _ _ | EvTest _ false => true
  | _ => false
  end.

(** The events of the release of an install identity. *)
Definition cleanup_event (e : Event) : bool :=
  match e with
  | Stdout _ | PrintDelimiterLine _ | EvGetPods _ | EvDescribePod _ _
  | EvLogs _ _ _ | EvGetInitContainers _ _ | EvGetContainers _ _
  | EvDeleteRelease _ | EvDeleteNamespace _ => true
  | _ => false
  end.

(** The elements of a list in the order of their first occurrence. *)
Fixpoint first_seen (l : list string) : list string :=
  match l with
  | [] => []
  | x :: rest => x :: filter (fun y => y <> x) (first_seen rest)
  end.

(** "Only add it if not already in the list." *)
Definition addNew (dirs : list string) (dir : string) : list string :=
  if util_StringSliceContains dirs dir then dirs else (dirs ++ [dir])%list.

(** A changed file takes part in change detection when it has a second
    path segment and that segment is not an excluded chart. *)
Definition considered (excluded : list string) (file : string) : bool :=
  match strings_SplitN (filepath_ToSlash file) "/"%char 3 with
  | _ :: second :: _ => negb (util_StringSliceContains excluded second)
  | _ => false
  end.

(** The chart roots the considered files resolve to, in file order, for a
    lookup whose answer depends on the directory alone. *)
Definition resolved (resolve : string -> string * option error)
    (excluded : list string) (files : list string) : list string :=
  omap (fun file =>
          if considered excluded file
          then match resolve (filepath_Dir file) with
               | (chartDir, None) => Some chartDir
               | (_, Some _) => None
               end
          else None) files.

(** The diagnostic for a directory that is no chart directory. *)
Definition skipDiagnostic (chartDir : string) : Event :=
  Stdout ("Directory '" ++ chartDir ++ "' is no chart directory. Skipping...").

(** What the build of the dependencies of the previous revision of one
    chart leaves in the trace: the call and, when it failed with [e], the
    line that reports it. *)
Definition previousBuildEvents (chart : string) (outcome : option error)
  : list Event :=
  EvBuildDependencies (computePreviousRevisionPath chart) ::
  match outcome with
  | Some e =>
      [Stdout (error_text (errors_Wrap e
                 ("Error building dependencies for previous revision of chart '"
                  ++ chart ++ "'" ++ nl)) ++ nl)]
  | None => []
  end.

(** What [UpgradeChart] prints when the upgrade test is skipped: the
    error that came with the permission, if there is one. *)
Definition skipNotice (chart : string) (err : option error) : list Event :=
  match err with
  | Some e =>
      [Stdout (error_text (errors_Wrap e
                 ("Skipping upgrade test of '" ++ chart ++ "' because")) ++ nl)]
  | None => []
  end.

(** What [UpgradeChart] prints when the version gate fails. *)
Definition gateFailureNotice (chart : string) : Event :=
  Stdout ("Error comparing chart versions for '" ++ chart ++ "'" ++ nl).

Section PreviousBuilds.
Context {W : Type}.

(** What Helm answers when the dependencies of the previous revisions of
    [charts] are built one after the other from the world [w], and the
    world the last build leaves. *)
Fixpoint previousBuilds (t : Testing W) (charts : list string) (w : W)
  : list (option error) * W :=
  match charts with
  | [] => ([], w)
  | chart :: rest =>
      let '(outcome, w1) :=
        Helm_BuildDependencies (helm t) (computePreviousRevisionPath chart) w in
      let '(outcomes, w2) := previousBuilds t rest w1 in
      (outcome :: outcomes, w2)
  end.

(** The removal of the working tree of the previous revision that
    [processCharts] defers. *)
Definition removePreviousRevision (t : Testing W) : M W unit :=
  _ <- call (EvRemoveWorkingTree ctPreviousRevisionTree)
         (Git_RemoveWorkingTree (git t) ctPreviousRevisionTree) ;;
  ret tt.
End PreviousBuilds.

(** A run-level failure: an empty list and a wrapped error. *)
Definition aborted (v : list TestResult * option error) : Prop :=
  fst v = [] /\ exists cause msg, snd v = Some (errors_Wrap cause msg).

Section UpgradeSteps.
Context {W : Type} {U : Util W}.
Implicit Types (t : Testing W) (s : State W).

(** Started in [s] for one values file, [doUpgrade] fails to install the
    old revision, or installs it and fails to test it, with error [e]. *)
Definition old_revision_fails t (oldChart valuesFile : string) s (e : error) : Prop :=
  exists namespace release selector cleanup s1,
    generateInstallConfig t oldChart s
    = (Ok (namespace, release, selector, cleanup), s1) /\
    let installed :=
      call (EvInstallWithValues oldChart valuesFile namespace release)
        (Helm_InstallWithValues (helm t) oldChart valuesFile namespace release) s1 in
    fst installed = Ok (Some e) \/
    (fst installed = Ok None /\
     fst (testRelease t release namespace selector true (snd installed))
     = Ok (Some e)).

(** Started in [s] for one values file, the old revision is installed
    and tested, and then the upgrade, or the test of the upgraded
    release, fails with error [e]. *)
Definition new_revision_fails t (oldChart valuesFile : string) s (e : error) : Prop :=
  exists namespace release selector cleanup s1,
    generateInstallConfig t oldChart s
    = (Ok (namespace, release, selector, cleanup), s1) /\
    let installed :=
      call (EvInstallWithValues oldChart valuesFile namespace release)
        (Helm_InstallWithValues (helm t) oldChart valuesFile namespace release) s1 in
    let tested := testRelease t release namespace selector true (snd installed) in
    let upgraded :=
      call (EvUpgrade oldChart release)
        (Helm_Upgrade (helm t) oldChart release) (snd tested) in
    fst installed = Ok None /\
    fst tested = Ok None /\
    (fst upgraded = Ok (Some e) \/
     (fst upgraded = Ok None /\
      fst (testRelease t release namespace selector false (snd upgraded))
      = Ok (Some e))).
End UpgradeSteps.

Section Aggregation.
Context {W : Type} {U : Util W}.

(** What the result list and the error of a run of [processCharts] have
    to do with each other: the error is [aggregateError] exactly when
    some result failed; with that error or with none, there is one
    result for each selected chart, in order; any other error is a
    wrapped run-level error and comes with an empty list. *)
Definition aggregates (t : Testing W)
    (run : M W (list TestResult * option error)) : Prop :=
  forall s results err s',
    run s = (Ok (results, err), s') ->
    (err = Some aggregateError <-> Exists failed results) /\
    (err = None \/ err = Some aggregateError ->
       exists charts s1,
         FindChartsToBeProcessed t s = (Ok (charts, None), s1) /\
         map Chart results = charts) /\
    (err <> None -> err <> Some aggregateError ->
       results = [] /\ exists cause msg, err = Some (errors_Wrap cause msg)).
End Aggregation.

(** A repository entry without the [=] that separates name and value. *)
Definition malformed (repo : string) : Prop := strings_Cut repo "="%char = None.

Section Answers.
Context {W : Type} {U : Util W}.
Implicit Types (t : Testing W) (w : W).

(** The [Chart.yaml] of the chart is not on the target branch. *)
Definition absent_on_branch t (chart : string) w : Prop :=
  fst (Git_FileExistsOnBranch (git t) (path_Join [chart; "Chart.yaml"])
         (Remote (config t)) (TargetBranch (config t)) w) = false.

(** The target branch has the chart, at version [old]; reading it takes
    the world from [w] to [w']. *)
Definition old_version_is t (chart : string) w (old : string) w' : Prop :=
  let file := path_Join [chart; "Chart.yaml"] in
  let remote := Remote (config t) in
  let branch := TargetBranch (config t) in
  exists w1 contents y,
    Git_FileExistsOnBranch (git t) file remote branch w = (true, w1) /\
    Git_Show (git t) file remote branch w1 = ((contents, None), w') /\
    util_ReadChartYaml contents = (Some y, None) /\
    Version y = old.

(** The working copy has the chart at version [new]. *)
Definition new_version_is t (chart : string) w (new : string) w' : Prop :=
  exists y,
    ChartUtils_ReadChartYaml (chartUtils t) chart w = ((Some y, None), w') /\
    Version y = new.
End Answers.

Section Runs.
Context {W : Type}.

(** Every run of [m] extends the trace by events that satisfy [P]. *)
Definition emits {A} (P : Event -> Prop) (m : M W A) : Prop :=
  forall s, exists l, trace (snd (m s)) = (trace s ++ l)%list /\ Forall P l.

(** Every value [m] returns satisfies [Q]. *)
Definition returns {A} (Q : A -> Prop) (m : M W A) : Prop :=
  forall s a s', m s = (Ok a, s') -> Q a.
End Runs.

(* ===================================================================== *)
(** ** Scripts of the examples *)
(* ===================================================================== *)

(** A chart released at version [old] on the target branch and at version
    [new] in the working copy. *)
Definition versions (old new : string) : Script := {|
  failing _ := None;
  onBranch file := String.eqb file "charts/foo/Chart.yaml";
  shown _ := old;
  parsed contents := Some {| Version := contents; Deprecated := false; Maintainers := [] |};
  chartYamlOf _ := Some {| Version := new; Deprecated := false; Maintainers := [] |};
  mergeBaseRef := "4f2a9c1";
  changedFiles := ["charts/foo/Chart.yaml"];
  chartRootOf dir := dir;
  childDirsOf _ := [];
  remoteUrl := "https://github.com/example/charts";
  podsOf := [];
  initContainersOf _ := [];
  containersOf _ := [];
  globbed _ := [];
  breaking := semver_BreakingChangeAllowed
|}.

(** Four charts: deprecated with a maintainer, deprecated without,
    maintained by nobody, and maintained by two accounts of which the
    second one is unknown to the hosting site. *)
Definition maintained : Script := {|
  failing e :=
    match e with
    | EvValidate _ "mallory" => Some (errors_New "account not found")
    | _ => None
    end;
  onBranch _ := false;
  shown _ := "";
  parsed _ := None;
  chartYamlOf dir :=
    let alice := {| Name := "alice"; Email := "alice@example.com" |} in
    let mallory := {| Name := "mallory"; Email := "" |} in
    if String.eqb dir "charts/retired"
    then Some {| Version := "1.0.0"; Deprecated := true; Maintainers := [alice] |}
    else if String.eqb dir "charts/buried"
    then Some {| Version := "1.0.0"; Deprecated := true; Maintainers := [] |}
    else if String.eqb dir "charts/orphan"
    then Some {| Version := "1.0.0"; Deprecated := false; Maintainers := [] |}
    else Some {| Version := "1.0.0"; Deprecated := false;
                 Maintainers := [alice; mallory] |};
  mergeBaseRef := "4f2a9c1";
  changedFiles := [];
  chartRootOf dir := dir;
  childDirsOf _ := [];
  remoteUrl := "https://github.com/example/charts";
  podsOf := [];
  initContainersOf _ := [];
  containersOf _ := [];
  globbed _ := [];
  breaking := semver_BreakingChangeAllowed
|}.

(** From 1.0.0 to 2.0.0, with a version comparison that gives the reason
    for the breaking change as an error. *)
Definition majorBump : Script := {|
  failing _ := None;
  onBranch file := String.eqb file "charts/foo/Chart.yaml";
  shown _ := "1.0.0";
  parsed contents := Some {| Version := contents; Deprecated := false; Maintainers := [] |};
  chartYamlOf _ := Some {| Version := "2.0.0"; Deprecated := false; Maintainers := [] |};
  mergeBaseRef := "4f2a9c1";
  changedFiles := ["charts/foo/Chart.yaml"];
  chartRootOf dir := dir;
  childDirsOf _ := [];
  remoteUrl := "https://github.com/example/charts";
  podsOf := [];
  initContainersOf _ := [];
  containersOf _ := [];
  globbed _ := [];
  breaking := reasoned_BreakingChangeAllowed
|}.

(** Two charts given by name and a repository entry that lacks its URL. *)
Definition repoWithoutUrl : Configuration := {|
  HelmRepoExtraArgs := ["stable=--username ci --password-stdin"];
  ChartRepos := ["stable=https://charts.example.com"; "incubator"];
  Upgrade := false;
  CheckVersionIncrementFlag := false;
  ValidateChartSchema := false;
  ChartYamlSchema := "chart_schema.yaml";
  ValidateYaml := false;
  LintConf := "lintconf.yaml";
  ValidateMaintainersFlag := false;
  Namespace := "";
  BuildId := "";
  ReleaseLabel := "app.kubernetes.io/instance";
  ProcessAllCharts := false;
  Charts := ["charts/foo"; "charts/bar"];
  Remote := "origin";
  TargetBranch := "master";
  ChartDirs := ["charts"];
  ExcludedCharts := []
|}.

(** Two charts given by name, with upgrade testing. *)
Definition upgrading : Configuration := {|
  HelmRepoExtraArgs := [];
  ChartRepos := ["stable=https://charts.example.com"];
  Upgrade := true;
  CheckVersionIncrementFlag := false;
  ValidateChartSchema := false;
  ChartYamlSchema := "chart_schema.yaml";
  ValidateYaml := false;
  LintConf := "lintconf.yaml";
  ValidateMaintainersFlag := false;
  Namespace := "";
  BuildId := "";
  ReleaseLabel := "app.kubernetes.io/instance";
  ProcessAllCharts := false;
  Charts := ["charts/foo"; "charts/bar"];
  Remote := "origin";
  TargetBranch := "master";
  ChartDirs := ["charts"];
  ExcludedCharts := []
|}.

Definition worktreeError : error := errors_New "fatal: 'ct_previous_revision' already exists".
Definition dependencyError : error := errors_New "Error: no repository definition".

(** The working tree of the previous revision cannot be added and the
    dependencies of the previous revision of [charts/foo] cannot be
    built; everything else works. *)
Definition brokenPrevious : Script := {|
  failing e :=
    match e with
    | EvAddWorkingTree _ _ => Some worktreeError
    | EvBuildDependencies "ct_previous_revision/charts/foo" => Some dependencyError
    | _ => None
    end;
  onBranch _ := false;
  shown _ := "";
  parsed _ := None;
  chartYamlOf _ := None;
  mergeBaseRef := "4f2a9c1";
  changedFiles := [];
  chartRootOf dir := dir;
  childDirsOf _ := [];
  remoteUrl := "https://github.com/example/charts";
  podsOf := [];
  initContainersOf _ := [];
  containersOf _ := [];
  globbed _ := [];
  breaking := semver_BreakingChangeAllowed
|}.

Definition initError : error := errors_New "Error: could not find tiller".
Definition lintError : error := errors_New "Error: 1 chart(s) linted, 1 chart(s) failed".

(** Helm cannot be initialised. *)
Definition noTiller : Script := {|
  failing e := match e with EvInit => Some initError | _ => None end;
  onBranch _ := false;
  shown _ := "";
  parsed _ := None;
  chartYamlOf _ := None;
  mergeBaseRef := "4f2a9c1";
  changedFiles := [];
  chartRootOf dir := dir;
  childDirsOf _ := [];
  remoteUrl := "https://github.com/example/charts";
  podsOf := [];
  initContainersOf _ := [];
  containersOf _ := [];
  globbed _ := [];
  breaking := semver_BreakingChangeAllowed
|}.

(** The lint of [charts/bar] fails. *)
Definition barFailsLint : Script := {|
  failing e :=
    match e with
    | EvLintWithValues "charts/bar" _ => Some lintError
    | _ => None
    end;
  onBranch _ := false;
  shown _ := "";
  parsed _ := None;
  chartYamlOf _ := None;
  mergeBaseRef := "4f2a9c1";
  changedFiles := [];
  chartRootOf dir := dir;
  childDirsOf _ := [];
  remoteUrl := "https://github.com/example/charts";
  podsOf := [];
  initContainersOf _ := [];
  containersOf _ := [];
  globbed _ := [];
  breaking := semver_BreakingChangeAllowed
|}.

Definition installError : error := errors_New "Error: release foo-k3x9 failed".
Definition upgradeError : error := errors_New "Error: UPGRADE FAILED".

(** From 1.0.0 to 2.0.0, a breaking change that is allowed, and a Helm
    that cannot upgrade a release. *)
Definition brokenSelfUpgrade : Script := {|
  failing e :=
    match e with
    | EvUpgrade _ _ => Some upgradeError
    | _ => None
    end;
  onBranch file := String.eqb file "charts/foo/Chart.yaml";
  shown _ := "1.0.0";
  parsed contents := Some {| Version := contents; Deprecated := false; Maintainers := [] |};
  chartYamlOf _ := Some {| Version := "2.0.0"; Deprecated := false; Maintainers := [] |};
  mergeBaseRef := "4f2a9c1";
  changedFiles := ["charts/foo/Chart.yaml"];
  chartRootOf dir := dir;
  childDirsOf _ := [];
  remoteUrl := "https://github.com/example/charts";
  podsOf := [];
  initContainersOf _ := [];
  containersOf _ := [];
  globbed _ := [];
  breaking := semver_BreakingChangeAllowed
|}.

(** The previous revision of [charts/foo] cannot be installed. *)
Definition oldInstallFails : Script := {|
  failing e :=
    match e with
    | EvInstallWithValues "ct_previous_revision/charts/foo" _ _ _ => Some installError
    | _ => None
    end;
  onBranch _ := true;
  shown _ := "1.0.0";
  parsed contents := Some {| Version := contents; Deprecated := false; Maintainers := [] |};
  chartYamlOf _ := Some {| Version := "1.0.1"; Deprecated := false; Maintainers := [] |};
  mergeBaseRef := "4f2a9c1";
  changedFiles := [];
  chartRootOf dir := dir;
  childDirsOf _ := [];
  remoteUrl := "https://github.com/example/charts";
  podsOf := ["foo-0"];
  initContainersOf _ := [];
  containersOf _ := ["foo"];
  globbed _ := [];
  breaking := semver_BreakingChangeAllowed
|}.

(** The upgrade of the release fails. *)
Definition upgradeFails : Script := {|
  failing e :=
    match e with
    | EvUpgrade _ _ => Some upgradeError
    | _ => None
    end;
  onBranch _ := true;
  shown _ := "1.0.0";
  parsed contents := Some {| Version := contents; Deprecated := false; Maintainers := [] |};
  chartYamlOf _ := Some {| Version := "1.0.1"; Deprecated := false; Maintainers := [] |};
  mergeBaseRef := "4f2a9c1";
  changedFiles := [];
  chartRootOf dir := dir;
  childDirsOf _ := [];
  remoteUrl := "https://github.com/example/charts";
  podsOf := ["foo-0"];
  initContainersOf _ := [];
  containersOf _ := ["foo"];
  globbed _ := [];
  breaking := semver_BreakingChangeAllowed
|}.

Definition lookupError : error := errors_New "no chart directory".

(** Four changed files: two of chart [charts/foo], one of chart
    [charts/bar] and one outside every chart. *)
Definition changes : Script := {|
  failing e :=
    match e with
    | EvLookupChartDir _ "docs" => Some lookupError
    | _ => None
    end;
  onBranch _ := true;
  shown _ := "1.0.0";
  parsed contents := Some {| Version := contents; Deprecated := false; Maintainers := [] |};
  chartYamlOf _ := Some {| Version := "1.0.1"; Deprecated := false; Maintainers := [] |};
  mergeBaseRef := "4f2a9c1";
  changedFiles := ["charts/foo/templates/x.yaml"; "charts/bar/Chart.yaml";
                   "docs/readme.md"; "charts/foo/values.yaml"];
  chartRootOf dir :=
    if String.eqb dir "charts/foo/templates" then "charts/foo" else dir;
  childDirsOf _ := [];
  remoteUrl := "https://github.com/example/charts";
  podsOf := [];
  initContainersOf _ := [];
  containersOf _ := [];
  globbed _ := [];
  breaking := semver_BreakingChangeAllowed
|}.

(** The default configuration with the chart [bar] excluded. *)
Definition withoutBar : Configuration := {|
  HelmRepoExtraArgs := [];
  ChartRepos := [];
  Upgrade := false;
  CheckVersionIncrementFlag := false;
  ValidateChartSchema := false;
  ChartYamlSchema := "chart_schema.yaml";
  ValidateYaml := false;
  LintConf := "lintconf.yaml";
  ValidateMaintainersFlag := false;
  Namespace := "";
  BuildId := "";
  ReleaseLabel := "app.kubernetes.io/instance";
  ProcessAllCharts := false;
  Charts := [];
  Remote := "origin";
  TargetBranch := "master";
  ChartDirs := ["charts"];
  ExcludedCharts := ["bar"]
|}.



(* ===================================================================== *)
(** ** Further vocabulary: loop bodies and classes of events *)
(* ===================================================================== *)

Section LoopBodies.
Context {W : Type} {U : Util W}.

(** One turn of the per-chart loop of [processCharts]. *)
Definition runCharts_step (t : Testing W)
    (action : string -> list string -> M W TestResult) (chart : string)
    (acc : list TestResult * TestResults)
  : M W (list TestResult * option error + list TestResult * TestResults) :=
  let '(results, testResults) := acc in
  valuesFiles <- FindValuesFilesForCI t chart ;;
  err <- call (EvBuildDependencies chart)
           (Helm_BuildDependencies (helm t) chart) ;;
  match err with
  | Some e =>
      ret (inl ([], Some (errors_Wrap e
             ("Error building dependencies for chart '" ++ chart ++ "'"))))
  | None =>
      result <- action chart valuesFiles ;;
      let testResults :=
        match Error result with
        | Some _ => {| OverallSuccess := false;
                       TestResultList := TestResultList testResults |}
        | None => testResults
        end in
      ret (inr ((results ++ [result])%list, testResults))
  end.

(** The test function [ReadAllChartDirectories] hands to the directory
    lister: a real chart directory whose base name is not excluded. *)
Definition chartDirTest (t : Testing W) (dir : string) (w : W) : bool * W :=
  let '((_, err), w') :=
    ChartUtils_LookupChartDir (chartUtils t) (ChartDirs (config t)) dir w in
  (is_nil err
   && negb (util_StringSliceContains (ExcludedCharts (config t)) (path_Base dir)),
   w').
End LoopBodies.

Section Panics.
Context {W : Type}.

(** [m] comes to an end without a panic, in every state. *)
Definition completes {A} (m : M W A) : Prop :=
  forall s, exists a s', m s = (Ok a, s').
End Panics.

(** The release of an install identity: the release is deleted, and so is
    the namespace when it was generated for the identity. *)
Definition teardown (cfg : Configuration) (namespace release : string)
  : list Event :=
  EvDeleteRelease release ::
  (if String.eqb (Namespace cfg) "" then [EvDeleteNamespace namespace] else []).

(** Calls that change or inspect the cluster. *)
Definition cluster_event (e : Event) : bool :=
  match e with
  | EvInstallWithValues _ _ _ _ | EvUpgrade _ _ | EvTest _ _
  | EvDeleteRelease _ | EvDeleteNamespace _ | EvWaitForDeployments _ _
  | EvGetPods _ | EvDescribePod _ _ | EvLogs _ _ _
  | EvGetInitContainers _ _ | EvGetContainers _ _ => true
  | _ => false
  end.

(** The events of a plain install: the install, the wait, the test that
    leaves its pods, and the release of the identity. *)
Definition install_event (e : Event) : bool :=
  match e with
  | EvInstallWithValues _ _ _ _ | EvWaitForDeployments _ _ | EvTest _ false => true
  | _ => cleanup_event e
  end.

(** Every install and every wait is in [namespace], and no namespace is
    deleted. *)
Definition keeps_namespace (namespace : string) (e : Event) : Prop :=
  match e with
  | EvInstallWithValues _ _ ns _ => ns = namespace
  | EvWaitForDeployments ns _ => ns = namespace
  | EvDeleteNamespace _ => False
  | _ => True
  end.

(** Helm is only ever handed [chart] to install or to upgrade to. *)
Definition only_chart (chart : string) (e : Event) : Prop :=
  match e with
  | EvInstallWithValues c _ _ _ => c = chart
  | EvUpgrade c _ => c = chart
  | _ => True
  end.

(** The extra arguments the entries [name=args] give for [name]: those of
    the last entry for that name. *)
Fixpoint lastArgs (entries : list string) (name : string) : option (list string) :=
  match entries with
  | [] => None
  | entry :: rest =>
      match lastArgs rest name with
      | Some args => Some args
      | None =>
          match strings_Cut entry "="%char with
          | Some (n, args) =>
              if String.eqb n name then Some (strings_Fields args) else None
          | None => None
          end
      end
  end.

(** What one install attempt of [chart] may leave in the trace; [upgrade]
    says whether the attempt goes on to upgrade the release.  With a
    configured namespace every install and wait is in that namespace and
    no namespace is deleted. *)
Definition attempt_event (cfg : Configuration) (chart : string) (upgrade : bool)
    (e : Event) : Prop :=
  match e with
  | Stdout _ | PrintDelimiterLine _ | EvGetPods _ | EvDescribePod _ _
  | EvLogs _ _ _ | EvGetInitContainers _ _ | EvGetContainers _ _
  | EvDeleteRelease _ => True
  | EvDeleteNamespace _ => Namespace cfg = ""
  | EvInstallWithValues c _ ns _ =>
      c = chart /\ (Namespace cfg <> "" -> ns = Namespace cfg)
  | EvWaitForDeployments ns _ => Namespace cfg <> "" -> ns = Namespace cfg
  | EvTest _ cleanup => cleanup = true -> upgrade = true
  | EvUpgrade c _ => upgrade = true /\ c = chart
  | _ => False
  end.

(** The reads of the version gate. *)
Definition gate_event (e : Event) : bool :=
  match e with
  | Stdout _ | EvFileExistsOnBranch _ _ _ | EvShow _ _ _ | EvReadChartYaml _ => true
  | _ => false
  end.

Section Verbatim.
Context {W : Type} {U : Util W}.

(** A run whose results, when it is not cut short, are for the charts of
    the configuration's explicit list, one for each, in the order of the
    list. *)
Definition verbatim (t : Testing W)
    (run : M W (list TestResult * option error)) : Prop :=
  forall s results err s',
    run s = (Ok (results, err), s') ->
    err = None \/ err = Some aggregateError ->
    map Chart results = Charts (config t).
End Verbatim.

Section GateFailure.
Context {W : Type} {U : Util W}.

(** The old version of the chart cannot be had, for the reason [err]: the
    increment check returns [err], the breaking-change check refuses with
    [err], and [UpgradeChart] fails the chart with [err] in the world
    [w], the one the failed read left. *)
Definition old_version_unavailable (t : Testing W) (chart : string)
    (s : State W) (err : error) (w : W) : Prop :=
  fst (CheckVersionIncrement t chart s) = Ok (Some err) /\
  fst (checkBreakingChangeAllowed t chart s) = Ok (false, Some err) /\
  fst (UpgradeChart t chart s) = Ok {| Chart := chart; Error := Some err |} /\
  world (snd (UpgradeChart t chart s)) = w.
End GateFailure.

(* ===================================================================== *)
(** ** Further scripts *)
(* ===================================================================== *)

(** Two charts given by name, upgrade testing, and a namespace to use. *)
Definition inNamespace : Configuration := {|
  HelmRepoExtraArgs := [];
  ChartRepos := [];
  Upgrade := true;
  CheckVersionIncrementFlag := false;
  ValidateChartSchema := false;
  ChartYamlSchema := "chart_schema.yaml";
  ValidateYaml := false;
  LintConf := "lintconf.yaml";
  ValidateMaintainersFlag := false;
  Namespace := "ci";
  BuildId := "42";
  ReleaseLabel := "app.kubernetes.io/instance";
  ProcessAllCharts := false;
  Charts := ["charts/foo"; "charts/bar"];
  Remote := "origin";
  TargetBranch := "master";
  ChartDirs := ["charts"];
  ExcludedCharts := []
|}.

(** Every chart of two chart directories, except the chart [bar], and
    three entries of extra arguments, two of them for [stable]. *)
Definition allCharts : Configuration := {|
  HelmRepoExtraArgs := ["stable=--username ci"; "incubator=--debug";
                        "stable=--username bot  --insecure"];
  ChartRepos := ["stable=https://charts.example.com"];
  Upgrade := false;
  CheckVersionIncrementFlag := false;
  ValidateChartSchema := false;
  ChartYamlSchema := "chart_schema.yaml";
  ValidateYaml := false;
  LintConf := "lintconf.yaml";
  ValidateMaintainersFlag := false;
  Namespace := "";
  BuildId := "";
  ReleaseLabel := "app.kubernetes.io/instance";
  ProcessAllCharts := true;
  Charts := ["charts/ignored"];
  Remote := "origin";
  TargetBranch := "master";
  ChartDirs := ["charts"; "incubator"];
  ExcludedCharts := ["bar"]
|}.

(** U+00A0, the no-break space, in UTF-8. *)
Definition noBreakSpace : string := String "194"%char (String "160"%char "").

(** Extra arguments for the repositories: two entries for [stable], the
    later one with a no-break space between two of its arguments, and an
    entry whose value has a [=] of its own. *)
Definition credentials : Configuration := {|
  HelmRepoExtraArgs := ["stable=--username ci"; "incubator=--debug";
                        "stable=--username" ++ noBreakSpace ++ "bot  --insecure";
                        "mirror=--header a=b"];
  ChartRepos := ["stable=https://charts.example.com"];
  Upgrade := false;
  CheckVersionIncrementFlag := false;
  ValidateChartSchema := false;
  ChartYamlSchema := "chart_schema.yaml";
  ValidateYaml := false;
  LintConf := "lintconf.yaml";
  ValidateMaintainersFlag := false;
  Namespace := "";
  BuildId := "";
  ReleaseLabel := "app.kubernetes.io/instance";
  ProcessAllCharts := true;
  Charts := ["charts/ignored"];
  Remote := "origin";
  TargetBranch := "master";
  ChartDirs := ["charts"; "incubator"];
  ExcludedCharts := ["bar"]
|}.

Definition gitError : error := errors_New "fatal: not a git repository".

(** The script [quiet] with the calls chosen by [fails] failing with
    [err], everything on the target branch, and two chart directories. *)
Definition failingWhere (fails : Event -> bool) (err : error) : Script := {|
  failing e := if fails e then Some err else None;
  onBranch _ := true;
  shown _ := "1.0.0";
  parsed contents :=
    if String.eqb contents "" then None
    else Some {| Version := contents; Deprecated := false; Maintainers := [] |};
  chartYamlOf _ := Some {| Version := "1.0.1"; Deprecated := false; Maintainers := [] |};
  mergeBaseRef := "4f2a9c1";
  changedFiles := [];
  chartRootOf dir := dir;
  childDirsOf parent :=
    if String.eqb parent "charts" then ["charts/foo"; "charts/bar"]
    else ["incubator/baz"; "incubator/notes"];
  remoteUrl := "https://github.com/example/charts";
  podsOf := ["foo-0"];
  initContainersOf _ := [];
  containersOf _ := ["foo"];
  globbed _ := [];
  breaking := semver_BreakingChangeAllowed
|}.

Definition isValidateRepository (e : Event) : bool :=
  match e with EvValidateRepository => true | _ => false end.

Definition isMergeBase (e : Event) : bool :=
  match e with EvMergeBase _ _ => true | _ => false end.

Definition isBuildOfBar (e : Event) : bool :=
  match e with EvBuildDependencies "charts/bar" => true | _ => false end.

Definition isShow (e : Event) : bool :=
  match e with EvShow _ _ _ => true | _ => false end.

Definition isReadChartYaml (e : Event) : bool :=
  match e with EvReadChartYaml _ => true | _ => false end.

Definition isLookupOfNotes (e : Event) : bool :=
  match e with EvLookupChartDir _ "incubator/notes" => true | _ => false end.

Definition isListingOfIncubator (e : Event) : bool :=
  match e with EvListChildDirs "incubator" => true | _ => false end.

Definition nothing (e : Event) : bool := false.

(** The Chart.yaml on the target branch is not YAML. *)
Definition unparsable : Script := {|
  failing _ := None;
  onBranch _ := true;
  shown _ := "version: [";
  parsed _ := None;
  chartYamlOf _ := Some {| Version := "1.0.1"; Deprecated := false; Maintainers := [] |};
  mergeBaseRef := "4f2a9c1";
  changedFiles := [];
  chartRootOf dir := dir;
  childDirsOf _ := [];
  remoteUrl := "https://github.com/example/charts";
  podsOf := [];
  initContainersOf _ := [];
  containersOf _ := [];
  globbed _ := [];
  breaking := semver_BreakingChangeAllowed
|}.

(* ===================================================================== *)
(** ** Equations of the monad *)
(* ===================================================================== *)

Section MonadFacts.
Context {W : Type}.
Implicit Types s : State W.

Lemma bind_ok {A B} (m : M W A) (k : A -> M W B) s a s' :
  m s = (Ok a, s') -> bind m k s = k a s'.
Proof. unfold bind. intros ->. reflexivity. Qed.

Lemma bind_panic {A B} (m : M W A) (k : A -> M W B) s msg s' :
  m s = (Panic msg, s') -> bind m k s = (Panic msg, s').
Proof. unfold bind. intros ->. reflexivity. Qed.

Lemma bind_panic_fst {A B} (m : M W A) (k : A -> M W B) s msg :
  fst (m s) = Panic msg -> fst (bind m k s) = Panic msg.
Proof.
  unfold bind. destruct (m s) as [[a|msg'] s1]; simpl; intros H;
    [discriminate | congruence].
Qed.

Lemma bind_fst_ok {A B} (m : M W A) (k : A -> M W B) s a :
  fst (m s) = Ok a -> bind m k s = k a (snd (m s)).
Proof.
  unfold bind. destruct (m s) as [r s1]. cbn [fst snd]. intros ->. reflexivity.
Qed.

Lemma bind_inv {A B} (m : M W A) (k : A -> M W B) s b s' :
  bind m k s = (Ok b, s') ->
  exists a s1, m s = (Ok a, s1) /\ k a s1 = (Ok b, s').
Proof.
  unfold bind. destruct (m s) as [[a|msg] s1]; intros H.
  - exists a, s1. split; [reflexivity | exact H].
  - discriminate H.
Qed.

Lemma bind_ret {A B} (a : A) (k : A -> M W B) s : bind (ret a) k s = k a s.
Proof. reflexivity. Qed.

Lemma bind_bind {A B C} (m : M W A) (f : A -> M W B) (g : B -> M W C) s :
  bind (bind m f) g s = bind m (fun x => bind (f x) g) s.
Proof. unfold bind. destruct (m s) as [[a|msg] s1]; reflexivity. Qed.

Lemma bind_emit {B} e (k : unit -> M W B) s :
  bind (emit e) k s = k tt (MkState (world s) (trace s ++ [e])%list).
Proof. reflexivity. Qed.

Lemma call_run {A} e (f : W -> A * W) s :
  call e f s = (Ok (fst (f (world s))),
                MkState (snd (f (world s))) (trace s ++ [e])%list).
Proof. unfold call. destruct (f (world s)); reflexivity. Qed.

Lemma ask_run {A} (f : W -> A * W) s :
  ask f s = (Ok (fst (f (world s))), MkState (snd (f (world s))) (trace s)).
Proof. unfold ask. destruct (f (world s)); reflexivity. Qed.

Lemma bind_call {A B} e (f : W -> A * W) (k : A -> M W B) s :
  bind (call e f) k s =
  k (fst (f (world s))) (MkState (snd (f (world s))) (trace s ++ [e])%list).
Proof. unfold bind. rewrite call_run. reflexivity. Qed.

Lemma bind_ask {A B} (f : W -> A * W) (k : A -> M W B) s :
  bind (ask f) k s =
  k (fst (f (world s))) (MkState (snd (f (world s))) (trace s)).
Proof. unfold bind. rewrite ask_run. reflexivity. Qed.

Lemma defer_run {A} (cleanup : M W unit) (body : M W A) s :
  defer cleanup body s = (fst (body s), snd (cleanup (snd (body s)))).
Proof.
  unfold defer. destruct (body s) as [r s1]. simpl.
  destruct (cleanup s1); reflexivity.
Qed.

(** A loop over [pre ++ post] that gets through [pre] goes on with [post]. *)
Lemma forRange_app {A S R} (pre post : list A) (acc acc' : S)
    (body : A -> S -> M W (R + S)) s s' :
  forRange pre acc body s = (Ok (inr acc'), s') ->
  forRange (pre ++ post)%list acc body s = forRange post acc' body s'.
Proof.
  revert acc s. induction pre as [|x pre IH]; intros acc s H; simpl in *.
  - unfold ret in H. congruence.
  - apply bind_inv in H as (r & s1 & Hx & Hrest).
    rewrite (bind_ok _ _ _ _ _ Hx).
    destruct r as [v|acc1]; [discriminate Hrest|].
    apply IH, Hrest.
Qed.

(** A turn that leaves the loop ends it with the value it gave. *)
Lemma forRange_leave {A S R} (x : A) (rest : list A) (acc : S)
    (body : A -> S -> M W (R + S)) s v s' :
  body x acc s = (Ok (inl v), s') ->
  forRange (x :: rest) acc body s = (Ok (inl v), s').
Proof. intros H. simpl. rewrite (bind_ok _ _ _ _ _ H). reflexivity. Qed.
End MonadFacts.

(* ===================================================================== *)
(** ** Traces of runs *)
(* ===================================================================== *)

Section TraceFacts.
Context {W : Type}.
Variable P : Event -> Prop.

Lemma emits_ret {A} (a : A) : emits (W := W) P (ret a).
Proof. intros s. exists []. simpl. rewrite app_nil_r. auto. Qed.

Lemma emits_panic {A} msg : emits (W := W) P (panic (A := A) msg).
Proof. intros s. exists []. simpl. rewrite app_nil_r. auto. Qed.

Lemma emits_emit e : P e -> emits (W := W) P (emit e).
Proof. intros He s. exists [e]. simpl. auto. Qed.

Lemma emits_call {A} e (f : W -> A * W) : P e -> emits P (call e f).
Proof. intros He s. exists [e]. rewrite call_run. simpl. auto. Qed.

Lemma emits_ask {A} (f : W -> A * W) : emits P (ask f).
Proof. intros s. exists []. rewrite ask_run. simpl. rewrite app_nil_r. auto. Qed.

Lemma emits_bind {A B} (m : M W A) (k : A -> M W B) :
  emits P m -> (forall a, emits P (k a)) -> emits P (bind m k).
Proof.
  intros Hm Hk s. destruct (Hm s) as (l1 & E1 & F1).
  unfold bind. destruct (m s) as [[a|msg] s1]; simpl in *.
  - destruct (Hk a s1) as (l2 & E2 & F2).
    exists (l1 ++ l2)%list. rewrite E2, E1, app_assoc.
    split; [reflexivity | apply Forall_app; auto].
  - exists l1. auto.
Qed.

Lemma emits_defer {A} (cleanup : M W unit) (body : M W A) :
  emits P body -> emits P cleanup -> emits P (defer cleanup body).
Proof.
  intros Hb Hc s. rewrite defer_run. simpl.
  destruct (Hb s) as (l1 & E1 & F1).
  destruct (Hc (snd (body s))) as (l2 & E2 & F2).
  exists (l1 ++ l2)%list. rewrite E2, E1, app_assoc.
  split; [reflexivity | apply Forall_app; auto].
Qed.

Lemma emits_forRange {A S R} (xs : list A) (acc : S)
    (body : A -> S -> M W (R + S)) :
  (forall x acc, emits P (body x acc)) -> emits P (forRange xs acc body).
Proof.
  intros Hb. revert acc. induction xs as [|x xs IH]; intros acc; simpl.
  - apply emits_ret.
  - apply emits_bind; [apply Hb|].
    intros [v|acc']; [apply emits_ret | apply IH].
Qed.

Lemma emits_index l i : emits (W := W) P (index l i).
Proof. unfold index. destruct (l !! i); [apply emits_ret | apply emits_panic]. Qed.

Lemma emits_deref {A} (p : option A) : emits (W := W) P (deref p).
Proof. destruct p; [apply emits_ret | apply emits_panic]. Qed.
End TraceFacts.

Lemma emits_weaken {W A} (P Q : Event -> Prop) (m : M W A) :
  (forall e, P e -> Q e) -> emits P m -> emits Q m.
Proof.
  intros HPQ Hm s. destruct (Hm s) as (l & E & F).
  exists l. split; [exact E | eapply Forall_impl; eauto].
Qed.

(** The routine part of a trace argument: follow the structure of the
    computation and leave the events to be classified. *)
Ltac emits_step :=
  match goal with
  | |- emits _ (bind _ _) => apply emits_bind; [|intros ?]
  | |- emits _ (ret _) => apply emits_ret
  | |- emits _ (panic _) => apply emits_panic
  | |- emits _ (emit _) => apply emits_emit
  | |- emits _ (fmt_Print _) => apply emits_emit
  | |- emits _ (fmt_Println _) => apply emits_emit
  | |- emits _ (util_PrintDelimiterLine _) => apply emits_emit
  | |- emits _ (call _ _) => apply emits_call
  | |- emits _ (ask _) => apply emits_ask
  | |- emits _ (index _ _) => apply emits_index
  | |- emits _ (deref _) => apply emits_deref
  | |- emits _ (defer _ _) => apply emits_defer
  | |- emits _ (forRange _ _ _) => apply emits_forRange; intros ? ?
  | |- emits _ (match ?x with _ => _ end) => destruct x
  | |- emits _ (let '(_, _) := ?x in _) => destruct x
  | |- emits _ (if ?b then _ else _) => destruct b
  end.

Ltac emits_auto := repeat emits_step; try reflexivity.

(** Projections of states and pairs, and nothing else. *)
Ltac proj_simpl := cbn [world trace fst snd negb].

(* ===================================================================== *)
(** ** Chart selection and the empty run *)
(* ===================================================================== *)

Section Selection.
Context {W : Type} {U : Util W}.

Lemma computeMergeBase_emits (t : Testing W) :
  emits (fun e => selection_event e = true) (computeMergeBase t).
Proof. unfold computeMergeBase. emits_auto. Qed.

Lemma ComputeChangedChartDirectories_emits (t : Testing W) :
  emits (fun e => selection_event e = true) (ComputeChangedChartDirectories t).
Proof.
  unfold ComputeChangedChartDirectories.
  apply emits_bind; [apply computeMergeBase_emits|intros ?].
  unfold changedChartDirs_step. emits_auto.
Qed.

Lemma FindChartsToBeProcessed_emits (t : Testing W) :
  emits (fun e => selection_event e = true) (FindChartsToBeProcessed t).
Proof.
  unfold FindChartsToBeProcessed.
  destruct (ProcessAllCharts (config t)).
  - unfold ReadAllChartDirectories. emits_auto.
  - destruct (Nat.ltb 0 (length (Charts (config t)))).
    + apply emits_ret.
    + apply ComputeChangedChartDirectories_emits.
Qed.

(** C7. If chart selection yields zero charts, [processCharts] returns
    an empty result list and a nil error, and the run ends in the state
    chart selection left: every event of the run is an event of chart
    selection, so Helm is not initialised, no repository is registered
    and no pipeline is run. *)
Theorem processCharts_no_charts (t : Testing W)
    (action : string -> list string -> M W TestResult) (s s1 : State W) :
  FindChartsToBeProcessed t s = (Ok ([], None), s1) ->
  processCharts t action s = (Ok ([], None), s1) /\
  exists l, trace s1 = (trace s ++ l)%list /\
            Forall (fun e => selection_event e = true) l.
Proof.
  intros Hsel. split.
  - unfold processCharts, prepareRun.
    rewrite bind_bind, (bind_ok _ _ _ _ _ Hsel). reflexivity.
  - destruct (FindChartsToBeProcessed_emits t s) as (l & E & F).
    rewrite Hsel in E. exists l. auto.
Qed.
End Selection.

(** No file changed: nothing is selected and nothing is run. *)
Lemma processCharts_no_charts_witness :
  let t := scripted defaultConfig quiet in
  let s1 := MkState tt [EvValidateRepository; EvMergeBase "origin/master" "HEAD";
                        EvListChangedFilesInDirs "4f2a9c1" ["charts"]] in
  processCharts (U := scriptedUtil quiet) t
    (LintAndInstallChart (U := scriptedUtil quiet) t) start = (Ok ([], None), s1) /\
  exists l, trace s1 = (trace start ++ l)%list /\
            Forall (fun e => selection_event e = true) l.
Proof.
  intros t s1.
  apply (processCharts_no_charts (U := scriptedUtil quiet) t _ start s1).
  reflexivity.
Defined.

(* ===================================================================== *)
(** ** The version gate *)
(* ===================================================================== *)

Section VersionGate.
Context {W : Type} {U : Util W}.
Implicit Types (t : Testing W) (s : State W) (w : W).

Lemma GetOldChartVersion_absent t chart s :
  absent_on_branch t chart (world s) ->
  fst (GetOldChartVersion t chart s) = Ok ("", None).
Proof.
  unfold absent_on_branch, GetOldChartVersion. intros H.
  rewrite bind_call, H. reflexivity.
Qed.

Lemma GetOldChartVersion_present t chart s old w' :
  old_version_is t chart (world s) old w' ->
  exists s', GetOldChartVersion t chart s = (Ok (old, None), s') /\ world s' = w'.
Proof.
  intros (w1 & contents & y & Hex & Hshow & Hparse & Hv).
  unfold GetOldChartVersion. rewrite bind_call, Hex. proj_simpl.
  rewrite bind_call. proj_simpl. rewrite Hshow. proj_simpl.
  rewrite Hparse. simpl. rewrite bind_ret, Hv. eexists. split; reflexivity.
Qed.

Lemma GetNewChartVersion_present t chart s new w' :
  new_version_is t chart (world s) new w' ->
  exists s', GetNewChartVersion t chart s = (Ok (new, None), s') /\ world s' = w'.
Proof.
  intros (y & Hread & Hv).
  unfold GetNewChartVersion. rewrite bind_call, Hread. proj_simpl. simpl.
  rewrite bind_ret, Hv. eexists. split; reflexivity.
Qed.

(** C5. When the chart is on the target branch at version [old] and in
    the working copy at version [new], and the semantic-version
    comparison of [old] with [new] answers [r] (negative, zero or
    positive as [old] is lower than, equal to or greater than [new]),
    [CheckVersionIncrement] returns an error whenever [new] is equal to
    or less than [old] ([0 <= r]) and no error when [new] is strictly
    greater ([r < 0]). *)
Theorem CheckVersionIncrement_strict t chart s old new r w1 w2 :
  old_version_is t chart (world s) old w1 ->
  old <> "" ->
  new_version_is t chart w1 new w2 ->
  util_CompareVersions old new = (r, None) ->
  ((0 <= r)%Z ->
     fst (CheckVersionIncrement t chart s)
     = Ok (Some (errors_New "Chart version not ok. Needs a version bump!"))) /\
  ((r < 0)%Z -> fst (CheckVersionIncrement t chart s) = Ok None).
Proof.
  intros Hold Hne Hnew Hcmp.
  unfold CheckVersionIncrement, fmt_Print, fmt_Println. rewrite bind_emit.
  match goal with |- context [bind _ _ ?s0] =>
    destruct (GetOldChartVersion_present t chart s0 old w1 Hold)
      as (s1 & E1 & Hw1)
  end.
  rewrite (bind_ok _ _ _ _ _ E1).
  apply String.eqb_neq in Hne. rewrite Hne. rewrite bind_emit.
  rewrite <- Hw1 in Hnew.
  match goal with |- context [bind _ _ ?s0] =>
    destruct (GetNewChartVersion_present t chart s0 new w2 Hnew)
      as (s2 & E2 & Hw2)
  end.
  rewrite (bind_ok _ _ _ _ _ E2). rewrite bind_emit, Hcmp.
  split; intros Hr.
  - apply Z.leb_le in Hr. rewrite Hr. reflexivity.
  - apply Z.leb_gt in Hr. rewrite Hr. reflexivity.
Qed.

(** C6. For a chart whose [Chart.yaml] is not on the target branch,
    [CheckVersionIncrement] returns no error, [checkBreakingChangeAllowed]
    returns [allowed = true] together with the error "chart has no
    previous revision", and [UpgradeChart] only prints that error: the
    result it returns carries none. *)
Theorem new_chart_passes t chart s :
  absent_on_branch t chart (world s) ->
  fst (CheckVersionIncrement t chart s) = Ok None /\
  fst (checkBreakingChangeAllowed t chart s)
  = Ok (true, Some (fmt_Errorf "chart has no previous revision")) /\
  fst (UpgradeChart t chart s) = Ok {| Chart := chart; Error := None |} /\
  Stdout (error_text (errors_Wrap (fmt_Errorf "chart has no previous revision")
                        ("Skipping upgrade test of '" ++ chart ++ "' because"))
          ++ nl)
  ∈ trace (snd (UpgradeChart t chart s)).
Proof.
  intros Habs. unfold absent_on_branch in Habs.
  assert (Hold : forall s0, world s0 = world s ->
            exists s', GetOldChartVersion t chart s0 = (Ok ("", None), s')).
  { intros s0 Hw. unfold GetOldChartVersion.
    rewrite bind_call, Hw, Habs. simpl. eexists. reflexivity. }
  assert (Hgate : exists s',
            checkBreakingChangeAllowed t chart s
            = (Ok (true, Some (fmt_Errorf "chart has no previous revision")), s')).
  { destruct (Hold s eq_refl) as (s' & E). exists s'.
    unfold checkBreakingChangeAllowed. rewrite (bind_ok _ _ _ _ _ E).
    reflexivity. }
  destruct Hgate as (s' & Hgate).
  repeat split.
  - unfold CheckVersionIncrement, fmt_Print. rewrite bind_emit.
    match goal with |- context [bind _ _ ?s0] =>
      destruct (Hold s0 eq_refl) as (s1 & E)
    end.
    rewrite (bind_ok _ _ _ _ _ E). reflexivity.
  - rewrite Hgate. reflexivity.
  - unfold UpgradeChart. rewrite (bind_ok _ _ _ _ _ Hgate). reflexivity.
  - unfold UpgradeChart. rewrite (bind_ok _ _ _ _ _ Hgate).
    unfold fmt_Println. rewrite bind_emit. cbn [ret snd trace].
    apply elem_of_app. right. apply list_elem_of_singleton. reflexivity.
Qed.
End VersionGate.

(** From 1.2.0 to 1.3.0 the check passes; from 1.3.0 to 1.2.0 and from
    1.3.0 to 1.3.0 it fails. *)
Lemma CheckVersionIncrement_strict_witness :
  let bump := errors_New "Chart version not ok. Needs a version bump!" in
  let check old new :=
    fst (CheckVersionIncrement (U := scriptedUtil (versions old new))
           (scripted defaultConfig (versions old new)) "charts/foo" start) in
  check "1.2.0" "1.3.0" = Ok None /\
  check "1.3.0" "1.2.0" = Ok (Some bump) /\
  check "1.3.0" "1.3.0" = Ok (Some bump).
Proof.
  intros bump check.
  assert (Hold : forall old new,
            old_version_is (U := scriptedUtil (versions old new))
              (scripted defaultConfig (versions old new)) "charts/foo" tt old tt).
  { intros old new. exists tt, old, {| Version := old; Deprecated := false; Maintainers := [] |}.
    repeat split; reflexivity. }
  assert (Hnew : forall old new,
            new_version_is (scripted defaultConfig (versions old new)) "charts/foo" tt new tt).
  { intros old new. exists {| Version := new; Deprecated := false; Maintainers := [] |}.
    split; reflexivity. }
  split; [|split].
  - apply (CheckVersionIncrement_strict (U := scriptedUtil (versions "1.2.0" "1.3.0"))
             _ _ start "1.2.0" "1.3.0" (-1)%Z tt tt);
      [apply Hold | discriminate | apply Hnew | reflexivity | lia].
  - apply (CheckVersionIncrement_strict (U := scriptedUtil (versions "1.3.0" "1.2.0"))
             _ _ start "1.3.0" "1.2.0" 1%Z tt tt);
      [apply Hold | discriminate | apply Hnew | reflexivity | lia].
  - apply (CheckVersionIncrement_strict (U := scriptedUtil (versions "1.3.0" "1.3.0"))
             _ _ start "1.3.0" "1.3.0" 0%Z tt tt);
      [apply Hold | discriminate | apply Hnew | reflexivity | lia].
Defined.

(** A chart that the target branch does not have. *)
Lemma new_chart_passes_witness :
  let t := scripted defaultConfig quiet in
  fst (CheckVersionIncrement (U := scriptedUtil quiet) t "charts/new" start) = Ok None /\
  fst (checkBreakingChangeAllowed (U := scriptedUtil quiet) t "charts/new" start)
  = Ok (true, Some (fmt_Errorf "chart has no previous revision")) /\
  fst (UpgradeChart (U := scriptedUtil quiet) t "charts/new" start)
  = Ok {| Chart := "charts/new"; Error := None |}.
Proof.
  intros t.
  destruct (new_chart_passes (U := scriptedUtil quiet) t "charts/new" start)
    as (H1 & H2 & H3 & _); [reflexivity|].
  split; [exact H1 | split; [exact H2 | exact H3]].
Defined.

(* ===================================================================== *)
(** ** Maintainer validation *)
(* ===================================================================== *)

Section MaintainerValidation.
Context {W : Type} {U : Util W}.
Implicit Types (t : Testing W) (s : State W) (w : W).

(** The loop over the maintainers, for a validator whose verdict on an
    account does not depend on the world. *)
Lemma validate_loop t (url : string) (verdict : string -> option error)
    (ms : list Maintainer) s :
  (forall account w,
      fst (AccountValidator_Validate (accountValidator t) url account w)
      = verdict account) ->
  exists r,
    fst (forRange (R := option error) ms tt (fun maintainer _ =>
           err <- call (EvValidate url (Name maintainer))
                    (AccountValidator_Validate (accountValidator t)
                       url (Name maintainer)) ;;
           match err with
           | Some e => ret (inl (Some e))
           | None => ret (inr tt)
           end) s) = Ok r /\
    match r with
    | inl None => False
    | inl (Some _) => Exists (fun m => verdict (Name m) <> None) ms
    | inr _ => Forall (fun m => verdict (Name m) = None) ms
    end.
Proof.
  intros Hpure. revert s. induction ms as [|m ms IH]; intros s.
  - exists (inr tt). split; [reflexivity | constructor].
  - cbn [forRange]. rewrite bind_bind, bind_call, Hpure.
    destruct (verdict (Name m)) as [e|] eqn:Hm.
    + exists (inl (Some e)). split; [reflexivity|].
      apply Exists_cons_hd. congruence.
    + rewrite bind_ret.
      match goal with |- context [forRange ms tt ?b ?s0] =>
        destruct (IH s0) as (r & Hr & Hspec)
      end.
      exists r. split; [exact Hr|].
      destruct r as [[e|]|[]]; [apply Exists_cons_tl | | constructor]; assumption.
Qed.

(** C8. For a chart whose [Chart.yaml] reads as [y]:
    a deprecated chart with at least one maintainer gives an error, a
    deprecated chart with no maintainer gives none, a chart that is not
    deprecated and has no maintainer gives an error, and a chart that is
    not deprecated and has maintainers gives an error exactly when the
    remote URL cannot be obtained or some maintainer name fails account
    validation. *)
Theorem ValidateMaintainers_cases t chart s (y : ChartYaml) w1 :
  ChartUtils_ReadChartYaml (chartUtils t) chart (world s) = ((Some y, None), w1) ->
  (Deprecated y = true -> Maintainers y <> [] ->
     fst (ValidateMaintainers t chart s)
     = Ok (Some (errors_New "Deprecated chart must not have maintainers"))) /\
  (Deprecated y = true -> Maintainers y = [] ->
     fst (ValidateMaintainers t chart s) = Ok None) /\
  (Deprecated y = false -> Maintainers y = [] ->
     fst (ValidateMaintainers t chart s)
     = Ok (Some (errors_New "Chart doesn't have maintainers"))) /\
  (Deprecated y = false -> Maintainers y <> [] ->
     forall url urlErr w2 (verdict : string -> option error),
       Git_GetUrlForRemote (git t) (Remote (config t)) w1 = ((url, urlErr), w2) ->
       (forall account w,
           fst (AccountValidator_Validate (accountValidator t) url account w)
           = verdict account) ->
       exists err,
         fst (ValidateMaintainers t chart s) = Ok err /\
         (err <> None <->
          urlErr <> None \/
          Exists (fun m => verdict (Name m) <> None) (Maintainers y))).
Proof.
  intros Hread.
  unfold ValidateMaintainers, fmt_Println.
  rewrite bind_emit, bind_call. proj_simpl. rewrite Hread. proj_simpl.
  cbn [deref]. rewrite bind_ret.
  repeat split.
  - intros -> Hms. destruct (Maintainers y); [congruence | reflexivity].
  - intros -> ->. reflexivity.
  - intros -> ->. reflexivity.
  - intros -> Hms url urlErr w2 verdict Hurl Hpure.
    destruct (Maintainers y) as [|m ms] eqn:Hy; [congruence|].
    cbn [length Nat.eqb]. rewrite bind_call. proj_simpl. rewrite Hurl. proj_simpl.
    destruct urlErr as [e|].
    + exists (Some e). split; [reflexivity|]. split; [intros _; left|]; congruence.
    + match goal with |- context [bind (forRange ?l tt ?b) ?k ?s0] =>
        destruct (validate_loop t url verdict l s0 Hpure) as (r & Hr & Hspec);
        unfold bind at 1;
        destruct (forRange l tt b s0) as [r0 s1] eqn:Hloop
      end.
      simpl in Hr. subst r0.
      destruct r as [[e|]|[]]; [| contradiction |].
      * exists (Some e). split; [reflexivity|].
        split; [intros _; right; exact Hspec | congruence].
      * exists None. split; [reflexivity|].
        split; [congruence|]. intros [H|H]; [congruence|].
        exfalso. apply Exists_exists in H as (m' & Hin & Hbad).
        rewrite Forall_forall in Hspec. apply Hbad, Hspec, Hin.
Qed.
End MaintainerValidation.

Lemma ValidateMaintainers_cases_witness :
  let t := scripted defaultConfig maintained in
  let validate chart := fst (ValidateMaintainers t chart start) in
  validate "charts/retired"
  = Ok (Some (errors_New "Deprecated chart must not have maintainers")) /\
  validate "charts/buried" = Ok None /\
  validate "charts/orphan" = Ok (Some (errors_New "Chart doesn't have maintainers")) /\
  exists err, validate "charts/app" = Ok err /\ err <> None.
Proof.
  intros t validate.
  split; [|split; [|split]].
  - destruct (ValidateMaintainers_cases t "charts/retired" start _ tt eq_refl)
      as (H & _). apply H; [reflexivity | discriminate].
  - destruct (ValidateMaintainers_cases t "charts/buried" start _ tt eq_refl)
      as (_ & H & _). apply H; reflexivity.
  - destruct (ValidateMaintainers_cases t "charts/orphan" start _ tt eq_refl)
      as (_ & _ & H & _). apply H; reflexivity.
  - destruct (ValidateMaintainers_cases t "charts/app" start _ tt eq_refl)
      as (_ & _ & _ & H).
    destruct (H eq_refl ltac:(discriminate)
                "https://github.com/example/charts" None tt
                (fun account => failing maintained
                   (EvValidate "https://github.com/example/charts" account))
                eq_refl ltac:(intros account []; reflexivity))
      as (err & Herr & Hiff).
    exists err. split; [exact Herr|].
    apply Hiff. right. apply Exists_cons_tl, Exists_cons_hd. discriminate.
Defined.

(* ===================================================================== *)
(** ** Repository entries *)
(* ===================================================================== *)

Section Repositories.
Context {W : Type} {U : Util W}.
Implicit Types (t : Testing W) (s : State W).

Lemma SplitN_two (repo : string) (sep : ascii) :
  strings_SplitN repo sep 2 =
  match strings_Cut repo sep with
  | None => [repo]
  | Some (before, after) => [before; after]
  end.
Proof. simpl. destruct (strings_Cut repo sep) as [[before after]|]; reflexivity. Qed.

(** The loop over [HelmRepoExtraArgs] touches neither the world nor the
    trace: it ends with the map or it panics. *)
Lemma collectRepoArgs_run t s :
  (exists repoArgs, collectRepoArgs t s = (Ok (inr repoArgs), s)) \/
  fst (collectRepoArgs t s) = Panic "runtime error: index out of range".
Proof.
  unfold collectRepoArgs.
  generalize (∅ : gmap string (list string)).
  induction (HelmRepoExtraArgs (config t)) as [|repo repos IH]; intros acc.
  - left. exists acc. reflexivity.
  - cbn [forRange]. rewrite SplitN_two.
    destruct (strings_Cut repo "="%char) as [[name extra]|].
    + cbn [index lookup list_lookup]. rewrite bind_bind, bind_ret.
      rewrite bind_bind, bind_ret, bind_ret. apply IH.
    + right. reflexivity.
Qed.

Lemma collectRepoArgs_malformed t s :
  Exists malformed (HelmRepoExtraArgs (config t)) ->
  fst (collectRepoArgs t s) = Panic "runtime error: index out of range".
Proof.
  unfold collectRepoArgs.
  generalize (∅ : gmap string (list string)).
  induction (HelmRepoExtraArgs (config t)) as [|repo repos IH]; intros acc Hbad.
  - inversion Hbad.
  - cbn [forRange]. rewrite SplitN_two.
    destruct (strings_Cut repo "="%char) as [[name extra]|] eqn:Hcut.
    + cbn [index lookup list_lookup]. rewrite bind_bind, bind_ret.
      rewrite bind_bind, bind_ret, bind_ret. apply IH.
      inversion Hbad as [? ? Hrepo|]; subst; [|assumption].
      unfold malformed in Hrepo. congruence.
    + reflexivity.
Qed.

Lemma addRepos_malformed t repoArgs s :
  (forall name url extraArgs w,
      fst (Helm_AddRepo (helm t) name url extraArgs w) = None) ->
  Exists malformed (ChartRepos (config t)) ->
  fst (addRepos t repoArgs s) = Panic "runtime error: index out of range".
Proof.
  intros Hadd. unfold addRepos. revert s.
  induction (ChartRepos (config t)) as [|repo repos IH]; intros s Hbad.
  - inversion Hbad.
  - cbn [forRange]. rewrite SplitN_two.
    destruct (strings_Cut repo "="%char) as [[name url]|] eqn:Hcut.
    + cbn [index lookup list_lookup]. rewrite bind_bind, bind_ret.
      rewrite bind_bind, bind_ret, bind_bind, bind_call, Hadd, bind_ret.
      apply IH.
      inversion Hbad as [? ? Hrepo|]; subst; [|assumption].
      unfold malformed in Hrepo. congruence.
    + reflexivity.
Qed.

(** The banner only writes. *)
Lemma printCharts_run (charts : list string) s :
  exists out, printCharts charts s = (Ok tt, MkState (world s) out).
Proof.
  assert (Hloop : forall s0 : State W, exists out,
            forRange (R := unit) charts tt
              (fun chart _ => fmt_Print (" " ++ chart ++ nl) ;;; ret (inr tt)) s0
            = (Ok (inr tt), MkState (world s0) out)).
  { induction charts as [|chart charts IH]; intros s0.
    - exists (trace s0). destruct s0; reflexivity.
    - cbn [forRange]. unfold fmt_Print. rewrite bind_bind, bind_emit, bind_ret.
      destruct (IH (MkState (world s0) (trace s0 ++ [Stdout (" " ++ chart ++ nl)])))
        as (out & E).
      exists out. exact E. }
  unfold printCharts, fmt_Println, util_PrintDelimiterLine.
  repeat rewrite bind_emit.
  match goal with |- context [bind _ _ ?s0] => destruct (Hloop s0) as (out & E) end.
  rewrite (bind_ok _ _ _ _ _ E). rewrite bind_emit.
  eexists. reflexivity.
Qed.

(** C9. With a non-empty chart set and Helm initialised, a
    [HelmRepoExtraArgs] entry without [=] makes [processCharts] panic
    with an index out of range, and so does a [ChartRepos] entry without
    [=] when no registration before it fails: no error is returned. *)
Theorem processCharts_malformed_repo t
    (action : string -> list string -> M W TestResult) s charts s1 :
  FindChartsToBeProcessed t s = (Ok (charts, None), s1) ->
  charts <> [] ->
  fst (Helm_Init (helm t) (world s1)) = None ->
  Exists malformed (HelmRepoExtraArgs (config t)) \/
  (Exists malformed (ChartRepos (config t)) /\
   forall name url extraArgs w,
     fst (Helm_AddRepo (helm t) name url extraArgs w) = None) ->
  fst (processCharts t action s) = Panic "runtime error: index out of range".
Proof.
  intros Hsel Hne Hinit Hbad.
  assert (Hprep : fst (prepareRun t s) = Panic "runtime error: index out of range").
  { unfold prepareRun. rewrite (bind_ok _ _ _ _ _ Hsel).
    destruct charts as [|c cs]; [congruence|]. cbn [length Nat.eqb].
    destruct (printCharts_run (c :: cs) s1) as (out & Hprint).
    rewrite (bind_ok _ _ _ _ _ Hprint), bind_call. proj_simpl. rewrite Hinit.
    match goal with |- context [bind (collectRepoArgs t) _ ?s0] =>
      destruct (collectRepoArgs_run t s0) as [(repoArgs & Hargs)|Hpanic];
      [rewrite (bind_ok _ _ _ _ _ Hargs) | apply bind_panic_fst, Hpanic];
      destruct Hbad as [Hextra|[Hrepos Hadd]];
      [pose proof (collectRepoArgs_malformed t s0 Hextra) as Hp;
       rewrite Hargs in Hp; discriminate|];
      apply bind_panic_fst, addRepos_malformed; assumption
    end. }
  unfold processCharts. apply bind_panic_fst, Hprep.
Qed.
End Repositories.

(** The entry [incubator] has no URL. *)
Lemma processCharts_malformed_repo_witness :
  let t := scripted repoWithoutUrl quiet in
  fst (processCharts (U := scriptedUtil quiet) t (LintChart (U := scriptedUtil quiet) t) start)
  = Panic "runtime error: index out of range".
Proof.
  intros t.
  apply (processCharts_malformed_repo (U := scriptedUtil quiet) t _ start
           ["charts/foo"; "charts/bar"] start).
  - reflexivity.
  - discriminate.
  - reflexivity.
  - right. split.
    + apply Exists_cons_tl, Exists_cons_hd. reflexivity.
    + intros name url extraArgs []. reflexivity.
Defined.

(* ===================================================================== *)
(** ** The previous revision *)
(* ===================================================================== *)

Section PreviousRevision.
Context {W : Type} {U : Util W}.
Implicit Types (t : Testing W) (s : State W).

Lemma previousBuilds_length t (charts : list string) (w : W) :
  length (fst (previousBuilds t charts w)) = length charts.
Proof.
  revert w. induction charts as [|chart charts IH]; intros w; [reflexivity|].
  cbn [previousBuilds].
  destruct (Helm_BuildDependencies (helm t) (computePreviousRevisionPath chart) w)
    as [outcome w1].
  specialize (IH w1). destruct (previousBuilds t charts w1) as [outcomes w2].
  cbn [fst length] in *. congruence.
Qed.

(** The loop over the previous revisions comes to its end, whatever the
    builds answer: every build is asked for, in turn, from the world the
    build before left, and each failure leaves its line in the trace. *)
Lemma buildPreviousRevisions_run t (charts : list string) s :
  buildPreviousRevisions t charts s
  = (Ok tt,
     MkState (snd (previousBuilds t charts (world s)))
       (trace s ++ concat (zip_with previousBuildEvents charts
                             (fst (previousBuilds t charts (world s)))))).
Proof.
  unfold buildPreviousRevisions.
  match goal with |- context [forRange charts tt ?b] => set (body := b) end.
  assert (Hloop : forall s0,
            forRange charts tt body s0
            = (Ok (inr tt),
               MkState (snd (previousBuilds t charts (world s0)))
                 (trace s0 ++ concat (zip_with previousBuildEvents charts
                                        (fst (previousBuilds t charts (world s0))))))).
  { induction charts as [|chart charts IH]; intros s0.
    - destruct s0 as [w tr].
      cbn [forRange previousBuilds fst snd zip_with concat world trace].
      rewrite app_nil_r. reflexivity.
    - cbn [forRange previousBuilds]. unfold body at 1.
      rewrite bind_bind, bind_call.
      destruct (Helm_BuildDependencies (helm t)
                  (computePreviousRevisionPath chart) (world s0))
        as [[e|] w1]; cbn [fst snd].
      + unfold fmt_Println. rewrite bind_bind, bind_emit, bind_ret.
        rewrite IH. cbn [world trace].
        destruct (previousBuilds t charts w1) as [outcomes w2].
        cbn [fst snd zip_with concat previousBuildEvents].
        rewrite <- !app_assoc. reflexivity.
      + rewrite bind_ret. rewrite IH. cbn [world trace].
        destruct (previousBuilds t charts w1) as [outcomes w2].
        cbn [fst snd zip_with concat previousBuildEvents].
        rewrite <- !app_assoc. reflexivity. }
  rewrite (bind_ok _ _ _ _ _ (Hloop s)). reflexivity.
Qed.

(** C10. With upgrade testing enabled and the merge base known, nothing
    that goes wrong while the previous revision is prepared ends the
    run.  [AddWorkingTree] is called and what it answers, an error
    included, is not looked at.  Then the dependencies of the previous
    revision of every chart are built in turn, each from the world the
    build before left; [fst built] is what Helm answers to these builds,
    and a build that fails leaves the line that reports its error in the
    trace and nothing else.  From the state [s3] so reached,
    [processCharts] is the per-chart loop over all the charts, with the
    removal of the working tree deferred to its end. *)
Theorem previous_revision_failures_tolerated t
    (action : string -> list string -> M W TestResult)
    s charts s1 mergeBase s2 :
  Upgrade (config t) = true ->
  prepareRun t s = (Ok (inr charts), s1) ->
  computeMergeBase t s1 = (Ok (mergeBase, None), s2) ->
  let added :=
    Git_AddWorkingTree (git t) ctPreviousRevisionTree mergeBase (world s2) in
  let built := previousBuilds t charts (snd added) in
  let s3 :=
    MkState (snd built)
      (trace s2
       ++ EvAddWorkingTree ctPreviousRevisionTree mergeBase
          :: concat (zip_with previousBuildEvents charts (fst built))) in
  length (fst built) = length charts /\
  processCharts t action s
  = defer (removePreviousRevision t) (runCharts t action charts []) s3.
Proof.
  intros Hon Hprep Hbase added built s3.
  split; [apply previousBuilds_length|].
  unfold processCharts. rewrite (bind_ok _ _ _ _ _ Hprep), Hon.
  rewrite (bind_ok _ _ _ _ _ Hbase), bind_call.
  unfold defer.
  rewrite (bind_ok _ _ _ _ _ (buildPreviousRevisions_run _ _ _)).
  cbn [world trace]. fold added. fold built.
  rewrite <- app_assoc. reflexivity.
Qed.
End PreviousRevision.

(** The working tree cannot be added and the dependencies of the previous
    revision of [charts/foo] cannot be built: the first error leaves no
    mark, the second one its line, the previous revision of [charts/bar]
    is built all the same, and both charts are processed. *)
Lemma previous_revision_failures_tolerated_witness :
  let t := scripted upgrading brokenPrevious in
  let run := InstallCharts (U := scriptedUtil brokenPrevious) t in
  let s2 := snd (computeMergeBase t (snd (prepareRun t start))) in
  fst (Git_AddWorkingTree (git t) ctPreviousRevisionTree "4f2a9c1" tt)
  = Some worktreeError /\
  fst (previousBuilds t ["charts/foo"; "charts/bar"] tt)
  = [Some dependencyError; None] /\
  run start
  = defer (removePreviousRevision t)
      (runCharts (U := scriptedUtil brokenPrevious) t
         (InstallChart (U := scriptedUtil brokenPrevious) t)
         ["charts/foo"; "charts/bar"] [])
      (MkState tt
         (trace s2
          ++ [EvAddWorkingTree ctPreviousRevisionTree "4f2a9c1";
              EvBuildDependencies "ct_previous_revision/charts/foo";
              Stdout ("Error building dependencies for previous revision of chart 'charts/foo'"
                      ++ nl ++ ": Error: no repository definition" ++ nl);
              EvBuildDependencies "ct_previous_revision/charts/bar"])) /\
  fst (run start)
  = Ok ([{| Chart := "charts/foo"; Error := None |};
         {| Chart := "charts/bar"; Error := None |}], None).
Proof.
  intros t run s2.
  split; [reflexivity|]. split; [reflexivity|].
  split; [|vm_compute; reflexivity].
  destruct (previous_revision_failures_tolerated (U := scriptedUtil brokenPrevious)
              t (InstallChart (U := scriptedUtil brokenPrevious) t) start
              ["charts/foo"; "charts/bar"] (snd (prepareRun t start)) "4f2a9c1" s2)
    as [_ Hrun];
    [reflexivity | vm_compute; reflexivity | vm_compute; reflexivity |].
  exact Hrun.
Defined.

(* ===================================================================== *)
(** ** Returned values *)
(* ===================================================================== *)

Section ReturnFacts.
Context {W : Type}.

Lemma returns_ret {A} (Q : A -> Prop) (a : A) : Q a -> returns (W := W) Q (ret a).
Proof. intros Ha s a' s' H. unfold ret in H. congruence. Qed.

Lemma returns_panic {A} (Q : A -> Prop) msg : returns (W := W) Q (panic msg).
Proof. intros s a s' H. discriminate H. Qed.

Lemma returns_bind {A B} (P : A -> Prop) (Q : B -> Prop)
    (m : M W A) (k : A -> M W B) :
  returns P m -> (forall a, P a -> returns Q (k a)) -> returns Q (bind m k).
Proof.
  intros Hm Hk s b s' H.
  apply bind_inv in H as (a & s1 & Ha & Hb).
  exact (Hk a (Hm _ _ _ Ha) _ _ _ Hb).
Qed.

Lemma returns_any {A} (m : M W A) : returns (fun _ => True) m.
Proof. intros s a s' _. exact I. Qed.

Lemma returns_then {A B} (Q : B -> Prop) (m : M W A) (k : A -> M W B) :
  (forall a, returns Q (k a)) -> returns Q (bind m k).
Proof. intros Hk. apply (returns_bind (fun _ => True)); [apply returns_any | auto]. Qed.

Lemma returns_defer {A} (Q : A -> Prop) (cleanup : M W unit) (body : M W A) :
  returns Q body -> returns Q (defer cleanup body).
Proof.
  intros Hb s a s' H. rewrite defer_run in H.
  destruct (body s) as [r s1] eqn:E. simpl in H.
  injection H as -> _. exact (Hb _ _ _ E).
Qed.

(** A loop invariant indexed by the elements gone through: a turn either
    leaves with a value that satisfies [Q] or keeps the invariant. *)
Lemma returns_forRange {A S R} (I : list A -> S -> Prop) (Q : R -> Prop)
    (xs : list A) (acc : S) (body : A -> S -> M W (R + S)) :
  I [] acc ->
  (forall done x acc,
      I done acc ->
      returns (fun r => match r with
                        | inl v => Q v
                        | inr acc' => I (done ++ [x])%list acc'
                        end) (body x acc)) ->
  returns (fun r => match r with inl v => Q v | inr acc' => I xs acc' end)
    (forRange xs acc body).
Proof.
  intros Hstart Hbody.
  assert (Hgen : forall done acc,
            I done acc ->
            returns (fun r => match r with
                              | inl v => Q v
                              | inr acc' => I (done ++ xs)%list acc'
                              end) (forRange xs acc body)).
  { clear Hstart acc. induction xs as [|x xs IH]; intros done acc Hacc.
    - apply returns_ret. rewrite app_nil_r. exact Hacc.
    - cbn [forRange]. eapply returns_bind; [apply (Hbody done x acc Hacc)|].
      intros [v|acc'] Hr.
      + apply returns_ret. exact Hr.
      + replace (done ++ x :: xs)%list with ((done ++ [x]) ++ xs)%list
          by (rewrite <- app_assoc; reflexivity).
        apply IH. exact Hr. }
  apply (Hgen [] acc Hstart).
Qed.
End ReturnFacts.

(* ===================================================================== *)
(** ** Aggregation of the per-chart results *)
(* ===================================================================== *)

Section AggregationFacts.
Context {W : Type} {U : Util W}.
Implicit Types (t : Testing W) (s : State W).

Lemma collectRepoArgs_never_leaves t :
  returns (fun r => match r with inl _ => False | inr _ => True end)
    (collectRepoArgs t).
Proof.
  intros s r s' H. destruct (collectRepoArgs_run t s) as [(m & E)|E].
  - rewrite E in H. injection H as <- _. exact I.
  - rewrite H in E. discriminate E.
Qed.

Lemma addRepos_leaves_aborted t repoArgs :
  returns (fun r => match r with inl v => aborted v | inr _ => True end)
    (addRepos t repoArgs).
Proof.
  unfold addRepos.
  apply (returns_forRange (fun _ _ => True) aborted); [exact I|].
  intros done repo [] _.
  repeat (apply returns_then; intros ?).
  match goal with |- returns _ (match ?x with _ => _ end) => destruct x end;
    apply returns_ret; [|exact I].
  split; [reflexivity | eauto].
Qed.

(** What [prepareRun] hands back: an early return is an empty run or a
    run-level failure; otherwise the charts are those selected. *)
Lemma prepareRun_inv t s r s' :
  prepareRun t s = (Ok r, s') ->
  match r with
  | inl v =>
      (v = ([], None) /\ exists s1, FindChartsToBeProcessed t s = (Ok ([], None), s1))
      \/ aborted v
  | inr charts =>
      exists s1, FindChartsToBeProcessed t s = (Ok (charts, None), s1)
  end.
Proof.
  unfold prepareRun. intros H.
  apply bind_inv in H as ([charts err] & s1 & Hsel & H).
  destruct err as [e|].
  { injection H as <- _. right. split; [reflexivity | eauto]. }
  destruct charts as [|c cs].
  { injection H as <- _. left. eauto. }
  cbn [length Nat.eqb] in H.
  apply bind_inv in H as ([] & s2 & _ & H).
  apply bind_inv in H as (ierr & s3 & _ & H).
  destruct ierr as [e|].
  { injection H as <- _. right. split; [reflexivity | eauto]. }
  apply bind_inv in H as (ra & s4 & Hra & H).
  pose proof (collectRepoArgs_never_leaves t _ _ _ Hra) as Hnever.
  destruct ra as [v|repoArgs]; [contradiction|].
  apply bind_inv in H as (ar & s5 & Har & H).
  pose proof (addRepos_leaves_aborted t repoArgs _ _ _ Har) as Hleft.
  destruct ar as [v|[]]; injection H as <- _.
  - right. exact Hleft.
  - eauto.
Qed.

(** The per-chart loop: it is cut short by a failing dependency build,
    or it yields one result per chart, in order, and the aggregate error
    exactly when some result failed. *)
Lemma runCharts_returns t (action : string -> list string -> M W TestResult)
    (charts : list string) :
  (forall chart valuesFiles,
      returns (fun r => Chart r = chart) (action chart valuesFiles)) ->
  returns (fun v =>
             aborted v \/
             (map Chart (fst v) = charts /\
              ((snd v = None /\ Forall (fun r => Error r = None) (fst v)) \/
               (snd v = Some aggregateError /\ Exists failed (fst v)))))
    (runCharts t action charts []).
Proof.
  intros Hact. unfold runCharts.
  eapply returns_bind.
  - apply (returns_forRange
             (fun done (acc : list TestResult * TestResults) =>
                map Chart (fst acc) = done /\
                (OverallSuccess (snd acc) = true ->
                 Forall (fun r => Error r = None) (fst acc)) /\
                (OverallSuccess (snd acc) = false -> Exists failed (fst acc)))
             aborted).
    + cbn. repeat split; [constructor | discriminate].
    + intros done chart [results testResults] (Hmap & Hok & Hbad).
      cbn [fst snd] in *.
      apply returns_then; intros valuesFiles.
      apply returns_then; intros [e|].
      { apply returns_ret. split; [reflexivity | eauto]. }
      eapply returns_bind; [apply Hact|].
      intros result Hname. apply returns_ret. cbn [fst snd].
      split; [rewrite map_app, Hmap; cbn; congruence|].
      destruct (Error result) as [e|] eqn:Herr; cbn [OverallSuccess].
      * split; [discriminate|]. intros _.
        apply Exists_app. right. apply Exists_cons_hd.
        unfold failed. congruence.
      * split.
        -- intros Hs. apply Forall_app. split; [auto|].
           constructor; [exact Herr | constructor].
        -- intros Hs. apply Exists_app. left. auto.
  - intros [v|[results testResults]] Hinv.
    + apply returns_ret. left. exact Hinv.
    + destruct Hinv as (Hmap & Hok & Hbad). cbn [fst snd] in *.
      destruct (OverallSuccess testResults); apply returns_ret; right;
        (split; [exact Hmap|]); [left | right]; auto.
Qed.
End AggregationFacts.

Section Modes.
Context {W : Type} {U : Util W}.
Implicit Types (t : Testing W) (s : State W).

Ltac names_step :=
  match goal with
  | |- returns _ (bind _ _) => apply returns_then; intros ?
  | |- returns _ (ret _) => apply returns_ret; reflexivity
  | |- returns _ ((if ?b then _ else _) _) => destruct b; unfold lintStage, id
  | |- returns _ (match ?x with _ => _ end) => destruct x
  end.

Lemma LintChart_names t chart valuesFiles :
  returns (fun r => Chart r = chart) (LintChart t chart valuesFiles).
Proof. unfold LintChart. repeat names_step. Qed.

Lemma UpgradeChart_names t chart :
  returns (fun r => Chart r = chart) (UpgradeChart t chart).
Proof. unfold UpgradeChart. repeat names_step. Qed.

Lemma InstallChart_names t chart valuesFiles :
  returns (fun r => Chart r = chart) (InstallChart t chart valuesFiles).
Proof.
  unfold InstallChart. destruct (Upgrade (config t)); [|repeat names_step].
  eapply returns_bind; [apply UpgradeChart_names|].
  intros result Hname. destruct (Error result).
  - apply returns_ret. exact Hname.
  - apply returns_then. intros [e|]; [apply returns_ret; exact Hname|].
    repeat names_step.
Qed.

Lemma LintAndInstallChart_names t chart valuesFiles :
  returns (fun r => Chart r = chart) (LintAndInstallChart t chart valuesFiles).
Proof.
  unfold LintAndInstallChart.
  eapply returns_bind; [apply LintChart_names|].
  intros result Hname. destruct (Error result).
  - apply returns_ret. exact Hname.
  - apply InstallChart_names.
Qed.

Lemma processCharts_aggregates t
    (action : string -> list string -> M W TestResult) :
  (forall chart valuesFiles,
      returns (fun r => Chart r = chart) (action chart valuesFiles)) ->
  aggregates t (processCharts t action).
Proof.
  intros Hact s results err s' Hrun.
  unfold processCharts in Hrun.
  apply bind_inv in Hrun as (r & s1 & Hprep & Hrun).
  apply prepareRun_inv in Hprep.
  assert (Hwrap : forall cause msg, Some (errors_Wrap cause msg) <> Some aggregateError)
    by (intros cause msg; discriminate).
  assert (Habort : aborted (results, err) ->
            (err = Some aggregateError <-> Exists failed results) /\
            (err = None \/ err = Some aggregateError ->
             exists charts s1,
               FindChartsToBeProcessed t s = (Ok (charts, None), s1) /\
               map Chart results = charts) /\
            (err <> None -> err <> Some aggregateError ->
             results = [] /\ exists cause msg, err = Some (errors_Wrap cause msg))).
  { intros (Hnil & cause & msg & Herr). cbn [fst snd] in *. subst.
    split; [split|split].
    - discriminate.
    - intros H. inversion H.
    - intros [H|H]; discriminate H.
    - eauto. }
  destruct r as [v|charts].
  - injection Hrun as -> _.
    destruct Hprep as [(Hv & s0 & Hsel)|Hab]; [|apply Habort, Hab].
    injection Hv as -> ->. split; [split|split].
    + discriminate.
    + intros H. inversion H.
    + intros _. exists [], s0. auto.
    + congruence.
  - destruct Hprep as (s0 & Hsel).
    assert (Hfull : aborted (results, err) \/
              (map Chart results = charts /\
               ((err = None /\ Forall (fun r => Error r = None) results) \/
                (err = Some aggregateError /\ Exists failed results)))).
    { pose proof (runCharts_returns t action charts Hact) as Hloop.
      destruct (Upgrade (config t)).
      - apply bind_inv in Hrun as ([mergeBase merr] & s2 & _ & Hrun).
        destruct merr as [e|].
        + injection Hrun as <- <- _. left. split; [reflexivity | eauto].
        + apply bind_inv in Hrun as (aerr & s3 & _ & Hrun).
          match type of Hloop with returns ?Q _ =>
            change (Q (results, err));
            refine (returns_defer Q _ _ _ _ _ _ Hrun)
          end.
          apply returns_then. intros _. exact Hloop.
      - exact (Hloop _ _ _ Hrun). }
    destruct Hfull as [Hab|(Hmap & [(-> & Hok)|(-> & Hbad)])];
      [apply Habort, Hab| |].
    + split; [split|split].
      * discriminate.
      * intros Hbad. exfalso.
        apply Exists_exists in Hbad as (r & Hin & Hr).
        rewrite Forall_forall in Hok. exact (Hr (Hok r Hin)).
      * intros _. exists charts, s0. auto.
      * congruence.
    + split; [split|split].
      * intros _. exact Hbad.
      * reflexivity.
      * intros _. exists charts, s0. auto.
      * congruence.
Qed.

(** C1, as the code has it.  In each of the three modes, when the run
    returns: the error is the aggregate error "Error processing charts"
    if and only if at least one returned result carries an error; with
    that error, or with none, the list holds one result for each
    selected chart, in order; every other error is a wrapped run-level
    failure (chart selection, Helm initialisation, repository
    registration, merge base, dependency build) and comes with an empty
    list. *)
Theorem modes_aggregate t :
  aggregates t (LintCharts t) /\
  aggregates t (InstallCharts t) /\
  aggregates t (LintAndInstallCharts t).
Proof.
  split; [|split]; apply processCharts_aggregates; intros chart valuesFiles.
  - apply LintChart_names.
  - apply InstallChart_names.
  - apply LintAndInstallChart_names.
Qed.
End Modes.

(** Helm cannot be initialised: the run returns an error, and no result
    in the returned list carries one. *)
Lemma init_failure_without_failed_result :
  let t := scripted repoWithoutUrl noTiller in
  fst (LintCharts (U := scriptedUtil noTiller) t start)
  = Ok ([], Some (errors_Wrap initError "Error initializing Helm")) /\
  ~ Exists failed [].
Proof. split; [vm_compute; reflexivity | intros H; inversion H]. Qed.

(** Two charts, the lint of the second fails: both results are returned,
    with the aggregate error. *)
Lemma modes_aggregate_witness :
  let t := scripted upgrading barFailsLint in
  let results := [{| Chart := "charts/foo"; Error := None |};
                  {| Chart := "charts/bar"; Error := Some lintError |}] in
  fst (LintCharts (U := scriptedUtil barFailsLint) t start)
  = Ok (results, Some aggregateError) /\
  (Some aggregateError = Some aggregateError <-> Exists failed results) /\
  map Chart results = ["charts/foo"; "charts/bar"].
Proof.
  intros t results.
  destruct (modes_aggregate (U := scriptedUtil barFailsLint) t) as (Hlint & _ & _).
  assert (Hrun : LintCharts (U := scriptedUtil barFailsLint) t start
                 = (Ok (results, Some aggregateError),
                    snd (LintCharts (U := scriptedUtil barFailsLint) t start)))
    by (vm_compute; reflexivity).
  destruct (Hlint start results (Some aggregateError) _ Hrun)
    as (Hiff & Hall & _).
  split; [rewrite Hrun; reflexivity|]. split; [exact Hiff|].
  reflexivity.
Defined.

(* ===================================================================== *)
(** ** The upgrade pipeline *)
(* ===================================================================== *)

Section Upgrades.
Context {W : Type} {U : Util W}.
Implicit Types (t : Testing W) (s : State W).

Lemma cleanup_is_no_upgrade_attempt (e : Event) :
  cleanup_event e = true -> upgrade_attempt e = false.
Proof. destruct e; simpl; intros H; try reflexivity; discriminate H. Qed.

Lemma PrintPodDetailsAndLogs_emits t namespace selector :
  emits (fun e => cleanup_event e = true)
    (PrintPodDetailsAndLogs t namespace selector).
Proof. unfold PrintPodDetailsAndLogs, printDetails. emits_auto. Qed.

(** An install identity costs no event, and its release only produces
    events of a release. *)
Lemma generateInstallConfig_inv t chart s namespace release selector cleanup s1 :
  generateInstallConfig t chart s = (Ok (namespace, release, selector, cleanup), s1) ->
  trace s1 = trace s /\ emits (fun e => cleanup_event e = true) cleanup.
Proof.
  unfold generateInstallConfig. intros H.
  destruct (negb (String.eqb (Namespace (config t)) ""));
    rewrite bind_ask in H;
    destruct (util_CreateInstallParams chart (BuildId (config t)) (world s))
      as [[rel ns] w'];
    cbn [fst snd ret] in H; injection H as <- <- <- <- <-;
    (split; [reflexivity|]).
  - apply emits_bind; [apply PrintPodDetailsAndLogs_emits|intros ?].
    unfold DeleteRelease. emits_auto.
  - apply emits_bind; [apply PrintPodDetailsAndLogs_emits|intros ?].
    unfold DeleteRelease, DeleteNamespace. emits_auto.
Qed.

Lemma testRelease_old_emits t release namespace selector :
  emits (fun e => upgrade_attempt e = false)
    (testRelease t release namespace selector true).
Proof. unfold testRelease. emits_auto. Qed.

(** With [oldChartMustPass = false], a failure of the old revision gives
    no error, and neither the upgrade nor the test of the new revision
    is attempted. *)
Lemma doUpgrade_fun_tolerates t oldChart valuesFile s e :
  old_revision_fails t oldChart valuesFile s e ->
  fst (doUpgrade_fun t oldChart false valuesFile s) = Ok None /\
  exists l,
    trace (snd (doUpgrade_fun t oldChart false valuesFile s)) = (trace s ++ l)%list /\
    Forall (fun ev => upgrade_attempt ev = false) l.
Proof.
  intros (namespace & release & selector & cleanup & s1 & Hcfg & Hfail).
  destruct (generateInstallConfig_inv _ _ _ _ _ _ _ _ Hcfg) as (Htr & Hclean).
  apply (emits_weaken _ _ _ cleanup_is_no_upgrade_attempt) in Hclean.
  unfold doUpgrade_fun. rewrite (bind_ok _ _ _ _ _ Hcfg), defer_run.
  cbn zeta in Hfail. rewrite call_run in Hfail. cbn [fst snd] in Hfail.
  rewrite bind_call.
  destruct Hfail as [Hinst|[Hinst Htest]];
    injection Hinst as Hinst; rewrite Hinst.
  - unfold fmt_Println. rewrite bind_emit. cbn [ret fst snd].
    split; [reflexivity|].
    match goal with |- context [cleanup ?s2] =>
      destruct (Hclean s2) as (l & E & F)
    end.
    rewrite E. cbn [trace]. rewrite Htr, <- !app_assoc.
    eexists. split; [reflexivity|].
    repeat (apply Forall_cons; split; [reflexivity|]). exact F.
  - rewrite (bind_fst_ok _ _ _ _ Htest).
    unfold fmt_Println. rewrite bind_emit. cbn [ret fst snd].
    split; [reflexivity|].
    match goal with |- context [cleanup ?s4] =>
      destruct (Hclean s4) as (l & E & F)
    end.
    rewrite E. cbn [trace].
    match goal with |- context [testRelease ?a ?b ?c ?d true ?s2] =>
      destruct (testRelease_old_emits a b c d s2) as (l1 & E1 & F1)
    end.
    rewrite E1. cbn [trace]. rewrite Htr, <- !app_assoc.
    eexists. split; [reflexivity|].
    apply Forall_cons; split; [reflexivity|].
    apply Forall_app; split; [exact F1|].
    apply Forall_cons; split; [reflexivity | exact F].
Qed.

(** With [oldChartMustPass = true], the same failure is the error. *)
Lemma doUpgrade_fun_must_pass t oldChart valuesFile s e :
  old_revision_fails t oldChart valuesFile s e ->
  fst (doUpgrade_fun t oldChart true valuesFile s) = Ok (Some e).
Proof.
  intros (namespace & release & selector & cleanup & s1 & Hcfg & Hfail).
  unfold doUpgrade_fun. rewrite (bind_ok _ _ _ _ _ Hcfg), defer_run.
  cbn zeta in Hfail. rewrite call_run in Hfail. cbn [fst snd] in Hfail.
  rewrite bind_call. cbn [fst].
  destruct Hfail as [Hinst|[Hinst Htest]];
    injection Hinst as Hinst; rewrite Hinst; [reflexivity|].
  rewrite (bind_fst_ok _ _ _ _ Htest). reflexivity.
Qed.

(** A failure of the upgrade or of the test of the new revision is the
    error, whatever [oldChartMustPass] says. *)
Lemma doUpgrade_fun_new_revision t oldChart valuesFile s e (oldChartMustPass : bool) :
  new_revision_fails t oldChart valuesFile s e ->
  fst (doUpgrade_fun t oldChart oldChartMustPass valuesFile s) = Ok (Some e).
Proof.
  intros (namespace & release & selector & cleanup & s1 & Hcfg & Hnew).
  unfold doUpgrade_fun. rewrite (bind_ok _ _ _ _ _ Hcfg), defer_run.
  cbn zeta in Hnew. rewrite !call_run in Hnew. cbn [fst snd] in Hnew.
  destruct Hnew as (Hinst & Htest & Hup).
  injection Hinst as Hinst.
  rewrite bind_call. cbn [fst]. rewrite Hinst.
  rewrite (bind_fst_ok _ _ _ _ Htest), bind_call.
  destruct Hup as [Hup|[Hup Htest2]]; injection Hup as Hup; rewrite Hup;
    [reflexivity | exact Htest2].
Qed.

(** The error of a turn is the error of [doUpgrade]. *)
Lemma doUpgrade_turn_fails t oldChart newChart (oldChartMustPass : bool)
    s pre valuesFile post s0 sk e :
  doUpgrade_valuesFiles t oldChart newChart s
  = (Ok (pre ++ valuesFile :: post)%list, s0) ->
  forRange pre tt (doUpgrade_iter t oldChart oldChartMustPass) s0
  = (Ok (inr tt), sk) ->
  fst (doUpgrade_fun t oldChart oldChartMustPass valuesFile
         (snd (announceValuesFile oldChart valuesFile sk))) = Ok (Some e) ->
  fst (doUpgrade t oldChart newChart oldChartMustPass s) = Ok (Some e).
Proof.
  intros Hfiles Hpre Hfun.
  unfold doUpgrade. rewrite (bind_ok _ _ _ _ _ Hfiles).
  unfold bind at 1. rewrite (forRange_app _ _ _ _ _ _ _ Hpre).
  cbn [forRange]. unfold doUpgrade_iter at 1.
  assert (Hann : announceValuesFile (W := W) oldChart valuesFile sk
                 = (Ok tt, snd (announceValuesFile oldChart valuesFile sk))).
  { unfold announceValuesFile. destruct (negb (String.eqb valuesFile "")); reflexivity. }
  rewrite bind_bind, (bind_ok _ _ _ _ _ Hann).
  unfold bind at 1 2.
  destruct (doUpgrade_fun t oldChart oldChartMustPass valuesFile
              (snd (announceValuesFile oldChart valuesFile sk))) as [r s2].
  cbn [fst] in Hfun. subst r. reflexivity.
Qed.

(** A last turn without error ends [doUpgrade] without error. *)
Lemma doUpgrade_last_turn_passes t oldChart newChart (oldChartMustPass : bool)
    s pre valuesFile s0 sk :
  doUpgrade_valuesFiles t oldChart newChart s
  = (Ok (pre ++ [valuesFile])%list, s0) ->
  forRange pre tt (doUpgrade_iter t oldChart oldChartMustPass) s0
  = (Ok (inr tt), sk) ->
  fst (doUpgrade_fun t oldChart oldChartMustPass valuesFile
         (snd (announceValuesFile oldChart valuesFile sk))) = Ok None ->
  fst (doUpgrade t oldChart newChart oldChartMustPass s) = Ok None.
Proof.
  intros Hfiles Hpre Hfun.
  unfold doUpgrade. rewrite (bind_ok _ _ _ _ _ Hfiles).
  unfold bind at 1. rewrite (forRange_app _ _ _ _ _ _ _ Hpre).
  cbn [forRange]. unfold doUpgrade_iter at 1.
  assert (Hann : announceValuesFile (W := W) oldChart valuesFile sk
                 = (Ok tt, snd (announceValuesFile oldChart valuesFile sk))).
  { unfold announceValuesFile. destruct (negb (String.eqb valuesFile "")); reflexivity. }
  rewrite bind_bind, (bind_ok _ _ _ _ _ Hann).
  unfold bind at 1 2.
  destruct (doUpgrade_fun t oldChart oldChartMustPass valuesFile
              (snd (announceValuesFile oldChart valuesFile sk))) as [r s2].
  cbn [fst] in Hfun. subst r. reflexivity.
Qed.

(** C3. Let the loop of [doUpgrade] have come to [valuesFile] without an
    error, and let [s1] be the state in which the install of the old
    revision for it begins.
    - If installing or testing the old revision fails with [e]: with
      [oldChartMustPass = false] the turn gives no error, neither the
      upgrade nor the test of the new revision is attempted in it, and
      [doUpgrade] returns no error when this was the last values file;
      with [oldChartMustPass = true], [doUpgrade] returns [e].
    - If the upgrade or the test of the new revision fails with [e],
      [doUpgrade] returns [e], whatever [oldChartMustPass] is. *)
Theorem doUpgrade_failures t oldChart newChart s pre valuesFile post s0 e :
  doUpgrade_valuesFiles t oldChart newChart s
  = (Ok (pre ++ valuesFile :: post)%list, s0) ->
  forall (oldChartMustPass : bool) sk,
    forRange pre tt (doUpgrade_iter t oldChart oldChartMustPass) s0
    = (Ok (inr tt), sk) ->
    let s1 := snd (announceValuesFile oldChart valuesFile sk) in
    (old_revision_fails t oldChart valuesFile s1 e ->
       if oldChartMustPass
       then fst (doUpgrade t oldChart newChart true s) = Ok (Some e)
       else
         fst (doUpgrade_fun t oldChart false valuesFile s1) = Ok None /\
         (exists l,
            trace (snd (doUpgrade_fun t oldChart false valuesFile s1))
            = (trace s1 ++ l)%list /\
            Forall (fun ev => upgrade_attempt ev = false) l) /\
         (post = [] -> fst (doUpgrade t oldChart newChart false s) = Ok None)) /\
    (new_revision_fails t oldChart valuesFile s1 e ->
       fst (doUpgrade t oldChart newChart oldChartMustPass s) = Ok (Some e)).
Proof.
  intros Hfiles oldChartMustPass sk Hpre s1. split.
  - intros Hold. destruct oldChartMustPass.
    + eapply doUpgrade_turn_fails; eauto.
      apply doUpgrade_fun_must_pass, Hold.
    + destruct (doUpgrade_fun_tolerates _ _ _ _ _ Hold) as (Hnone & Htrace).
      split; [exact Hnone|]. split; [exact Htrace|].
      intros ->. eapply doUpgrade_last_turn_passes; eauto.
  - intros Hnew. eapply doUpgrade_turn_fails; eauto.
    apply doUpgrade_fun_new_revision, Hnew.
Qed.
End Upgrades.

(** The previous revision of [charts/foo] cannot be installed: tolerated
    when it need not pass, an error when it must.  And an upgrade that
    fails is an error even when the old revision need not pass. *)
Lemma doUpgrade_failures_witness :
  let old := computePreviousRevisionPath "charts/foo" in
  let upgrade (sc : Script) (oldChartMustPass : bool) :=
    fst (doUpgrade (U := scriptedUtil sc) (scripted upgrading sc)
           old "charts/foo" oldChartMustPass start) in
  upgrade oldInstallFails false = Ok None /\
  upgrade oldInstallFails true = Ok (Some installError) /\
  upgrade upgradeFails false = Ok (Some upgradeError).
Proof.
  intros old upgrade.
  set (files sc := doUpgrade_valuesFiles (U := scriptedUtil sc)
                     (scripted upgrading sc) old "charts/foo" start).
  assert (Hfiles1 : files oldInstallFails
                    = (Ok ([] ++ "" :: [])%list, snd (files oldInstallFails)))
    by reflexivity.
  assert (Hfiles2 : files upgradeFails
                    = (Ok ([] ++ "" :: [])%list, snd (files upgradeFails)))
    by reflexivity.
  assert (Hold : old_revision_fails (U := scriptedUtil oldInstallFails)
                   (scripted upgrading oldInstallFails) old ""
                   (snd (announceValuesFile old "" (snd (files oldInstallFails))))
                   installError).
  { do 5 eexists. split; [reflexivity|]. left. vm_compute. reflexivity. }
  assert (Hnew : new_revision_fails (U := scriptedUtil upgradeFails)
                   (scripted upgrading upgradeFails) old ""
                   (snd (announceValuesFile old "" (snd (files upgradeFails))))
                   upgradeError).
  { do 5 eexists. split; [reflexivity|].
    split; [vm_compute; reflexivity|]. split; [vm_compute; reflexivity|].
    left. vm_compute. reflexivity. }
  split; [|split].
  - destruct (doUpgrade_failures (U := scriptedUtil oldInstallFails)
                (scripted upgrading oldInstallFails) old "charts/foo" start [] "" [] _
                installError Hfiles1 false _ eq_refl) as [H _].
    destruct (H Hold) as (_ & _ & Hlast). exact (Hlast eq_refl).
  - destruct (doUpgrade_failures (U := scriptedUtil oldInstallFails)
                (scripted upgrading oldInstallFails) old "charts/foo" start [] "" [] _
                installError Hfiles1 true _ eq_refl) as [H _].
    exact (H Hold).
  - destruct (doUpgrade_failures (U := scriptedUtil upgradeFails)
                (scripted upgrading upgradeFails) old "charts/foo" start [] "" [] _
                upgradeError Hfiles2 false _ eq_refl) as [_ H].
    exact (H Hnew).
Defined.

(* ===================================================================== *)
(** ** Change detection *)
(* ===================================================================== *)

Section FirstSeen.
Implicit Types (l dirs : list string) (d : string).

Lemma StringSliceContains_elem dirs d :
  util_StringSliceContains dirs d = true <-> d ∈ dirs.
Proof.
  unfold util_StringSliceContains. rewrite existsb_exists. split.
  - intros (x & Hin & Heq). apply String.eqb_eq in Heq. subst x.
    apply list_elem_of_In. exact Hin.
  - intros Hin. exists d. split; [apply list_elem_of_In; exact Hin|].
    apply String.eqb_refl.
Qed.

Lemma first_seen_elem l d : d ∈ first_seen l <-> d ∈ l.
Proof.
  induction l as [|x l IH]; cbn [first_seen]; [reflexivity|].
  rewrite !elem_of_cons, list_elem_of_filter, IH.
  destruct (decide (d = x)); tauto.
Qed.

Lemma first_seen_NoDup l : NoDup (first_seen l).
Proof.
  induction l as [|x l IH]; cbn [first_seen]; constructor.
  - rewrite list_elem_of_filter. tauto.
  - apply NoDup_filter, IH.
Qed.

(** Adding the directories one by one, each only if it is new, is taking
    them in the order of their first occurrence. *)
Lemma addNew_first_seen l dirs :
  fold_left addNew l dirs
  = (dirs ++ filter (fun d => d ∉ dirs) (first_seen l))%list.
Proof.
  revert dirs. induction l as [|x l IH]; intros dirs; cbn [fold_left first_seen].
  - rewrite filter_nil, app_nil_r. reflexivity.
  - rewrite IH. unfold addNew.
    destruct (util_StringSliceContains dirs x) eqn:Hx.
    + apply StringSliceContains_elem in Hx.
      rewrite filter_cons_False by tauto.
      rewrite list_filter_filter. f_equal.
      apply list_filter_iff. intros d. split; [|tauto].
      intros Hd. split; [exact Hd | intros ->; contradiction].
    + assert (x ∉ dirs) as Hnew.
      { rewrite <- StringSliceContains_elem, Hx. discriminate. }
      rewrite filter_cons_True by exact Hnew.
      rewrite list_filter_filter, <- app_assoc. cbn [app]. do 2 f_equal.
      apply list_filter_iff. intros d.
      rewrite elem_of_app, list_elem_of_singleton. tauto.
Qed.

Lemma addNew_from_nil l : fold_left addNew l [] = first_seen l.
Proof.
  rewrite addNew_first_seen. cbn [app].
  induction (first_seen l) as [|x xs IH]; [reflexivity|].
  rewrite filter_cons_True by (intros H; inversion H).
  rewrite IH. reflexivity.
Qed.
End FirstSeen.

Section ChangeDetection.
Context {W : Type} {U : Util W}.
Implicit Types (t : Testing W) (s : State W).

Lemma resolved_cons resolve excluded file files :
  resolved resolve excluded (file :: files) =
  match (if considered excluded file
         then match resolve (filepath_Dir file) with
              | (chartDir, None) => Some chartDir
              | (_, Some _) => None
              end
         else None) with
  | Some chartDir => chartDir :: resolved resolve excluded files
  | None => resolved resolve excluded files
  end.
Proof. reflexivity. Qed.

(** The loop over the changed files, for a lookup whose answer depends
    on the directory alone. *)
Lemma changedChartDirs_loop t (resolve : string -> string * option error)
    (files : list string) :
  (forall dir w,
      fst (ChartUtils_LookupChartDir (chartUtils t) (ChartDirs (config t)) dir w)
      = resolve dir) ->
  forall dirs s, exists s' l,
    forRange files dirs (changedChartDirs_step t) s
    = (Ok (inr (fold_left addNew
                  (resolved resolve (ExcludedCharts (config t)) files) dirs)), s') /\
    trace s' = (trace s ++ l)%list /\
    forall file chartDir e,
      file ∈ files ->
      considered (ExcludedCharts (config t)) file = true ->
      resolve (filepath_Dir file) = (chartDir, Some e) ->
      skipDiagnostic chartDir ∈ l.
Proof.
  intros Hpure. induction files as [|file files IH]; intros dirs s.
  - exists s, []. rewrite app_nil_r. repeat split.
    intros file chartDir e Hin. inversion Hin.
  - cbn [forRange]. rewrite resolved_cons.
    unfold changedChartDirs_step at 1. unfold considered at 1.
    destruct (strings_SplitN (filepath_ToSlash file) "/"%char 3)
      as [|first [|second rest]] eqn:Hsplit.
    1,2: cbn [length Nat.ltb Nat.leb]; rewrite bind_ret;
      destruct (IH dirs s) as (s' & l & Hrun & Htr & Hdiag);
      exists s', l; split; [exact Hrun|]; split; [exact Htr|];
      intros f chartDir e Hin Hcons Hres;
      apply elem_of_cons in Hin as [->|Hin]; [|eauto];
      unfold considered in Hcons; rewrite Hsplit in Hcons; discriminate.
    cbn [length Nat.ltb Nat.leb].
    change (index (W := W) (first :: second :: rest) 1) with (ret (W := W) second).
    rewrite bind_bind, bind_ret.
    destruct (util_StringSliceContains (ExcludedCharts (config t)) second) eqn:Hex;
      cbn [negb].
    { rewrite bind_ret.
      destruct (IH dirs s) as (s' & l & Hrun & Htr & Hdiag).
      exists s', l. split; [exact Hrun|]. split; [exact Htr|].
      intros f chartDir e Hin Hcons Hres.
      apply elem_of_cons in Hin as [->|Hin]; [|eauto].
      unfold considered in Hcons. rewrite Hsplit, Hex in Hcons. discriminate. }
    rewrite bind_bind, bind_call, Hpure.
    destruct (resolve (filepath_Dir file)) as [chartDir [e|]] eqn:Hres.
    + unfold fmt_Print. rewrite bind_bind, bind_emit, !bind_ret.
      match goal with |- context [forRange files dirs _ ?s1] =>
        destruct (IH dirs s1) as (s' & l & Hrun & Htr & Hdiag)
      end.
      eexists s', _. split; [exact Hrun|]. split.
      * rewrite Htr. cbn [trace]. rewrite <- !app_assoc. reflexivity.
      * intros f chartDir' e' Hin Hcons Hres'.
        apply elem_of_cons in Hin as [->|Hin].
        -- rewrite Hres in Hres'. injection Hres' as <- _.
           cbn [app]. apply elem_of_cons. right. apply elem_of_cons. left.
           reflexivity.
        -- cbn [app]. do 2 (apply elem_of_cons; right). eauto.
    + assert (Hadd : (if negb (util_StringSliceContains dirs chartDir)
                      then ret (W := W)
                             (inr (A := list string * option error)
                                (dirs ++ [chartDir])%list)
                      else ret (inr dirs))
                     = ret (inr (addNew dirs chartDir))).
      { unfold addNew. destruct (util_StringSliceContains dirs chartDir); reflexivity. }
      rewrite Hadd, !bind_ret. cbn [fold_left].
      match goal with |- context [forRange files _ _ ?s1] =>
        destruct (IH (addNew dirs chartDir) s1) as (s' & l & Hrun & Htr & Hdiag)
      end.
      eexists s', _. split; [exact Hrun|]. split.
      * rewrite Htr. cbn [trace]. rewrite <- !app_assoc. reflexivity.
      * intros f chartDir' e' Hin Hcons Hres'.
        apply elem_of_cons in Hin as [->|Hin].
        -- rewrite Hres in Hres'. discriminate.
        -- cbn [app]. apply elem_of_cons. right. eauto.
Qed.

(** C4. When the merge base is known, the changed files are [files] and
    the lookup of a chart root answers by the directory alone,
    [ComputeChangedChartDirectories] returns, without an error, the
    chart roots the files resolve to, each once, in the order in which
    they are first seen.  A file whose second path segment is an
    excluded chart does not count (it is not [considered]); a file whose
    directory resolves to no chart root contributes nothing, and the
    diagnostic for it is printed. *)
Theorem ComputeChangedChartDirectories_first_seen t s mergeBase s1 files w2
    (resolve : string -> string * option error) :
  computeMergeBase t s = (Ok (mergeBase, None), s1) ->
  Git_ListChangedFilesInDirs (git t) mergeBase (ChartDirs (config t)) (world s1)
  = ((files, None), w2) ->
  (forall dir w,
      fst (ChartUtils_LookupChartDir (chartUtils t) (ChartDirs (config t)) dir w)
      = resolve dir) ->
  let roots := resolved resolve (ExcludedCharts (config t)) files in
  fst (ComputeChangedChartDirectories t s) = Ok (first_seen roots, None) /\
  NoDup (first_seen roots) /\
  (forall root, root ∈ first_seen roots <-> root ∈ roots) /\
  (forall file chartDir e,
      file ∈ files ->
      considered (ExcludedCharts (config t)) file = true ->
      resolve (filepath_Dir file) = (chartDir, Some e) ->
      skipDiagnostic chartDir ∈ trace (snd (ComputeChangedChartDirectories t s))).
Proof.
  intros Hbase Hdiff Hpure roots.
  assert (Hrun : exists s' l,
            ComputeChangedChartDirectories t s = (Ok (first_seen roots, None), s') /\
            trace s' = ((trace s1 ++ [EvListChangedFilesInDirs mergeBase
                                        (ChartDirs (config t))]) ++ l)%list /\
            forall file chartDir e,
              file ∈ files ->
              considered (ExcludedCharts (config t)) file = true ->
              resolve (filepath_Dir file) = (chartDir, Some e) ->
              skipDiagnostic chartDir ∈ l).
  { unfold ComputeChangedChartDirectories.
    rewrite (bind_ok _ _ _ _ _ Hbase), bind_call, Hdiff. cbn [fst snd].
    match goal with |- context [bind (forRange files [] _) _ ?s2] =>
      destruct (changedChartDirs_loop t resolve files Hpure [] s2)
        as (s' & l & Hloop & Htr & Hdiag)
    end.
    exists s', l. rewrite (bind_ok _ _ _ _ _ Hloop).
    rewrite addNew_from_nil.
    repeat split; assumption. }
  destruct Hrun as (s' & l & Hrun & Htr & Hdiag).
  rewrite Hrun. cbn [fst snd]. split; [reflexivity|].
  split; [apply first_seen_NoDup|]. split; [apply first_seen_elem|].
  intros file chartDir e Hin Hcons Hres.
  rewrite Htr. apply elem_of_app. right. eauto.
Qed.
End ChangeDetection.

(** The files of two charts and one file outside every chart: each chart
    once, in the order of the first file of each; and with the chart [bar]
    excluded, only [charts/foo]. *)
Lemma ComputeChangedChartDirectories_first_seen_witness :
  fst (ComputeChangedChartDirectories (scripted defaultConfig changes) start)
  = Ok (["charts/foo"; "charts/bar"], None) /\
  fst (ComputeChangedChartDirectories (scripted withoutBar changes) start)
  = Ok (["charts/foo"], None) /\
  skipDiagnostic ""
  ∈ trace (snd (ComputeChangedChartDirectories (scripted defaultConfig changes) start)).
Proof.
  set (resolve := fun dir =>
         fst (ChartUtils_LookupChartDir (scriptedChartUtils changes) ["charts"] dir tt)).
  assert (Hpure : forall cfg, ChartDirs cfg = ["charts"] ->
            forall dir w,
              fst (ChartUtils_LookupChartDir (chartUtils (scripted cfg changes))
                     (ChartDirs (config (scripted cfg changes))) dir w)
              = resolve dir).
  { intros cfg Hdirs dir []. cbn [config scripted]. rewrite Hdirs. reflexivity. }
  destruct (ComputeChangedChartDirectories_first_seen
              (scripted defaultConfig changes) start "4f2a9c1" _ _ tt resolve
              eq_refl eq_refl (Hpure defaultConfig eq_refl))
    as (Hall & _ & _ & Hdiag).
  destruct (ComputeChangedChartDirectories_first_seen
              (scripted withoutBar changes) start "4f2a9c1" _ _ tt resolve
              eq_refl eq_refl (Hpure withoutBar eq_refl))
    as (Hfoo & _).
  split; [exact Hall|]. split; [exact Hfoo|].
  apply (Hdiag "docs/readme.md" "" lookupError).
  - apply elem_of_cons. right. apply elem_of_cons. right. apply elem_of_cons. left.
    reflexivity.
  - reflexivity.
  - reflexivity.
Defined.


(* ===================================================================== *)
(** ** Install identities and their release *)
(* ===================================================================== *)

Section Identities.
Context {W : Type} {U : Util W}.
Implicit Types (t : Testing W) (s : State W).

Lemma emits_bind_post {A B} (P : Event -> Prop) (Q : A -> Prop)
    (m : M W A) (k : A -> M W B) :
  emits P m -> returns Q m -> (forall a, Q a -> emits P (k a)) ->
  emits P (bind m k).
Proof.
  intros Hm HQ Hk s. destruct (Hm s) as (l1 & E1 & F1).
  unfold bind. destruct (m s) as [[a|msg] s1] eqn:Hrun; cbn [snd] in *.
  - destruct (Hk a (HQ _ _ _ Hrun) s1) as (l2 & E2 & F2).
    exists (l1 ++ l2)%list. rewrite E2, E1, app_assoc.
    split; [reflexivity | apply Forall_app; auto].
  - exists l1. auto.
Qed.

Lemma testRelease_extends t release namespace selector (cleanupHelmTests : bool) :
  emits (fun _ => True) (testRelease t release namespace selector cleanupHelmTests).
Proof. unfold testRelease. emits_auto; exact I. Qed.

Lemma completes_ret {A} (a : A) : completes (W := W) (ret a).
Proof. intros s. exists a, s. reflexivity. Qed.

Lemma completes_emit e : completes (W := W) (emit e).
Proof. intros s. eexists _, _. reflexivity. Qed.

Lemma completes_call {A} e (f : W -> A * W) : completes (call e f).
Proof. intros s. eexists _, _. apply call_run. Qed.

Lemma completes_bind {A B} (m : M W A) (k : A -> M W B) :
  completes m -> (forall a, completes (k a)) -> completes (bind m k).
Proof.
  intros Hm Hk s. destruct (Hm s) as (a & s1 & E).
  destruct (Hk a s1) as (b & s2 & E2).
  exists b, s2. rewrite (bind_ok _ _ _ _ _ E). exact E2.
Qed.

Lemma completes_forRange {A S R} (xs : list A) (acc : S)
    (body : A -> S -> M W (R + S)) :
  (forall x acc, completes (body x acc)) -> completes (forRange xs acc body).
Proof.
  intros Hb. revert acc. induction xs as [|x xs IH]; intros acc; cbn [forRange].
  - apply completes_ret.
  - apply completes_bind; [apply Hb|].
    intros [v|acc']; [apply completes_ret | apply IH].
Qed.

Ltac completes_step :=
  match goal with
  | |- completes (bind _ _) => apply completes_bind; [|intros ?]
  | |- completes (ret _) => apply completes_ret
  | |- completes (emit _) => apply completes_emit
  | |- completes (fmt_Print _) => apply completes_emit
  | |- completes (fmt_Println _) => apply completes_emit
  | |- completes (util_PrintDelimiterLine _) => apply completes_emit
  | |- completes (call _ _) => apply completes_call
  | |- completes (forRange _ _ _) => apply completes_forRange; intros ? ?
  | |- completes (match ?x with _ => _ end) => destruct x
  | |- completes (let '(_, _) := ?x in _) => destruct x
  | |- completes (if ?b then _ else _) => destruct b
  end.

(** Collecting the pod details and logs never panics: whatever kubectl
    answers, it comes to an end. *)
Lemma PrintPodDetailsAndLogs_completes t namespace selector :
  completes (PrintPodDetailsAndLogs t namespace selector).
Proof. unfold PrintPodDetailsAndLogs, printDetails. repeat completes_step. Qed.

(** The release of an identity ends with its teardown, whatever the
    collection of the pod details and logs runs into. *)
Lemma generateInstallConfig_teardown t chart s namespace release selector cleanup s1 :
  generateInstallConfig t chart s = (Ok (namespace, release, selector, cleanup), s1) ->
  trace s1 = trace s /\
  forall s', exists l,
    trace (snd (cleanup s'))
    = (trace s' ++ l ++ teardown (config t) namespace release)%list.
Proof.
  unfold generateInstallConfig, teardown. intros H.
  destruct (String.eqb (Namespace (config t)) ""); cbn [negb] in H;
    rewrite bind_ask in H;
    destruct (util_CreateInstallParams chart (BuildId (config t)) (world s))
      as [[rel ns] w'];
    cbn [fst snd ret] in H; injection H as <- <- <- <- <-;
    (split; [reflexivity|]); intros s';
    match goal with |- context [bind (PrintPodDetailsAndLogs t ?n ?sel) _ s'] =>
      destruct (PrintPodDetailsAndLogs_emits t n sel s') as (l & E & _);
      destruct (PrintPodDetailsAndLogs_completes t n sel s') as ([] & s2 & Hrun);
      rewrite Hrun in E; cbn [snd] in E;
      exists l; rewrite (bind_ok _ _ _ _ _ Hrun)
    end.
  - unfold DeleteRelease, DeleteNamespace. rewrite bind_call, call_run.
    cbn [snd trace]. rewrite E, <- !app_assoc. reflexivity.
  - unfold DeleteRelease. rewrite call_run.
    cbn [snd trace]. rewrite E, <- !app_assoc. reflexivity.
Qed.

(** X1.  Every install under a fresh identity, that of
    [doInstall] and that of [doUpgrade], is followed by the release of the
    identity: whatever the install, the wait, the tests, the upgrade and
    the collection of diagnostics answer, the trace of the attempt begins
    with the install and ends with the deletion of the release and, for a
    generated namespace, of the namespace. *)
Theorem install_identity_is_released t chart valuesFile s :
  (exists namespace release l,
     trace (snd (doInstall_fun t chart valuesFile s))
     = (trace s ++ EvInstallWithValues chart valuesFile namespace release
                   :: l ++ teardown (config t) namespace release)%list) /\
  (forall oldChartMustPass : bool,
     exists namespace release l,
       trace (snd (doUpgrade_fun t chart oldChartMustPass valuesFile s))
       = (trace s ++ EvInstallWithValues chart valuesFile namespace release
                     :: l ++ teardown (config t) namespace release)%list).
Proof.
  assert (Hcfg : exists namespace release selector cleanup s1,
            generateInstallConfig t chart s
            = (Ok (namespace, release, selector, cleanup), s1)).
  { unfold generateInstallConfig.
    destruct (negb (String.eqb (Namespace (config t)) ""));
      rewrite bind_ask;
      destruct (util_CreateInstallParams chart (BuildId (config t)) (world s))
        as [[rel ns] w']; cbn [fst snd ret]; eauto 10. }
  destruct Hcfg as (namespace & release & selector & cleanup & s1 & Hcfg).
  destruct (generateInstallConfig_teardown _ _ _ _ _ _ _ _ Hcfg) as (Htr & Hdown).
  assert (Hbody : forall (body : option error -> M W (option error)),
            (forall err, emits (fun _ => True) (body err)) ->
            exists l,
              trace (snd (defer cleanup
                            (err <- call (EvInstallWithValues chart valuesFile
                                            namespace release)
                                      (Helm_InstallWithValues (helm t) chart
                                         valuesFile namespace release) ;;
                             body err) s1))
              = (trace s ++ EvInstallWithValues chart valuesFile namespace release
                            :: l ++ teardown (config t) namespace release)%list).
  { intros body Hb. rewrite defer_run, bind_call. cbn [snd].
    match goal with |- context [body ?err ?s2] =>
      destruct (Hb err s2) as (l1 & E1 & _);
      destruct (Hdown (snd (body err s2))) as (l2 & E2)
    end.
    exists (l1 ++ l2)%list. rewrite E2, E1. cbn [trace].
    rewrite Htr, <- !app_assoc. reflexivity. }
  split.
  - exists namespace, release. unfold doInstall_fun.
    rewrite (bind_ok _ _ _ _ _ Hcfg). apply Hbody.
    intros [e|]; [apply emits_ret | apply testRelease_extends].
  - intros oldChartMustPass. exists namespace, release. unfold doUpgrade_fun.
    rewrite (bind_ok _ _ _ _ _ Hcfg). apply Hbody.
    intros err. pose proof testRelease_extends as Htest.
    unfold fmt_Println. emits_auto; solve [exact I | apply Htest].
Qed.
End Identities.

(* ===================================================================== *)
(** ** What the install and upgrade pipelines leave in the trace *)
(* ===================================================================== *)

Section Attempts.
Context {W : Type} {U : Util W}.
Implicit Types (t : Testing W) (s : State W).

Lemma PrintPodDetailsAndLogs_attempt t chart (upgrade : bool) namespace selector :
  emits (attempt_event (config t) chart upgrade)
    (PrintPodDetailsAndLogs t namespace selector).
Proof. unfold PrintPodDetailsAndLogs, printDetails. emits_auto; exact I. Qed.

Lemma generateInstallConfig_attempt t chart (upgrade : bool) :
  returns (fun '(namespace, release, selector, cleanup) =>
             (Namespace (config t) <> "" -> namespace = Namespace (config t)) /\
             emits (attempt_event (config t) chart upgrade) cleanup)
    (generateInstallConfig t chart).
Proof.
  intros s [[[namespace release] selector] cleanup] s1 H.
  unfold generateInstallConfig in H.
  destruct (String.eqb (Namespace (config t)) "") eqn:Hns; cbn [negb] in H;
    rewrite bind_ask in H;
    destruct (util_CreateInstallParams chart (BuildId (config t)) (world s))
      as [[rel ns] w'];
    cbn [fst snd ret] in H; injection H as <- <- <- <- <-.
  - apply String.eqb_eq in Hns. split; [congruence|].
    apply emits_bind; [apply PrintPodDetailsAndLogs_attempt|intros ?].
    unfold DeleteRelease, DeleteNamespace. emits_auto. exact Hns.
  - split; [reflexivity|].
    apply emits_bind; [apply PrintPodDetailsAndLogs_attempt|intros ?].
    unfold DeleteRelease. emits_auto.
Qed.

Lemma generateInstallConfig_silent t chart (P : Event -> Prop) :
  emits P (generateInstallConfig t chart).
Proof. unfold generateInstallConfig. emits_auto. Qed.

Lemma testRelease_attempt t chart (upgrade : bool) release namespace selector
    (cleanupHelmTests : bool) :
  (Namespace (config t) <> "" -> namespace = Namespace (config t)) ->
  (cleanupHelmTests = true -> upgrade = true) ->
  emits (attempt_event (config t) chart upgrade)
    (testRelease t release namespace selector cleanupHelmTests).
Proof. intros Hns Hup. unfold testRelease. emits_auto; assumption. Qed.

Lemma doInstall_fun_attempt t chart valuesFile :
  emits (attempt_event (config t) chart false) (doInstall_fun t chart valuesFile).
Proof.
  unfold doInstall_fun.
  eapply emits_bind_post;
    [apply generateInstallConfig_silent | apply generateInstallConfig_attempt|].
  intros [[[namespace release] selector] cleanup] (Hns & Hclean).
  apply emits_defer; [|exact Hclean].
  apply emits_bind; [apply emits_call; split; [reflexivity | exact Hns]|].
  intros [e|]; [apply emits_ret|].
  apply testRelease_attempt; [exact Hns | discriminate].
Qed.

Lemma doUpgrade_fun_attempt t oldChart (oldChartMustPass : bool) valuesFile :
  emits (attempt_event (config t) oldChart true)
    (doUpgrade_fun t oldChart oldChartMustPass valuesFile).
Proof.
  unfold doUpgrade_fun.
  eapply emits_bind_post;
    [apply generateInstallConfig_silent | apply generateInstallConfig_attempt|].
  intros [[[namespace release] selector] cleanup] (Hns & Hclean).
  apply emits_defer; [|exact Hclean].
  pose proof (fun b => testRelease_attempt t oldChart true release namespace
                         selector b Hns (fun _ => eq_refl)) as Htest.
  unfold fmt_Println.
  emits_auto; solve [exact I | apply Htest | split; [reflexivity | exact Hns]
                    | split; reflexivity].
Qed.

Lemma doInstall_attempt t chart :
  emits (attempt_event (config t) chart false) (doInstall t chart).
Proof.
  unfold doInstall, FindValuesFilesForCI.
  pose proof (doInstall_fun_attempt t chart) as Hfun.
  emits_auto; solve [exact I | apply Hfun].
Qed.

Lemma doUpgrade_attempt t oldChart newChart (oldChartMustPass : bool) :
  emits (attempt_event (config t) oldChart true)
    (doUpgrade t oldChart newChart oldChartMustPass).
Proof.
  unfold doUpgrade, doUpgrade_valuesFiles, doUpgrade_iter, announceValuesFile,
    FindValuesFilesForCI.
  pose proof (doUpgrade_fun_attempt t oldChart oldChartMustPass) as Hfun.
  emits_auto; solve [exact I | apply Hfun].
Qed.

Lemma checkBreakingChangeAllowed_emits t chart :
  emits (fun e => gate_event e = true) (checkBreakingChangeAllowed t chart).
Proof.
  unfold checkBreakingChangeAllowed, GetOldChartVersion, GetNewChartVersion.
  emits_auto.
Qed.

(** X2.  [doUpgrade] hands Helm the old chart
    both to install and to upgrade to: no install or upgrade call it makes
    names another chart, and [newChart] only shows in the line it prints. *)
Theorem doUpgrade_only_old_chart t oldChart newChart (oldChartMustPass : bool) :
  emits (only_chart oldChart) (doUpgrade t oldChart newChart oldChartMustPass).
Proof.
  eapply emits_weaken; [|apply doUpgrade_attempt].
  intros e. destruct e; cbn; try (intros; exact I); tauto.
Qed.

(** X3.  Without upgrade testing, [InstallChart] installs,
    waits, tests and releases, and does nothing else: no upgrade, no test
    that cleans up after itself, no read of a chart version, no Git call. *)
Theorem InstallChart_without_upgrade t chart valuesFiles :
  Upgrade (config t) = false ->
  emits (fun e => install_event e = true) (InstallChart t chart valuesFiles).
Proof.
  intros Hoff. unfold InstallChart. rewrite Hoff.
  apply emits_bind; [|intros ?; apply emits_ret].
  eapply emits_weaken; [|apply doInstall_attempt].
  intros e. destruct e; cbn; try reflexivity; try tauto.
  destruct cleanup; [intros H; discriminate (H eq_refl) | reflexivity].
Qed.

(** X4.  With a namespace configured, every install
    and every wait of [InstallChart], with or without upgrade testing, is
    in that namespace, and the namespace is never deleted. *)
Theorem configured_namespace_is_kept t chart valuesFiles :
  Namespace (config t) <> "" ->
  emits (keeps_namespace (Namespace (config t))) (InstallChart t chart valuesFiles).
Proof.
  intros Hns.
  assert (Hweak : forall c (b : bool) e,
            attempt_event (config t) c b e ->
            keeps_namespace (Namespace (config t)) e).
  { intros c b e. destruct e; cbn; try (intros; exact I); tauto. }
  assert (Hgate : forall e, gate_event e = true ->
                            keeps_namespace (Namespace (config t)) e).
  { intros e. destruct e; cbn; intros H; try exact I; discriminate H. }
  pose proof (fun c => emits_weaken _ _ _ (Hweak c false) (doInstall_attempt t c))
    as Hinstall.
  pose proof (fun o n m => emits_weaken _ _ _ (Hweak o true) (doUpgrade_attempt t o n m))
    as Hupgrade.
  pose proof (emits_weaken _ _ _ Hgate (checkBreakingChangeAllowed_emits t chart))
    as Hcheck.
  unfold InstallChart, UpgradeChart, fmt_Println, fmt_Print.
  emits_auto; solve [exact I | apply Hinstall | apply Hupgrade | apply Hcheck].
Qed.
End Attempts.

(* ===================================================================== *)
(** ** The breaking-change gate of upgrade testing *)
(* ===================================================================== *)

Section UpgradeGate.
Context {W : Type} {U : Util W}.
Implicit Types (t : Testing W) (s : State W).

(** What is left of [InstallChart] with upgrade testing on, once
    [UpgradeChart] has returned without an error, hands Helm the chart
    itself and no other. *)
Lemma selfUpgrade_then_install t chart :
  emits (only_chart chart)
    (err <- doUpgrade t chart chart true ;;
     match err with
     | Some e => ret {| Chart := chart; Error := Some e |}
     | None =>
         err <- doInstall t chart ;;
         ret {| Chart := chart; Error := err |}
     end).
Proof.
  assert (Hweak : forall (b : bool) e,
            attempt_event (config t) chart b e -> only_chart chart e).
  { intros b e. destruct e; cbn; try (intros; exact I); tauto. }
  apply emits_bind.
  - eapply emits_weaken; [apply (Hweak true) | apply doUpgrade_attempt].
  - intros [e|]; [apply emits_ret|].
    apply emits_bind; [|intros ?; apply emits_ret].
    eapply emits_weaken; [apply (Hweak false) | apply doInstall_attempt].
Qed.

(** C2, as the code has it.  When [checkBreakingChangeAllowed] reports
    [allowed = true], with or without an error, [UpgradeChart] skips the
    upgrade test against the previous revision: it calls no collaborator
    after the check, it prints the error that came with the permission if
    there is one, and its result carries no error.  With upgrade testing
    on, [InstallChart] then goes on all the same: it tests the upgrade of
    the current revision onto itself, [doUpgrade chart chart true], and
    the chart's result carries the error of that test if it fails;
    otherwise it installs the chart.  No install or upgrade call it makes
    after the check names another chart than [chart], so nothing of the
    previous revision is touched.
    When the check reports [allowed = false] together with an error,
    [UpgradeChart] prints that the versions could not be compared, calls
    no collaborator, and its result carries that error; with upgrade
    testing on, [InstallChart] ends there with the same result. *)
Theorem UpgradeChart_gate t chart s (allowed : bool) (err : option error) s1 :
  checkBreakingChangeAllowed t chart s = (Ok (allowed, err), s1) ->
  (allowed = true ->
     let s2 := MkState (world s1) (trace s1 ++ skipNotice chart err) in
     UpgradeChart t chart s = (Ok {| Chart := chart; Error := None |}, s2) /\
     (Upgrade (config t) = true -> forall valuesFiles,
        InstallChart t chart valuesFiles s
        = (err <- doUpgrade t chart chart true ;;
           match err with
           | Some e => ret {| Chart := chart; Error := Some e |}
           | None =>
               err <- doInstall t chart ;;
               ret {| Chart := chart; Error := err |}
           end) s2 /\
        exists later,
          trace (snd (InstallChart t chart valuesFiles s))
          = (trace s1 ++ later)%list /\
          Forall (only_chart chart) later)) /\
  (allowed = false -> forall e, err = Some e ->
     let s2 := MkState (world s1) (trace s1 ++ [gateFailureNotice chart]) in
     UpgradeChart t chart s = (Ok {| Chart := chart; Error := Some e |}, s2) /\
     (Upgrade (config t) = true -> forall valuesFiles,
        InstallChart t chart valuesFiles s
        = (Ok {| Chart := chart; Error := Some e |}, s2))).
Proof.
  intros Hgate. split.
  - intros -> s2.
    assert (Hup : UpgradeChart t chart s
                  = (Ok {| Chart := chart; Error := None |}, s2)).
    { unfold UpgradeChart, s2. rewrite (bind_ok _ _ _ _ _ Hgate).
      destruct err as [e|]; cbn [skipNotice].
      - unfold fmt_Println. rewrite bind_emit. reflexivity.
      - rewrite app_nil_r. destruct s1. reflexivity. }
    split; [exact Hup|]. intros Hon valuesFiles.
    assert (Hinstall : InstallChart t chart valuesFiles s
              = (err <- doUpgrade t chart chart true ;;
                 match err with
                 | Some e => ret {| Chart := chart; Error := Some e |}
                 | None =>
                     err <- doInstall t chart ;;
                     ret {| Chart := chart; Error := err |}
                 end) s2).
    { unfold InstallChart. rewrite Hon, (bind_ok _ _ _ _ _ Hup). reflexivity. }
    split; [exact Hinstall|]. rewrite Hinstall.
    destruct (selfUpgrade_then_install t chart s2) as (l & Hl & Honly).
    exists (skipNotice chart err ++ l)%list. split.
    + rewrite Hl. unfold s2. cbn [trace]. rewrite app_assoc. reflexivity.
    + apply Forall_app. split; [|exact Honly].
      destruct err; cbn [skipNotice]; repeat constructor.
  - intros -> e -> s2.
    assert (Hup : UpgradeChart t chart s
                  = (Ok {| Chart := chart; Error := Some e |}, s2)).
    { unfold UpgradeChart, s2, gateFailureNotice.
      rewrite (bind_ok _ _ _ _ _ Hgate).
      unfold fmt_Print. rewrite bind_emit. reflexivity. }
    split; [exact Hup|]. intros Hon valuesFiles.
    unfold InstallChart. rewrite Hon, (bind_ok _ _ _ _ _ Hup). reflexivity.
Qed.
End UpgradeGate.

(** Two departures from "the error is a hard failure" and "upgrade
    testing is skipped entirely".  The chart has a previous revision, the
    check returns an error next to its permission, and the result of
    [UpgradeChart] does not carry it.  And with upgrade testing on, after
    the check has allowed the breaking change from 1.0.0 to 2.0.0,
    [InstallChart] still upgrades a release of the chart, and the chart
    fails when that upgrade fails. *)
Lemma UpgradeChart_error_with_allowed :
  let t := scripted defaultConfig majorBump in
  let reason := errors_New "2.0.0 does not have same major version as 1.0.0" in
  (fst (GetOldChartVersion (U := scriptedUtil majorBump) t "charts/foo" start)
   = Ok ("1.0.0", None) /\
   fst (checkBreakingChangeAllowed (U := scriptedUtil majorBump) t "charts/foo" start)
   = Ok (true, Some reason) /\
   fst (UpgradeChart (U := scriptedUtil majorBump) t "charts/foo" start)
   = Ok {| Chart := "charts/foo"; Error := None |}) /\
  let t := scripted upgrading brokenSelfUpgrade in
  let install :=
    InstallChart (U := scriptedUtil brokenSelfUpgrade) t "charts/foo" [] start in
  fst (checkBreakingChangeAllowed (U := scriptedUtil brokenSelfUpgrade)
         t "charts/foo" start)
  = Ok (true, None) /\
  fst (UpgradeChart (U := scriptedUtil brokenSelfUpgrade) t "charts/foo" start)
  = Ok {| Chart := "charts/foo"; Error := None |} /\
  In (EvUpgrade "charts/foo" "foo-k3x9") (trace (snd install)) /\
  fst install = Ok {| Chart := "charts/foo"; Error := Some upgradeError |}.
Proof.
  split; [repeat split; reflexivity|].
  intros t install.
  split; [vm_compute; reflexivity|]. split; [vm_compute; reflexivity|].
  split; [|vm_compute; reflexivity].
  vm_compute. repeat (first [left; reflexivity | right]).
Qed.

(** A major bump with a reason: the permission comes with an error, the
    upgrade test against the previous revision is skipped, the reason is
    printed, and the install goes on with the chart alone.  A malformed
    new version: the check fails and the chart fails, for [UpgradeChart]
    and for [InstallChart]. *)
Lemma UpgradeChart_gate_witness :
  let reason := errors_New "2.0.0 does not have same major version as 1.0.0" in
  let checked (sc : Script) :=
    snd (checkBreakingChangeAllowed (U := scriptedUtil sc)
           (scripted upgrading sc) "charts/foo" start) in
  let upgrade (sc : Script) :=
    UpgradeChart (U := scriptedUtil sc) (scripted upgrading sc) "charts/foo" start in
  let install (sc : Script) :=
    InstallChart (U := scriptedUtil sc) (scripted upgrading sc) "charts/foo" [] start in
  (upgrade majorBump
   = (Ok {| Chart := "charts/foo"; Error := None |},
      MkState tt (trace (checked majorBump)
                  ++ [Stdout ("Skipping upgrade test of 'charts/foo' because: "
                              ++ "2.0.0 does not have same major version as 1.0.0"
                              ++ nl)])) /\
   exists later,
     trace (snd (install majorBump)) = (trace (checked majorBump) ++ later)%list /\
     Forall (only_chart "charts/foo") later) /\
  (upgrade (versions "1.0.0" "2.x")
   = (Ok {| Chart := "charts/foo"; Error := Some parseError |},
      MkState tt (trace (checked (versions "1.0.0" "2.x"))
                  ++ [Stdout ("Error comparing chart versions for 'charts/foo'" ++ nl)])) /\
   install (versions "1.0.0" "2.x") = upgrade (versions "1.0.0" "2.x")).
Proof.
  intros reason checked upgrade install.
  destruct (UpgradeChart_gate (U := scriptedUtil majorBump)
              (scripted upgrading majorBump) "charts/foo" start
              true (Some reason) (checked majorBump))
    as [Hallowed _]; [vm_compute; reflexivity|].
  destruct (UpgradeChart_gate (U := scriptedUtil (versions "1.0.0" "2.x"))
              (scripted upgrading (versions "1.0.0" "2.x")) "charts/foo" start
              false (Some parseError) (checked (versions "1.0.0" "2.x")))
    as [_ Hfailed]; [vm_compute; reflexivity|].
  destruct (Hallowed eq_refl) as (Hskip & Hinstall).
  destruct (Hinstall eq_refl []) as (_ & Hlater).
  destruct (Hfailed eq_refl parseError eq_refl) as (Hchart & Hends).
  split; [split; [exact Hskip | exact Hlater]|].
  split; [exact Hchart|].
  unfold install, upgrade. rewrite Hchart. exact (Hends eq_refl []).
Defined.


(* ===================================================================== *)
(** ** Runs that end early, and what a run always does *)
(* ===================================================================== *)

Section RunLevel.
Context {W : Type} {U : Util W}.
Implicit Types (t : Testing W) (s : State W).

(** X5.  In changed-charts mode, when the working
    directory is no Git repository, [processCharts] ends after that one
    check: it returns an empty list and the error "Must be in a git
    repository" wrapped as "Error identifying charts to process"; the
    error of the check itself is dropped, and neither the merge base is
    asked for nor Helm initialised. *)
Theorem change_detection_outside_repository t
    (action : string -> list string -> M W TestResult) s (e0 : error) :
  ProcessAllCharts (config t) = false ->
  Charts (config t) = [] ->
  fst (Git_ValidateRepository (git t) (world s)) = Some e0 ->
  processCharts t action s
  = (Ok ([], Some (errors_Wrap (fmt_Errorf "Must be in a git repository")
                     "Error identifying charts to process")),
     MkState (snd (Git_ValidateRepository (git t) (world s)))
       (trace s ++ [EvValidateRepository])).
Proof.
  intros Hall Hcharts Hvalid.
  unfold processCharts, prepareRun, FindChartsToBeProcessed.
  rewrite Hall, Hcharts. cbn [length Nat.ltb Nat.leb].
  unfold ComputeChangedChartDirectories, computeMergeBase.
  rewrite !bind_bind, bind_call, Hvalid. reflexivity.
Qed.

(** X6.  With upgrade testing on and the repositories
    registered: if the merge base cannot be identified, the run ends there
    with the wrapped error and an empty list, and no working tree is
    added; if it can, the removal of the working tree of the previous
    revision is the last thing the run does, whatever the pipelines return
    and also when a dependency build cuts the run short. *)
Theorem working_tree_is_removed t
    (action : string -> list string -> M W TestResult)
    s charts s1 mergeBase (mergeErr : option error) s2 :
  Upgrade (config t) = true ->
  prepareRun t s = (Ok (inr charts), s1) ->
  computeMergeBase t s1 = (Ok (mergeBase, mergeErr), s2) ->
  match mergeErr with
  | Some e =>
      processCharts t action s
      = (Ok ([], Some (errors_Wrap e "Error identifying merge base")), s2)
  | None =>
      last (trace (snd (processCharts t action s)))
      = Some (EvRemoveWorkingTree ctPreviousRevisionTree)
  end.
Proof.
  intros Hon Hprep Hbase.
  unfold processCharts. rewrite (bind_ok _ _ _ _ _ Hprep), Hon.
  rewrite (bind_ok _ _ _ _ _ Hbase).
  destruct mergeErr as [e|]; [reflexivity|].
  rewrite bind_call, defer_run. cbn [snd].
  rewrite bind_call. cbn [ret snd trace]. apply last_snoc.
Qed.

Lemma runCharts_unfold t (action : string -> list string -> M W TestResult)
    charts results :
  runCharts t action charts results =
  (r <- forRange charts
          (results, {| OverallSuccess := true; TestResultList := results |})
          (runCharts_step t action) ;;
   match r with
   | inl v => ret v
   | inr (results, testResults) =>
       if OverallSuccess testResults then ret (results, None)
       else ret (results, Some (errors_New "Error processing charts"))
   end).
Proof. reflexivity. Qed.

(** X7.  When the per-chart loop has come
    to a chart whose dependencies cannot be built, [runCharts] returns an
    empty list with the wrapped error: the results [acc] of the charts
    before it are dropped, and the charts after it are not touched. *)
Theorem dependency_failure_discards_results t
    (action : string -> list string -> M W TestResult)
    pre chart post s (acc : list TestResult * TestResults) sk e :
  forRange pre ([], {| OverallSuccess := true; TestResultList := [] |})
    (runCharts_step t action) s = (Ok (inr acc), sk) ->
  fst (Helm_BuildDependencies (helm t) chart (world sk)) = Some e ->
  runCharts t action (pre ++ chart :: post) [] s
  = (Ok ([], Some (errors_Wrap e
                     ("Error building dependencies for chart '" ++ chart ++ "'"))),
     MkState (snd (Helm_BuildDependencies (helm t) chart (world sk)))
       (trace sk ++ [EvBuildDependencies chart])).
Proof.
  intros Hpre Hbuild.
  rewrite runCharts_unfold. unfold bind at 1.
  rewrite (forRange_app _ _ _ _ _ _ _ Hpre).
  erewrite forRange_leave; [reflexivity|].
  unfold runCharts_step, FindValuesFilesForCI. destruct acc as [results testResults].
  rewrite bind_ask, bind_call. cbn [fst snd world trace]. rewrite Hbuild.
  reflexivity.
Qed.

(** X8.  With [ProcessAllCharts] off and charts named
    in the configuration, each of the three modes processes exactly those
    charts, in that order and without checking that they are charts: a run
    that is not cut short returns one result for each of them. *)
Theorem explicit_charts_are_processed_verbatim t :
  ProcessAllCharts (config t) = false ->
  Charts (config t) <> [] ->
  verbatim t (LintCharts t) /\
  verbatim t (InstallCharts t) /\
  verbatim t (LintAndInstallCharts t).
Proof.
  intros Hall Hcharts.
  assert (Hsel : forall s, FindChartsToBeProcessed t s = (Ok (Charts (config t), None), s)).
  { intros s. unfold FindChartsToBeProcessed. rewrite Hall.
    destruct (Charts (config t)); [congruence | reflexivity]. }
  assert (Hgen : forall action,
            (forall chart valuesFiles,
                returns (fun r => Chart r = chart) (action chart valuesFiles)) ->
            verbatim t (processCharts t action)).
  { intros action Hact s results err s' Hrun Herr.
    destruct (processCharts_aggregates t action Hact s results err s' Hrun)
      as (_ & Hfull & _).
    destruct (Hfull Herr) as (charts & s1 & Hfound & Hmap).
    rewrite Hsel in Hfound. congruence. }
  split; [|split]; apply Hgen; intros chart valuesFiles.
  - apply LintChart_names.
  - apply InstallChart_names.
  - apply LintAndInstallChart_names.
Qed.
End RunLevel.

(* ===================================================================== *)
(** ** Linting *)
(* ===================================================================== *)

Section Linting.
Context {W : Type} {U : Util W}.
Implicit Types (t : Testing W) (s : State W).

Lemma CheckVersionIncrement_quiet t chart :
  emits (fun e => cluster_event e = false) (CheckVersionIncrement t chart).
Proof.
  unfold CheckVersionIncrement, GetOldChartVersion, GetNewChartVersion,
    fmt_Println, fmt_Print.
  emits_auto.
Qed.

Lemma ValidateMaintainers_quiet t chart :
  emits (fun e => cluster_event e = false) (ValidateMaintainers t chart).
Proof. unfold ValidateMaintainers, fmt_Println. emits_auto. Qed.

Lemma LintChart_quiet t chart valuesFiles :
  emits (fun e => cluster_event e = false) (LintChart t chart valuesFiles).
Proof.
  pose proof (CheckVersionIncrement_quiet t chart) as Hversion.
  pose proof (ValidateMaintainers_quiet t chart) as Hmaintainers.
  unfold LintChart.
  destruct (CheckVersionIncrementFlag (config t)),
    (ValidateChartSchema (config t)), (ValidateYaml (config t)),
    (ValidateMaintainersFlag (config t));
    unfold lintStage, id, fmt_Print;
    emits_auto; solve [apply Hversion | apply Hmaintainers].
Qed.

Lemma prepareRun_quiet t :
  emits (fun e => cluster_event e = false) (prepareRun t).
Proof.
  unfold prepareRun.
  apply emits_bind.
  - eapply emits_weaken; [|apply FindChartsToBeProcessed_emits].
    intros e. destruct e; cbn; intros H; try reflexivity; discriminate H.
  - intros [charts err].
    unfold printCharts, collectRepoArgs, addRepos, fmt_Println, fmt_Print.
    emits_auto.
Qed.

(** X9.  A run of [LintCharts], from
    chart selection to the last chart and with every optional check on or
    off, makes no call that installs, upgrades, tests or deletes a
    release, deletes a namespace or asks kubectl for anything. *)
Theorem LintCharts_leaves_cluster_alone t :
  emits (fun e => cluster_event e = false) (LintCharts t).
Proof.
  pose proof (LintChart_quiet t) as Hlint.
  pose proof (prepareRun_quiet t) as Hprep.
  unfold LintCharts, processCharts. apply emits_bind; [exact Hprep|].
  intros [v|charts]; [apply emits_ret|].
  unfold computeMergeBase, buildPreviousRevisions, runCharts,
    FindValuesFilesForCI, fmt_Println.
  emits_auto; apply Hlint.
Qed.

(** X10.  When the lint of a chart fails,
    [LintAndInstallChart] returns the result of the lint and stops in the
    state the lint left: nothing is installed, and no call of it touches
    the cluster. *)
Theorem lint_failure_prevents_install t chart valuesFiles s (r : TestResult) s1 :
  LintChart t chart valuesFiles s = (Ok r, s1) ->
  Error r <> None ->
  LintAndInstallChart t chart valuesFiles s = (Ok r, s1) /\
  exists l, trace s1 = (trace s ++ l)%list /\
            Forall (fun e => cluster_event e = false) l.
Proof.
  intros Hlint Hfailed. split.
  - unfold LintAndInstallChart. rewrite (bind_ok _ _ _ _ _ Hlint).
    destruct (Error r); [reflexivity | congruence].
  - destruct (LintChart_quiet t chart valuesFiles s) as (l & E & F).
    rewrite Hlint in E. exists l. auto.
Qed.

(** X11.  With the optional checks off and no
    values file given, [LintChart] runs [helm lint] exactly once, with the
    empty values file, and the result carries what that lint answers. *)
Theorem LintChart_defaults t chart s :
  CheckVersionIncrementFlag (config t) = false ->
  ValidateChartSchema (config t) = false ->
  ValidateYaml (config t) = false ->
  ValidateMaintainersFlag (config t) = false ->
  let linted := Helm_LintWithValues (helm t) chart "" (world s) in
  LintChart t chart [] s
  = (Ok {| Chart := chart; Error := fst linted |},
     MkState (snd linted)
       (trace s ++ [Stdout ("Linting chart '" ++ chart ++ "'" ++ nl);
                    EvLintWithValues chart ""])).
Proof.
  intros H1 H2 H3 H4 linted.
  unfold LintChart. rewrite H1, H2, H3, H4. unfold id, fmt_Print, orDefaults.
  cbn [length Nat.eqb app forRange String.eqb negb].
  rewrite bind_emit, !bind_bind, bind_ret, !bind_bind, bind_call.
  subst linted. cbn [world trace]. rewrite <- app_assoc.
  destruct (Helm_LintWithValues (helm t) chart "" (world s)) as [[e|] w'];
    reflexivity.
Qed.
End Linting.

(* ===================================================================== *)
(** ** Errors of the version gate *)
(* ===================================================================== *)

Section GateErrors.
Context {W : Type} {U : Util W}.
Implicit Types (t : Testing W) (s : State W) (w : W).

Lemma GetOldChartVersion_failure t chart s (err : error) w :
  (forall s0 : State W, world s0 = world s ->
     exists tr,
       GetOldChartVersion t chart s0 = (Ok ("", Some err), MkState w tr)) ->
  old_version_unavailable t chart s err w.
Proof.
  intros Hold. destruct (Hold s eq_refl) as (tr & E).
  assert (Hup : UpgradeChart t chart s
                = (Ok {| Chart := chart; Error := Some err |},
                   MkState w (tr ++ [Stdout ("Error comparing chart versions for '"
                                             ++ chart ++ "'" ++ nl)]))).
  { unfold UpgradeChart, checkBreakingChangeAllowed.
    rewrite bind_bind, (bind_ok _ _ _ _ _ E). reflexivity. }
  repeat split.
  - unfold CheckVersionIncrement, fmt_Print. rewrite bind_emit.
    match goal with |- context [bind _ _ ?s0] =>
      destruct (Hold s0 eq_refl) as (tr0 & E0)
    end.
    rewrite (bind_ok _ _ _ _ _ E0). reflexivity.
  - unfold checkBreakingChangeAllowed. rewrite (bind_ok _ _ _ _ _ E). reflexivity.
  - rewrite Hup. reflexivity.
  - rewrite Hup. reflexivity.
Qed.

(** X12.  When the chart is on the
    target branch but [git show] fails, or its output does not parse, the
    error is wrapped ("Error reading old Chart.yaml", "Error reading old
    chart version") and is a hard failure everywhere: the increment check
    returns it, the breaking-change check refuses with it, and
    [UpgradeChart] fails the chart with it without reading the new version
    or installing anything. *)
Theorem unreadable_old_chart_fails_the_chart t chart s w1 contents
    (showErr : option error) w2 :
  Git_FileExistsOnBranch (git t) (path_Join [chart; "Chart.yaml"])
    (Remote (config t)) (TargetBranch (config t)) (world s) = (true, w1) ->
  Git_Show (git t) (path_Join [chart; "Chart.yaml"])
    (Remote (config t)) (TargetBranch (config t)) w1 = ((contents, showErr), w2) ->
  match showErr with
  | Some e =>
      old_version_unavailable t chart s
        (errors_Wrap e "Error reading old Chart.yaml") w2
  | None =>
      forall y e, util_ReadChartYaml contents = (y, Some e) ->
        old_version_unavailable t chart s
          (errors_Wrap e "Error reading old chart version") w2
  end.
Proof.
  intros Hex Hshow.
  assert (Hrun : forall s0 : State W, world s0 = world s ->
            forall k : string * option error -> M W (string * option error),
              exists tr,
                bind (call (EvShow (path_Join [chart; "Chart.yaml"])
                              (Remote (config t)) (TargetBranch (config t)))
                        (Git_Show (git t) (path_Join [chart; "Chart.yaml"])
                           (Remote (config t)) (TargetBranch (config t)))) k
                  (MkState w1 (trace s0 ++ [EvFileExistsOnBranch
                                              (path_Join [chart; "Chart.yaml"])
                                              (Remote (config t))
                                              (TargetBranch (config t))]))
                = k (contents, showErr) (MkState w2 tr)).
  { intros s0 Hs0 k. rewrite bind_call. cbn [world]. rewrite Hshow.
    eexists. reflexivity. }
  destruct showErr as [e|]; [|intros y e Hparse];
    apply GetOldChartVersion_failure; intros s0 Hs0;
    unfold GetOldChartVersion; rewrite bind_call, Hs0, Hex; cbn [fst snd negb];
    match goal with |- context [bind _ ?k _] =>
      destruct (Hrun s0 Hs0 k) as (tr & E)
    end;
    rewrite E; cbn beta iota; [|rewrite Hparse]; eexists; reflexivity.
Qed.

(** X13.  For a chart released at a
    version [old]: if the Chart.yaml of the working copy cannot be read,
    [CheckVersionIncrement] returns that error wrapped as "Error reading
    new chart version"; and if the comparison of the versions returns an
    error, [CheckVersionIncrement] returns that error, whatever number
    comes with it. *)
Theorem CheckVersionIncrement_hard_errors t chart s old w1 :
  old_version_is t chart (world s) old w1 ->
  old <> "" ->
  (forall y e w2,
      ChartUtils_ReadChartYaml (chartUtils t) chart w1 = ((y, Some e), w2) ->
      fst (CheckVersionIncrement t chart s)
      = Ok (Some (errors_Wrap e "Error reading new chart version"))) /\
  (forall new w2 r e,
      new_version_is t chart w1 new w2 ->
      util_CompareVersions old new = (r, Some e) ->
      fst (CheckVersionIncrement t chart s) = Ok (Some e)).
Proof.
  intros Hold Hne. apply String.eqb_neq in Hne.
  split.
  - intros y e w2 Hread.
    unfold CheckVersionIncrement, fmt_Print, fmt_Println. rewrite bind_emit.
    match goal with |- context [bind _ _ ?s0] =>
      destruct (GetOldChartVersion_present t chart s0 old w1 Hold) as (s1 & E1 & Hw1)
    end.
    rewrite (bind_ok _ _ _ _ _ E1), Hne, bind_emit.
    unfold GetNewChartVersion. rewrite bind_bind, bind_call. cbn [world].
    rewrite Hw1, Hread. reflexivity.
  - intros new w2 r e Hnew Hcmp.
    unfold CheckVersionIncrement, fmt_Print, fmt_Println. rewrite bind_emit.
    match goal with |- context [bind _ _ ?s0] =>
      destruct (GetOldChartVersion_present t chart s0 old w1 Hold) as (s1 & E1 & Hw1)
    end.
    rewrite (bind_ok _ _ _ _ _ E1), Hne, bind_emit.
    rewrite <- Hw1 in Hnew.
    match goal with |- context [bind _ _ ?s0] =>
      destruct (GetNewChartVersion_present t chart s0 new w2 Hnew) as (s2 & E2 & Hw2)
    end.
    rewrite (bind_ok _ _ _ _ _ E2), bind_emit, Hcmp. reflexivity.
Qed.
End GateErrors.

(* ===================================================================== *)
(** ** Repository arguments, directory listings and default values *)
(* ===================================================================== *)

Section Configuration.
Context {W : Type} {U : Util W}.
Implicit Types (t : Testing W) (s : State W).

(** X14.  When every entry of [HelmRepoExtraArgs] has
    its [=], the loop over them ends without touching the world or the
    trace, and the map it builds gives, for each repository name, the
    fields of the value of the last entry for that name, and nothing for a
    name without an entry.  The name is what stands before the first [=]
    of the entry, the value what follows it, and its fields are what
    [strings.Fields] makes of it: the runs of characters between white
    space, Unicode white space included. *)
Theorem collectRepoArgs_last_entry_wins t s :
  Forall (fun repo => ~ malformed repo) (HelmRepoExtraArgs (config t)) ->
  exists repoArgs : gmap string (list string),
    collectRepoArgs t s = (Ok (inr repoArgs), s) /\
    forall name, repoArgs !! name = lastArgs (HelmRepoExtraArgs (config t)) name.
Proof.
  unfold collectRepoArgs.
  assert (Hgen : forall entries (acc : gmap string (list string)),
            Forall (fun repo => ~ malformed repo) entries ->
            exists repoArgs : gmap string (list string),
              forRange (R := list TestResult * option error) entries acc
                (fun repo repoArgs =>
                   let repoSlice := strings_SplitN repo "="%char 2 in
                   name <- index repoSlice 0 ;;
                   extra <- index repoSlice 1 ;;
                   let repoExtraArgs := strings_Fields extra in
                   ret (inr (<[name := repoExtraArgs]> repoArgs))) s
              = (Ok (inr repoArgs), s) /\
              forall name,
                repoArgs !! name = match lastArgs entries name with
                                   | Some args => Some args
                                   | None => acc !! name
                                   end).
  { induction entries as [|entry rest IH]; intros acc Hwell.
    - exists acc. split; reflexivity.
    - inversion Hwell as [|? ? Hentry Hrest]; subst.
      cbn [forRange]. rewrite SplitN_two.
      destruct (strings_Cut entry "="%char) as [[n v]|] eqn:Hcut;
        [|exfalso; apply Hentry; exact Hcut].
      cbn [index lookup list_lookup]. rewrite bind_bind, bind_ret.
      rewrite bind_bind, bind_ret, bind_ret.
      destruct (IH (<[n := strings_Fields v]> acc) Hrest) as (m & Hrun & Hm).
      exists m. split; [exact Hrun|]. intros name.
      rewrite Hm. cbn [lastArgs]. rewrite Hcut.
      destruct (lastArgs rest name); [reflexivity|].
      rewrite lookup_insert.
      destruct (String.eqb n name) eqn:Hn.
      + apply String.eqb_eq in Hn. rewrite decide_True by exact Hn. reflexivity.
      + apply String.eqb_neq in Hn. rewrite decide_False by exact Hn. reflexivity. }
  intros Hwell.
  destruct (Hgen _ ∅ Hwell) as (m & Hrun & Hm).
  exists m. split; [exact Hrun|]. intros name. rewrite Hm.
  destruct (lastArgs _ name); [reflexivity | apply lookup_empty].
Qed.

Lemma ReadAllChartDirectories_unfold t :
  ReadAllChartDirectories t =
  (r <- forRange (ChartDirs (config t)) []
          (fun chartParentDir chartDirs =>
             r <- call (EvListChildDirs chartParentDir)
                    (DirectoryLister_ListChildDirs (directoryLister t)
                       chartParentDir (chartDirTest t)) ;;
             let '(dirs, err) := r in
             match err with
             | Some e =>
                 ret (inl ([], Some (errors_Wrap e "Error reading chart directories")))
             | None => ret (inr (chartDirs ++ dirs)%list)
             end) ;;
   match r with
   | inl v => ret v
   | inr chartDirs => ret (chartDirs, None)
   end).
Proof. reflexivity. Qed.

(** X15.  For a directory lister whose answer for a parent
    directory, asked with the chart test, does not depend on the world:
    if every listing succeeds, [ReadAllChartDirectories] returns the
    listings one after the other in the order of [ChartDirs], duplicates
    included; if the listing of some directory fails after those before it
    succeeded, it returns the wrapped error and an empty list. *)
Theorem ReadAllChartDirectories_concatenates t s
    (listing : string -> list string * option error) :
  (forall parent w,
      fst (DirectoryLister_ListChildDirs (directoryLister t) parent
             (chartDirTest t) w) = listing parent) ->
  (Forall (fun parent => snd (listing parent) = None) (ChartDirs (config t)) ->
   fst (ReadAllChartDirectories t s)
   = Ok (concat (map (fun parent => fst (listing parent)) (ChartDirs (config t))),
         None)) /\
  (forall pre parent post e,
      ChartDirs (config t) = (pre ++ parent :: post)%list ->
      Forall (fun p => snd (listing p) = None) pre ->
      snd (listing parent) = Some e ->
      fst (ReadAllChartDirectories t s)
      = Ok ([], Some (errors_Wrap e "Error reading chart directories"))).
Proof.
  intros Hpure. rewrite ReadAllChartDirectories_unfold.
  match goal with |- context [forRange _ [] ?b] => set (body := b) end.
  assert (Hloop : forall parents acc s0,
            Forall (fun p => snd (listing p) = None) parents ->
            exists s', forRange parents acc body s0
                       = (Ok (inr (acc ++ concat (map (fun p => fst (listing p)) parents))%list),
                          s')).
  { induction parents as [|p parents IH]; intros acc s0 Hall.
    - exists s0. cbn. rewrite app_nil_r. reflexivity.
    - inversion Hall as [|? ? Hp Hrest]; subst.
      cbn [forRange map concat]. cbn beta.
      unfold body at 1. rewrite bind_bind, bind_call, Hpure.
      destruct (listing p) as [dirs err]. cbn [snd] in Hp. subst err.
      rewrite bind_ret.
      match goal with |- context [forRange parents ?a body ?s1] =>
        destruct (IH a s1 Hrest) as (s' & E)
      end.
      exists s'. rewrite E. cbn [fst]. rewrite <- app_assoc. reflexivity. }
  split.
  - intros Hall. destruct (Hloop _ [] s Hall) as (s' & E).
    rewrite (bind_ok _ _ _ _ _ E). reflexivity.
  - intros pre parent post e Hdirs Hpre Hfail. rewrite Hdirs.
    destruct (Hloop pre [] s Hpre) as (sk & E).
    unfold bind at 1. rewrite (forRange_app _ _ _ _ _ _ _ E).
    cbn [forRange]. unfold body at 1. rewrite bind_bind, bind_call, Hpure.
    destruct (listing parent) as [dirs err]. cbn [snd] in Hfail. subst err.
    reflexivity.
Qed.

(** X16.  A changed file without a second
    path segment, or whose second segment is an excluded chart, is passed
    over before any lookup: the turn of the loop for it leaves the list of
    chart directories and the whole state as they were. *)
Theorem unconsidered_file_costs_nothing t file (dirs : list string) s :
  considered (ExcludedCharts (config t)) file = false ->
  changedChartDirs_step t file dirs s = (Ok (inr dirs), s).
Proof.
  unfold considered, changedChartDirs_step. intros Hskip.
  destruct (strings_SplitN (filepath_ToSlash file) "/"%char 3)
    as [|first [|second rest]]; [reflexivity | reflexivity|].
  cbn [length Nat.ltb Nat.leb].
  change (index (W := W) (first :: second :: rest) 1) with (ret (W := W) second).
  rewrite bind_ret.
  destruct (util_StringSliceContains (ExcludedCharts (config t)) second);
    [reflexivity | discriminate Hskip].
Qed.

(** X17.  For a chart without values files in its [ci]
    folder, [doInstall] is one install attempt with the empty values file
    and [doUpgrade] one upgrade attempt with it, each after its headline
    and with no line announcing a values file: the effective set of values
    files is never empty. *)
Theorem no_values_files_means_one_attempt t chart newChart
    (oldChartMustPass : bool) s :
  filepath_Glob (path_Join [chart; "ci/*-values.yaml"]) (world s) = [] ->
  doInstall t chart s
  = doInstall_fun t chart ""
      (MkState (world s)
         (trace s ++ [Stdout ("Installing chart '" ++ chart ++ "'..." ++ nl)])) /\
  doUpgrade t chart newChart oldChartMustPass s
  = doUpgrade_fun t chart oldChartMustPass ""
      (MkState (world s)
         (trace s ++ [Stdout ("Testing upgrades of chart '" ++ newChart
                              ++ "' relative to previous revision '" ++ chart
                              ++ "'..." ++ nl)])).
Proof.
  intros Hglob. split.
  - unfold doInstall, FindValuesFilesForCI, fmt_Print.
    rewrite bind_emit, bind_ask. cbn [world trace fst snd]. rewrite Hglob.
    cbn [orDefaults length Nat.eqb app forRange String.eqb negb].
    rewrite !bind_bind, bind_ret. unfold bind, ret.
    match goal with |- context [doInstall_fun t chart "" ?s0] =>
      destruct (doInstall_fun t chart "" s0) as [[[e|]|msg] s1]; reflexivity
    end.
  - unfold doUpgrade, doUpgrade_valuesFiles, FindValuesFilesForCI, fmt_Print.
    rewrite !bind_bind, bind_emit, bind_bind, bind_ask. cbn [world trace fst snd].
    rewrite Hglob, bind_ret.
    cbn [orDefaults length Nat.eqb app forRange].
    unfold doUpgrade_iter, announceValuesFile. cbn [String.eqb negb].
    rewrite !bind_bind, bind_ret. unfold bind, ret.
    match goal with |- context [doUpgrade_fun t chart ?m "" ?s0] =>
      destruct (doUpgrade_fun t chart m "" s0) as [[[e|]|msg] s1]; reflexivity
    end.
Qed.
End Configuration.

(* ===================================================================== *)
(** ** The further properties at work *)
(* ===================================================================== *)

(** A plain install of a chart: only events of an install. *)
Lemma InstallChart_without_upgrade_witness :
  let t := scripted defaultConfig (failingWhere nothing gitError) in
  exists l,
    trace (snd (InstallChart (U := scriptedUtil (failingWhere nothing gitError))
                  t "charts/foo" [] start))
    = (trace start ++ l)%list /\
    Forall (fun e => install_event e = true) l.
Proof.
  intros t.
  exact (InstallChart_without_upgrade
           (U := scriptedUtil (failingWhere nothing gitError))
           t "charts/foo" [] eq_refl start).
Defined.

(** Upgrade testing in the namespace [ci]. *)
Lemma configured_namespace_is_kept_witness :
  let t := scripted inNamespace (failingWhere nothing gitError) in
  exists l,
    trace (snd (InstallChart (U := scriptedUtil (failingWhere nothing gitError))
                  t "charts/foo" [] start))
    = (trace start ++ l)%list /\
    Forall (keeps_namespace "ci") l.
Proof.
  intros t.
  apply (configured_namespace_is_kept
           (U := scriptedUtil (failingWhere nothing gitError)) t "charts/foo" []).
  discriminate.
Defined.

(** Change detection where there is no repository. *)
Lemma change_detection_outside_repository_witness :
  let sc := failingWhere isValidateRepository gitError in
  let t := scripted defaultConfig sc in
  processCharts (U := scriptedUtil sc) t (LintChart (U := scriptedUtil sc) t) start
  = (Ok ([], Some (errors_Wrap (fmt_Errorf "Must be in a git repository")
                     "Error identifying charts to process")),
     MkState tt [EvValidateRepository]).
Proof.
  intros sc t.
  apply (change_detection_outside_repository (U := scriptedUtil sc) t _ start gitError);
    reflexivity.
Defined.

(** Upgrade testing without a merge base, and with one. *)
Lemma working_tree_is_removed_witness :
  let run (sc : Script) :=
    processCharts (U := scriptedUtil sc) (scripted upgrading sc)
      (InstallChart (U := scriptedUtil sc) (scripted upgrading sc)) start in
  fst (run (failingWhere isMergeBase gitError))
  = Ok ([], Some (errors_Wrap gitError "Error identifying merge base")) /\
  last (trace (snd (run (failingWhere nothing gitError))))
  = Some (EvRemoveWorkingTree ctPreviousRevisionTree) /\
  last (trace (snd (run (failingWhere isBuildOfBar gitError))))
  = Some (EvRemoveWorkingTree ctPreviousRevisionTree).
Proof.
  intros run.
  assert (Hprep : forall which,
            which = isMergeBase \/ which = nothing \/ which = isBuildOfBar ->
            prepareRun (scripted upgrading (failingWhere which gitError)) start
            = (Ok (inr ["charts/foo"; "charts/bar"]),
               snd (prepareRun (scripted upgrading (failingWhere which gitError))
                      start))).
  { intros which [->|[->| ->]]; vm_compute; reflexivity. }
  split; [|split].
  - pose proof (working_tree_is_removed
                  (U := scriptedUtil (failingWhere isMergeBase gitError))
                  (scripted upgrading (failingWhere isMergeBase gitError))
                  (InstallChart (U := scriptedUtil (failingWhere isMergeBase gitError))
                     (scripted upgrading (failingWhere isMergeBase gitError)))
                  start _ _ "4f2a9c1" (Some gitError) _ eq_refl
                  (Hprep _ (or_introl eq_refl)) eq_refl) as H.
    cbv beta iota in H. unfold run. rewrite H. reflexivity.
  - exact (working_tree_is_removed
             (U := scriptedUtil (failingWhere nothing gitError))
             (scripted upgrading (failingWhere nothing gitError))
             _ start _ _ "4f2a9c1" None _ eq_refl
             (Hprep _ (or_intror (or_introl eq_refl))) eq_refl).
  - exact (working_tree_is_removed
             (U := scriptedUtil (failingWhere isBuildOfBar gitError))
             (scripted upgrading (failingWhere isBuildOfBar gitError))
             _ start _ _ "4f2a9c1" None _ eq_refl
             (Hprep _ (or_intror (or_intror eq_refl))) eq_refl).
Defined.

(** The dependencies of [charts/bar] cannot be built: the result for
    [charts/foo], which was linted before, is not returned. *)
Lemma dependency_failure_discards_results_witness :
  let sc := failingWhere isBuildOfBar gitError in
  let t := scripted repoWithoutUrl sc in
  fst (runCharts (U := scriptedUtil sc) t (LintChart (U := scriptedUtil sc) t)
         ["charts/foo"; "charts/bar"; "charts/baz"] [] start)
  = Ok ([], Some (errors_Wrap gitError
                    "Error building dependencies for chart 'charts/bar'")).
Proof.
  intros sc t.
  set (before := forRange ["charts/foo"]
                   ([], {| OverallSuccess := true; TestResultList := [] |})
                   (runCharts_step (U := scriptedUtil sc) t
                      (LintChart (U := scriptedUtil sc) t)) start).
  assert (Hbefore : before
                    = (Ok (inr ([{| Chart := "charts/foo"; Error := None |}],
                                {| OverallSuccess := true; TestResultList := [] |})),
                       snd before))
    by (vm_compute; reflexivity).
  pose proof (dependency_failure_discards_results (U := scriptedUtil sc) t _
                ["charts/foo"] "charts/bar" ["charts/baz"] start _ _ gitError
                Hbefore eq_refl) as H.
  cbn [app] in H. rewrite H. reflexivity.
Defined.

(** The charts named in the configuration are linted, in that order. *)
Lemma explicit_charts_are_processed_verbatim_witness :
  let sc := failingWhere nothing gitError in
  let t := scripted upgrading sc in
  map Chart (fst (match fst (LintCharts (U := scriptedUtil sc) t start) with
                  | Ok v => v
                  | Panic _ => ([], None)
                  end))
  = ["charts/foo"; "charts/bar"].
Proof.
  intros sc t.
  destruct (explicit_charts_are_processed_verbatim (U := scriptedUtil sc) t
              eq_refl ltac:(discriminate)) as (Hlint & _ & _).
  assert (Hrun : LintCharts (U := scriptedUtil sc) t start
                 = (Ok ([{| Chart := "charts/foo"; Error := None |};
                         {| Chart := "charts/bar"; Error := None |}], None),
                    snd (LintCharts (U := scriptedUtil sc) t start)))
    by (vm_compute; reflexivity).
  rewrite Hrun. cbn [fst].
  exact (Hlint start _ None _ Hrun (or_introl eq_refl)).
Defined.

(** The lint of [charts/bar] fails: nothing is installed. *)
Lemma lint_failure_prevents_install_witness :
  let t := scripted defaultConfig barFailsLint in
  fst (LintAndInstallChart (U := scriptedUtil barFailsLint) t "charts/bar" [] start)
  = Ok {| Chart := "charts/bar"; Error := Some lintError |} /\
  trace (snd (LintAndInstallChart (U := scriptedUtil barFailsLint) t
                "charts/bar" [] start))
  = [Stdout ("Linting chart 'charts/bar'" ++ nl); EvLintWithValues "charts/bar" ""].
Proof.
  intros t.
  destruct (lint_failure_prevents_install (U := scriptedUtil barFailsLint)
              t "charts/bar" [] start
              {| Chart := "charts/bar"; Error := Some lintError |}
              (MkState tt [Stdout ("Linting chart 'charts/bar'" ++ nl);
                           EvLintWithValues "charts/bar" ""])
              eq_refl ltac:(discriminate)) as (Hrun & _).
  rewrite Hrun. split; reflexivity.
Defined.

(** No optional check, no values file: one lint, with the defaults. *)
Lemma LintChart_defaults_witness :
  LintChart (U := scriptedUtil barFailsLint) (scripted defaultConfig barFailsLint)
    "charts/bar" [] start
  = (Ok {| Chart := "charts/bar"; Error := Some lintError |},
     MkState tt [Stdout ("Linting chart 'charts/bar'" ++ nl);
                 EvLintWithValues "charts/bar" ""]).
Proof.
  exact (LintChart_defaults (U := scriptedUtil barFailsLint)
           (scripted defaultConfig barFailsLint) "charts/bar" start
           eq_refl eq_refl eq_refl eq_refl).
Defined.

(** [git show] fails; and [git show] answers something that is not YAML. *)
Lemma unreadable_old_chart_fails_the_chart_witness :
  let failed := failingWhere isShow gitError in
  old_version_unavailable (U := scriptedUtil failed) (scripted upgrading failed)
    "charts/foo" start (errors_Wrap gitError "Error reading old Chart.yaml") tt /\
  old_version_unavailable (U := scriptedUtil unparsable) (scripted upgrading unparsable)
    "charts/foo" start
    (errors_Wrap (errors_New "yaml: unmarshal errors")
       "Error reading old chart version") tt.
Proof.
  intros failed. split.
  - exact (unreadable_old_chart_fails_the_chart (U := scriptedUtil failed)
             (scripted upgrading failed) "charts/foo" start tt "1.0.0"
             (Some gitError) tt eq_refl eq_refl).
  - exact (unreadable_old_chart_fails_the_chart (U := scriptedUtil unparsable)
             (scripted upgrading unparsable) "charts/foo" start tt "version: ["
             None tt eq_refl eq_refl None (errors_New "yaml: unmarshal errors")
             eq_refl).
Defined.

(** The new Chart.yaml cannot be read; and the new version is no version. *)
Lemma CheckVersionIncrement_hard_errors_witness :
  let unreadable := failingWhere isReadChartYaml gitError in
  let garbled := versions "1.0.0" "2.x" in
  fst (CheckVersionIncrement (U := scriptedUtil unreadable)
         (scripted defaultConfig unreadable) "charts/foo" start)
  = Ok (Some (errors_Wrap gitError "Error reading new chart version")) /\
  fst (CheckVersionIncrement (U := scriptedUtil garbled)
         (scripted defaultConfig garbled) "charts/foo" start)
  = Ok (Some parseError).
Proof.
  intros unreadable garbled. split.
  - assert (Hold : old_version_is (U := scriptedUtil unreadable)
                     (scripted defaultConfig unreadable) "charts/foo" tt "1.0.0" tt).
    { exists tt, "1.0.0", {| Version := "1.0.0"; Deprecated := false; Maintainers := [] |}.
      repeat split; reflexivity. }
    destruct (CheckVersionIncrement_hard_errors (U := scriptedUtil unreadable)
                _ _ start _ _ Hold ltac:(discriminate)) as (H & _).
    exact (H None gitError tt eq_refl).
  - assert (Hold : old_version_is (U := scriptedUtil garbled)
                     (scripted defaultConfig garbled) "charts/foo" tt "1.0.0" tt).
    { exists tt, "1.0.0", {| Version := "1.0.0"; Deprecated := false; Maintainers := [] |}.
      repeat split; reflexivity. }
    destruct (CheckVersionIncrement_hard_errors (U := scriptedUtil garbled)
                _ _ start _ _ Hold ltac:(discriminate)) as (_ & H).
    apply (H "2.x" tt 0%Z parseError); [|reflexivity].
    exists {| Version := "2.x"; Deprecated := false; Maintainers := [] |}.
    split; reflexivity.
Defined.

(** Two entries for [stable]: the later one counts, and the no-break
    space in it separates two arguments as the blanks do; the value of
    [mirror] keeps its own [=]; there is nothing for [local]. *)
Lemma collectRepoArgs_last_entry_wins_witness :
  exists repoArgs : gmap string (list string),
    collectRepoArgs (scripted credentials quiet) start = (Ok (inr repoArgs), start) /\
    repoArgs !! "stable" = Some ["--username"; "bot"; "--insecure"] /\
    repoArgs !! "incubator" = Some ["--debug"] /\
    repoArgs !! "mirror" = Some ["--header"; "a=b"] /\
    repoArgs !! "local" = None.
Proof.
  destruct (collectRepoArgs_last_entry_wins (scripted credentials quiet) start)
    as (repoArgs & Hrun & Hlookup).
  - repeat constructor; unfold malformed; vm_compute; discriminate.
  - exists repoArgs. split; [exact Hrun|].
    rewrite !Hlookup. repeat split; vm_compute; reflexivity.
Defined.

(** Two chart directories: the chart [bar] is excluded by its name and
    [incubator/notes] is no chart; and a listing that fails. *)
Lemma ReadAllChartDirectories_concatenates_witness :
  let sc := failingWhere isLookupOfNotes gitError in
  let broken := failingWhere isListingOfIncubator gitError in
  fst (ReadAllChartDirectories (scripted allCharts sc) start)
  = Ok (["charts/foo"; "incubator/baz"], None) /\
  fst (ReadAllChartDirectories (scripted allCharts broken) start)
  = Ok ([], Some (errors_Wrap gitError "Error reading chart directories")).
Proof.
  intros sc broken.
  set (listing (which : Script) := fun parent =>
         fst (DirectoryLister_ListChildDirs (scriptedLister which) parent
                (chartDirTest (scripted allCharts which)) tt)).
  assert (Hpure : forall which parent w,
            fst (DirectoryLister_ListChildDirs
                   (directoryLister (scripted allCharts which)) parent
                   (chartDirTest (scripted allCharts which)) w)
            = listing which parent).
  { intros which parent []. reflexivity. }
  split.
  - destruct (ReadAllChartDirectories_concatenates (scripted allCharts sc) start
                (listing sc) (Hpure sc)) as (Hall & _).
    rewrite Hall; [vm_compute; reflexivity|].
    repeat constructor.
  - destruct (ReadAllChartDirectories_concatenates (scripted allCharts broken) start
                (listing broken) (Hpure broken)) as (_ & Hfail).
    apply (Hfail ["charts"] "incubator" [] gitError); [reflexivity | |reflexivity].
    repeat constructor.
Defined.

(** A file at the top of the repository and a file of an excluded chart. *)
Lemma unconsidered_file_costs_nothing_witness :
  let t := scripted withoutBar changes in
  changedChartDirs_step t "README.md" ["charts/foo"] start
  = (Ok (inr ["charts/foo"]), start) /\
  changedChartDirs_step t "charts/bar/Chart.yaml" ["charts/foo"] start
  = (Ok (inr ["charts/foo"]), start).
Proof.
  intros t. split.
  - apply (unconsidered_file_costs_nothing t "README.md"). reflexivity.
  - apply (unconsidered_file_costs_nothing t "charts/bar/Chart.yaml"). reflexivity.
Defined.

(** A chart without a [ci] folder. *)
Lemma no_values_files_means_one_attempt_witness :
  let t := scripted upgrading quiet in
  EvInstallWithValues "charts/foo" "" "foo-k3x9" "foo-k3x9"
  ∈ trace (snd (doInstall (U := scriptedUtil quiet) t "charts/foo" start)) /\
  fst (doUpgrade (U := scriptedUtil quiet) t "charts/foo" "charts/foo" true start)
  = Ok None.
Proof.
  intros t.
  destruct (no_values_files_means_one_attempt (U := scriptedUtil quiet)
              t "charts/foo" "charts/foo" true start eq_refl) as (Hinstall & Hupgrade).
  rewrite Hinstall, Hupgrade. split; [|vm_compute; reflexivity].
  vm_compute. do 1 (apply elem_of_cons; right). apply elem_of_cons. left. reflexivity.
Defined.
